(** * market-lens: scanner contract, entry-point scanner and the two
      simulation engines, embedded from [scanners/base.py],
      [scanners/entry_point.py], [simulation/engine.py] and
      [simulation/portfolio.py].

    Conventions of the embedding.
    - A [pd.Timestamp] is a day number ([Z], day 0 = Thursday 1970-01-01);
      [(a - b).days] is [a - b].
    - A price or volume is the rational ([Q]) the float denotes.  The
      indicator columns and the day loops are computed in exact
      arithmetic, every comparison and branch kept.  The two places where
      a decision compares the result of float operations with a threshold
      -- the exit rules of the entry-point scanner and the entry step of
      the portfolio engine -- are also given over an [Arithmetic], which
      rounds the result of every operation; [exact_arithmetic] rounds
      nothing and gives back the exact definitions, [round_binary64] is
      the rounding of Python's floats.
      A value that pandas may leave undefined (NaN) is an [option Q] with
      [None] for NaN, and a comparison with NaN is false as in Python.
      The code divides only by prices and moving averages of prices, which
      are positive on market data; [Q] gives [x / 0 = 0] where numpy would
      give an infinity or NaN.
    - A [pd.DataFrame] of prices is the list of its rows in index order;
      [df.iloc[i]] is the i-th row, [df.loc[:d]] keeps the rows dated [<= d]
      (the index is ascending in every caller).
    - A Python [dict] is an association list in insertion order with unique
      keys: assignment replaces in place or appends, as CPython does.
    - An exception is a [Raise] result; the hooks of a scanner may raise.
    - The loop states carry one ghost field each ([hook_calls],
      [entry_queries]) that logs the scanner calls the loop body makes. *)

From Stdlib Require Import String Ascii.
From Stdlib Require Import List Sorted Permutation ZArith QArith Qround Qabs Bool Lia Lqa Arith.
From Stdlib Require DecimalString.
From Stdlib Require PrimFloat FloatOps SpecFloat.
Import ListNotations.
Open Scope string_scope.
Open Scope list_scope.

Set Implicit Arguments.

(* ------------------------------------------------------------------ *)
(** ** Numbers *)

Definition Qltb (x y : Q) : bool := negb (Qle_bool y x).
Definition Qleb (x y : Q) : bool := Qle_bool x y.
Definition Qgtb (x y : Q) : bool := Qltb y x.
Definition Qgeb (x y : Q) : bool := Qleb y x.

(** Python's two-argument [min(a, b)] and [max(a, b)]: the first argument
    is returned unless the second is strictly smaller (larger). *)
Definition py_min (a b : Q) : Q := if Qltb b a then b else a.
Definition py_max (a b : Q) : Q := if Qgtb b a then b else a.

(** [round(x)] to the nearest integer, ties to even. *)
Definition round_half_even (q : Q) : Z :=
  let f := Qfloor q in
  match Qcompare (q - inject_Z f) (1 # 2) with
  | Lt => f
  | Gt => (f + 1)%Z
  | Eq => if Z.even f then f else (f + 1)%Z
  end.

(** [round(x, nd)]. *)
Definition py_round (q : Q) (nd : nat) : Q :=
  let s := inject_Z (10 ^ Z.of_nat nd) in
  Qred (inject_Z (round_half_even (q * s)) / s).

(** [2 ^ e] for an integer exponent. *)
Definition pow2 (e : Z) : Q :=
  match e with
  | Z0 => 1
  | Zpos p => inject_Z (2 ^ Zpos p)
  | Zneg p => 1 # (2 ^ p)
  end.

(** The binary64 value nearest to [q], ties to the even significand: 53
    significant bits, and the fixed exponent -1074 in the subnormal
    range.  Overflow to an infinity is not modelled: there is no largest
    value. *)
Definition round_binary64 (q : Q) : Q :=
  match Qnum q with
  | Z0 => 0
  | n =>
      let a := Qabs q in
      let lg := (Z.log2 (Z.abs n) - Z.log2 (Zpos (Qden q)))%Z in
      let lg' := if Qle_bool (pow2 lg) a then lg else (lg - 1)%Z in
      let e := Z.max (lg' - 52) (-1074) in
      let m := inject_Z (round_half_even (a / pow2 e)) * pow2 e in
      Qred (if (0 <? n)%Z then m else - m)
  end.

(** The arithmetic a run computes in.  An operation on floats is the exact
    operation followed by the rounding [fl]; [rolling w s] is
    [s.rolling(w).mean()] and [smean s] is [s.mean()], which pandas sums
    in an order of its own, [rolling] giving a column as long as [s]. *)
Record Arithmetic : Type := mkArithmetic {
  fl : Q -> Q;
  rolling : nat -> list Q -> list (option Q);
  smean : list Q -> Q;
  rolling_length : forall w xs, length (rolling w xs) = length xs
}.

(** A Python float that may be NaN or infinite, as a constructor argument
    of [ScanResult] can be. *)
Inductive pyfloat : Type :=
| PNaN
| PNegInf
| PPosInf
| PFin (q : Q).

Definition pyfloat_lt (a b : pyfloat) : bool :=
  match a, b with
  | PNaN, _ | _, PNaN => false
  | PNegInf, PNegInf => false
  | PNegInf, _ => true
  | _, PNegInf => false
  | PPosInf, _ => false
  | PFin _, PPosInf => true
  | PFin x, PFin y => Qltb x y
  end.

Definition pyfloat_min (a b : pyfloat) : pyfloat := if pyfloat_lt b a then b else a.
Definition pyfloat_max (a b : pyfloat) : pyfloat := if pyfloat_lt a b then b else a.

(** NaN-aware comparisons on [option Q] ([None] is NaN). *)
Definition nlt (a b : option Q) : bool :=
  match a, b with Some x, Some y => Qltb x y | _, _ => false end.
Definition ngt (a b : option Q) : bool := nlt b a.
Definition isna (a : option Q) : bool :=
  match a with None => true | Some _ => false end.

(* ------------------------------------------------------------------ *)
(** ** Dictionaries in insertion order *)

Section Dict.
Variables K V : Type.
Variable eqb : K -> K -> bool.

Fixpoint dict_get (k : K) (d : list (K * V)) : option V :=
  match d with
  | [] => None
  | (k', v) :: d' => if eqb k k' then Some v else dict_get k d'
  end.

Definition dict_mem (k : K) (d : list (K * V)) : bool :=
  match dict_get k d with Some _ => true | None => false end.

(** [d[k] = v] *)
Fixpoint dict_set (k : K) (v : V) (d : list (K * V)) : list (K * V) :=
  match d with
  | [] => [(k, v)]
  | (k', v') :: d' =>
      if eqb k k' then (k', v) :: d' else (k', v') :: dict_set k v d'
  end.

(** [del d[k]] *)
Fixpoint dict_del (k : K) (d : list (K * V)) : list (K * V) :=
  match d with
  | [] => []
  | (k', v') :: d' => if eqb k k' then d' else (k', v') :: dict_del k d'
  end.

Definition dict_keys (d : list (K * V)) : list K := map fst d.
End Dict.

(* ------------------------------------------------------------------ *)
(** ** Result types of [scanners/base.py] *)

Definition Timestamp := Z.

Inductive Value : Type :=
| VNum (q : Q)
| VStr (s : string).

Definition Dict := list (string * Value).

Record Bar : Type := mkBar {
  Date : Timestamp;
  Open : Q;
  High : Q;
  Low : Q;
  Close : Q;
  Volume : Q
}.

Definition DataFrame := list Bar.

(** Fundamentals record: sparse key -> number mapping. *)
Definition Series := list (string * Q).

Record ScanResult : Type := mkScanResult {
  sr_ticker : string;
  sr_score : pyfloat;
  sr_signal : string;
  sr_details : Dict
}.

(** The dataclass constructor followed by [__post_init__]:
    [self.score = max(0.0, min(100.0, self.score))]. *)
Definition ScanResult_init (ticker : string) (score : pyfloat)
    (signal : string) (details : Dict) : ScanResult :=
  mkScanResult ticker
    (pyfloat_max (PFin 0) (pyfloat_min (PFin 100) score))
    signal details.

Record EntrySignal : Type := mkEntrySignal {
  es_date : Timestamp;
  es_price : Q;
  es_reason : string;
  es_metadata : Dict
}.

Record ExitSignal : Type := mkExitSignal {
  xs_date : Timestamp;
  xs_price : Q;
  xs_reason : string;
  xs_metadata : Dict
}.

Record Trade : Type := mkTrade {
  ticker : string;
  entry_date : Timestamp;
  entry_price : Q;
  entry_reason : string;
  exit_date : Timestamp;
  exit_price : Q;
  exit_reason : string;
  return_pct : Q;
  hold_days : Z
}.

Definition is_win (t : Trade) : bool := Qgtb (return_pct t) 0.

(* ------------------------------------------------------------------ *)
(** ** DataFrame access *)

(** [ohlcv.loc[:d]] on an ascending index. *)
Definition loc_upto (ohlcv : DataFrame) (d : Timestamp) : DataFrame :=
  filter (fun b => (Date b <=? d)%Z) ohlcv.

(** [ohlcv.loc[a:b]]. *)
Definition loc_between (ohlcv : DataFrame) (a b : Timestamp) : DataFrame :=
  filter (fun r => (a <=? Date r)%Z && (Date r <=? b)%Z) ohlcv.

(** [s.iloc[-1]] of a non-empty column. *)
Definition last_opt (A : Type) (l : list A) : option A :=
  match List.rev l with [] => None | x :: _ => Some x end.

Definition index (ohlcv : DataFrame) : list Timestamp := map Date ohlcv.

(** [d in ohlcv.index] *)
Definition in_index (d : Timestamp) (ohlcv : DataFrame) : bool :=
  existsb (fun b => (Date b =? d)%Z) ohlcv.

(** [ohlcv.loc[d, col]] for a date of the index. *)
Definition loc_row (ohlcv : DataFrame) (d : Timestamp) : option Bar :=
  find (fun b => (Date b =? d)%Z) ohlcv.

(* ------------------------------------------------------------------ *)
(** ** Exceptions *)

Inductive PyError : Type :=
| IndexError
| KeyError.

Inductive Res (A : Type) : Type :=
| Ok (a : A)
| Raise (e : PyError).

Arguments Ok {A} a.
Arguments Raise {A} e.

Definition bind (A B : Type) (c : Res A) (k : A -> Res B) : Res B :=
  match c with
  | Ok a => k a
  | Raise e => Raise e
  end.

Notation "x <- c ;; k" := (bind c (fun x => k))
  (at level 61, c at next level, right associativity).

(* ------------------------------------------------------------------ *)
(** ** The scanner contract ([BaseScanner]) *)

(** The overridable hooks of [BaseScanner].  A hook may raise; the engines
    do not catch it inside their day loop.  [prepare_simulation] returns
    the scanner with its caches filled. *)
Class BaseScanner (S : Type) : Type := {
  scan : S -> string -> DataFrame -> Series -> Res (option ScanResult);
  prepare_simulation : S -> string -> DataFrame -> Series -> Res S;
  check_entry_signal :
    S -> string -> DataFrame -> Series -> Timestamp -> Res (option EntrySignal);
  check_exit_signal :
    S -> string -> DataFrame -> EntrySignal -> Timestamp -> Res (option ExitSignal)
}.

Local Open Scope Q_scope.

(** [BaseScanner.check_entry_signal]: the default entry check. *)
Definition base_check_entry_signal
    (scan_fn : string -> DataFrame -> Series -> Res (option ScanResult))
    (ticker : string) (ohlcv : DataFrame) (fundamentals : Series)
    (as_of_date : Timestamp) : Res (option EntrySignal) :=
  let ohlcv_slice := loc_upto ohlcv as_of_date in
  if (length ohlcv_slice <? 50)%nat then Ok None
  else
    result <- scan_fn ticker ohlcv_slice fundamentals ;;
    match result with
    | None => Ok None
    | Some result =>
        match last_opt ohlcv_slice with
        | Some b =>
            Ok (Some (mkEntrySignal as_of_date (Close b)
                        (sr_signal result) (sr_details result)))
        | None => Raise IndexError
        end
    end.

(** [BaseScanner.check_exit_signal]: 10% stop-loss, 30-day time exit. *)
Definition base_check_exit_signal
    (ticker : string) (ohlcv : DataFrame) (entry_signal : EntrySignal)
    (current_date : Timestamp) : Res (option ExitSignal) :=
  let ohlcv_slice := loc_upto ohlcv current_date in
  match last_opt ohlcv_slice with
  | None => Ok None
  | Some b =>
      let current_price := Close b in
      let entry_price := es_price entry_signal in
      if Qltb current_price (entry_price * (90 # 100)) then
        Ok (Some (mkExitSignal current_date current_price "STOP_LOSS" []))
      else
        let days_held := (current_date - es_date entry_signal)%Z in
        if (30 <=? days_held)%Z then
          Ok (Some (mkExitSignal current_date current_price "TIME_EXIT" []))
        else Ok None
  end.

(* ------------------------------------------------------------------ *)
(** ** Indicator engine (pandas operations used by the scanner) *)

Definition Qsum (l : list Q) : Q := fold_left Qplus l 0.

Definition mean (l : list Q) : Q :=
  Qsum l / inject_Z (Z.of_nat (length l)).

(** [l[-n:]] *)
Definition lastn (A : Type) (n : nat) (l : list A) : list A :=
  skipn (length l - n) l.

(** Value of [s.rolling(w).mean()] at the last position of [pre]: the mean
    of the trailing [w] values, NaN while fewer than [w] are available. *)
Definition window_mean (w : nat) (pre : list Q) : option Q :=
  if ((w =? 0) || (length pre <? w))%nat then None
  else Some (mean (lastn w pre)).

(** [s.rolling(w).mean()] *)
Definition rolling_mean (w : nat) (xs : list Q) : list (option Q) :=
  map (fun i => window_mean w (firstn (S i) xs)) (seq 0 (length xs)).

Definition Qmax2 (a b : Q) : Q := if Qltb a b then b else a.
Definition Qmin2 (a b : Q) : Q := if Qltb b a then b else a.

(** [max()] of a column; NaN on an empty one. *)
Definition list_max (l : list Q) : option Q :=
  match l with
  | [] => None
  | x :: r => Some (fold_left Qmax2 r x)
  end.

(** [s.expanding().max()] *)
Definition expanding_max (xs : list Q) : list (option Q) :=
  map (fun i => list_max (firstn (S i) xs)) (seq 0 (length xs)).

(** [s.iloc[i]] on an indicator column. *)
Definition iloc (l : list (option Q)) (i : nat) : option Q := nth i l None.

(** Monday = 0 ... Sunday = 6. *)
Definition weekday (d : Timestamp) : Z := ((d + 3) mod 7)%Z.

(** Label of the weekly bin of [d] under frequency ['W'] (weeks closed and
    labelled on their Sunday). *)
Definition week_label (d : Timestamp) : Timestamp := (d + (6 - weekday d))%Z.

(** [resample_ohlcv(daily_df, "W")]: one row per week that has bars
    (first open, max high, min low, last close, summed volume); weeks
    without bars are the rows [dropna()] removes. *)
Fixpoint resample_ohlcv (daily_df : DataFrame) : DataFrame :=
  match daily_df with
  | [] => []
  | b :: rest =>
      let fresh := mkBar (week_label (Date b)) (Open b) (High b) (Low b)
                         (Close b) (Volume b) in
      match resample_ohlcv rest with
      | [] => [fresh]
      | r :: rs =>
          if (week_label (Date b) =? Date r)%Z then
            mkBar (Date r) (Open b) (Qmax2 (High b) (High r))
                  (Qmin2 (Low b) (Low r)) (Close r) (Volume b + Volume r) :: rs
          else fresh :: r :: rs
      end
  end.

(** Value at date [d] of [s.reindex(idx, method="ffill")]: the value at
    the last label [<= d], NaN before the first label. *)
Definition ffill_at (s : list (Timestamp * option Q)) (d : Timestamp) : option Q :=
  fold_left (fun acc lv => if (fst lv <=? d)%Z then snd lv else acc) s None.

Definition reindex_ffill (labels : list Timestamp) (vals : list (option Q))
    (idx : list Timestamp) : list (option Q) :=
  map (ffill_at (combine labels vals)) idx.

(* ------------------------------------------------------------------ *)
(** ** [EntryPointScanner] *)

(** The dict of indicator columns built by [_compute_indicators]; every
    column has the length of the frame it was computed from, and
    [ind_index] is the index the columns share. *)
Record Indicators : Type := mkIndicators {
  ind_index : list Timestamp;
  d_mxf : list (option Q);
  d_mf : list (option Q);
  d_mm : list (option Q);
  d_ms : list (option Q);
  ath : list (option Q);
  vol_avg : list (option Q);
  w_close : list (option Q);
  w_mf : list (option Q);
  w_mm : list (option Q)
}.

(** The attributes [prepare_simulation] sets. *)
Record SimCache : Type := mkSimCache {
  _sim_ticker : string;
  _sim_entries : list (Timestamp * EntrySignal);
  _sim_ind : option Indicators
}.

(** Scanner parameters ([__init__] / [configure]; the window lengths are
    non-negative ints) and the simulation attributes, absent until
    [prepare_simulation] has run. *)
Record EntryPointScanner : Type := mkEntryPointScanner {
  d_xfast : nat;
  d_fast : nat;
  d_mid : nat;
  d_slow : nat;
  w_fast : nat;
  w_mid : nat;
  approach_pct : Q;
  touch_pct : Q;
  lookback : nat;
  wick_body_ratio : Q;
  upper_wick_max : Q;
  sim : option SimCache
}.

(** [EntryPointScanner()] *)
Definition EntryPointScanner_init : EntryPointScanner :=
  mkEntryPointScanner 5 10 20 50 10 20 3 (5 # 10) 3 2 (3 # 10) None.

Definition _compute_indicators (self : EntryPointScanner) (ohlcv : DataFrame)
    : option Indicators :=
  if (length ohlcv <? d_slow self + 20)%nat then None
  else
    let close := map Close ohlcv in
    let weekly := resample_ohlcv ohlcv in
    if (length weekly <? w_mid self + 2)%nat then None
    else
      let w_close_s := map Close weekly in
      let w_labels := index weekly in
      Some (mkIndicators (index ohlcv)
        (rolling_mean (d_xfast self) close)
        (rolling_mean (d_fast self) close)
        (rolling_mean (d_mid self) close)
        (rolling_mean (d_slow self) close)
        (expanding_max (map High ohlcv))
        (rolling_mean 20 (map Volume ohlcv))
        (reindex_ffill w_labels (map Some w_close_s) (index ohlcv))
        (reindex_ffill w_labels (rolling_mean (w_fast self) w_close_s) (index ohlcv))
        (reindex_ffill w_labels (rolling_mean (w_mid self) w_close_s) (index ohlcv))).

Definition _detect_hammer (self : EntryPointScanner) (open_ high low close : Q)
    : bool :=
  let total_range := high - low in
  if Qleb total_range 0 then false
  else
    let body := Qabs (close - open_) in
    let body_top := py_max close open_ in
    let body_bottom := py_min close open_ in
    let lower_wick := body_bottom - low in
    let upper_wick := high - body_top in
    if Qltb body (total_range * (5 # 100)) then
      Qgtb lower_wick (total_range * (6 # 10))
      && Qltb upper_wick (total_range * upper_wick_max self)
    else
      Qgeb lower_wick (body * wick_body_ratio self)
      && Qltb upper_wick (total_range * upper_wick_max self).

Inductive SignalKind : Type := HAMMER | TOUCH | APPROACHING.

Definition SignalKind_str (k : SignalKind) : string :=
  match k with HAMMER => "HAMMER" | TOUCH => "TOUCH" | APPROACHING => "APPROACHING" end.

(** [_sig_short] *)
Definition _sig_short (k : SignalKind) : string :=
  match k with HAMMER => "HMR" | TOUCH => "TCH" | APPROACHING => "APR" end.

(** The [best_details] dict: keys "ma", "low_dist_%", "close_dist_%",
    "candle_ago". *)
Record BestDetails : Type := mkBestDetails {
  bd_ma : string;
  bd_low_dist : Q;
  bd_close_dist : Q;
  bd_candle_ago : nat
}.

(** Loop variables [best_signal], [best_score], [best_details]. *)
Record Best : Type := mkBest {
  best_signal : option SignalKind;
  best_score : Q;
  best_details : option BestDetails
}.

Definition str_of_nat (n : nat) : string :=
  DecimalString.NilZero.string_of_uint (Nat.to_uint n).

(** [f"MA{n}"] *)
Definition ma_label_of (n : nat) : string := String.append "MA" (str_of_nat n).

(** [if s > best_score: best_score = s; best_signal = ...; best_details = ...] *)
Definition take_if_better (s : Q) (k : SignalKind) (d : BestDetails) (acc : Best)
    : Best :=
  if Qgtb s (best_score acc) then mkBest (Some k) s (Some d) else acc.

(** Body of the inner loop over [(ma_val, ma_label)] for candle [j].
    With an undefined [ma_val] every comparison of the body is false and
    nothing is updated. *)
Definition check_ma (self : EntryPointScanner) (ago : nat) (bar_j : Bar)
    (acc : Best) (mav : option Q * string) : Best :=
  match fst mav with
  | None => acc
  | Some ma_val =>
      let ma_label := snd mav in
      let recency := py_max 0 (1 - inject_Z (Z.of_nat ago) * (3 # 10)) in
      let c_j := Close bar_j in
      let l_j := Low bar_j in
      let close_dist_pct := (c_j - ma_val) / ma_val * 100 in
      let low_dist_pct := (l_j - ma_val) / ma_val * 100 in
      if String.eqb ma_label (ma_label_of (d_mid self)) && Qltb c_j ma_val then acc
      else
        let is_hammer :=
          _detect_hammer self (Open bar_j) (High bar_j) l_j c_j in
        let low_near_ma :=
          Qleb (Qabs low_dist_pct) (touch_pct self) || Qleb low_dist_pct 0 in
        let details :=
          mkBestDetails ma_label (py_round (Qabs low_dist_pct) 2)
                        (py_round close_dist_pct 2) ago in
        if is_hammer && low_near_ma then
          let proximity :=
            py_max 0 (1 - Qabs low_dist_pct / py_max (touch_pct self) (1 # 100)) * 20 in
          take_if_better ((40 + proximity) * recency) HAMMER details acc
        else if low_near_ma then
          let proximity :=
            py_max 0 (1 - Qabs low_dist_pct / py_max (touch_pct self) (1 # 100)) * 15 in
          take_if_better ((25 + proximity) * recency) TOUCH details acc
        else if Qleb (Qabs close_dist_pct) (approach_pct self) then
          let proximity :=
            py_max 0 (1 - Qabs close_dist_pct / approach_pct self) * 15 in
          take_if_better ((10 + proximity) * recency) APPROACHING details acc
        else acc
  end.

(** Body of the outer loop for candle index [j]. *)
Definition check_candle (self : EntryPointScanner) (idx : nat)
    (ohlcv : DataFrame) (ind : Indicators) (acc : Best) (j : nat) : Best :=
  match nth_error ohlcv j with
  | None => acc
  | Some bar_j =>
      fold_left (check_ma self (idx - j) bar_j)
        [(iloc (d_mf ind) j, ma_label_of (d_fast self));
         (iloc (d_mm ind) j, ma_label_of (d_mid self))]
        acc
  end.

(** [range(max(min_idx, idx - self.lookback + 1), idx + 1)] *)
Definition lookback_range (self : EntryPointScanner) (idx : nat) : list nat :=
  let lo := Nat.max (d_slow self + 20) (idx + 1 - lookback self) in
  seq lo (idx + 1 - lo).

(** The dict [_check_entry_at] returns. *)
Record EntryCheck : Type := mkEntryCheck {
  ec_score : Q;
  ec_signal : string;
  ec_entry_label : string;
  ec_best_details : BestDetails;
  ec_pct_from_ath : Q;
  ec_weekly_full_align : bool
}.

(** ["MA10".replace("MA", "M")] on a label built by [ma_label_of]. *)
Definition replace_MA (s : string) : string :=
  match s with
  | String "M" (String "A" r) => String "M" r
  | _ => s
  end.

(** [_check_entry_at].  The trend gates read possibly undefined values: a
    NaN makes the gate's comparison false, so the gate returns [None]. *)
Definition _check_entry_at (self : EntryPointScanner) (idx : nat)
    (ohlcv : DataFrame) (ind : Indicators) : Res (option EntryCheck) :=
  let min_idx := (d_slow self + 20)%nat in
  if (idx <? min_idx)%nat then Ok None
  else
    match nth_error ohlcv idx with
    | None => Raise IndexError
    | Some bar =>
        let c := Close bar in
        (* Weekly filter *)
        let w_last := iloc (w_close ind) idx in
        let w_mf_v := iloc (w_mf ind) idx in
        let w_mm_v := iloc (w_mm ind) idx in
        if isna w_mm_v || negb (ngt w_last w_mm_v) then Ok None
        else
          let weekly_full_align := ngt w_last w_mf_v && ngt w_mf_v w_mm_v in
          (* Daily filter *)
          let mxf_val := iloc (d_mxf ind) idx in
          let mf_val := iloc (d_mf ind) idx in
          let mm_val := iloc (d_mm ind) idx in
          let ms_val := iloc (d_ms ind) idx in
          if isna mxf_val || negb (ngt mxf_val mf_val && ngt mf_val mm_val)
          then Ok None
          else if nlt (Some c) mm_val then Ok None
          else
            let ma50_aligned := ngt mm_val ms_val in
            let best :=
              fold_left (check_candle self idx ohlcv ind)
                        (lookback_range self idx) (mkBest None 0 None) in
            match best_signal best, best_details best,
                  iloc (ath ind) idx, mxf_val, mm_val, w_mm_v with
            | Some kind, Some details, Some ath_v, Some mxf, Some mm, Some wmm =>
                let s0 := best_score best in
                (* Resistance / ATH bonus *)
                let pct_from_ath := (ath_v - c) / ath_v * 100 in
                let s1 :=
                  if Qleb pct_from_ath 3 then s0 + 20
                  else if Qleb pct_from_ath 5 then s0 + 15
                  else if Qleb pct_from_ath 10 then s0 + 8
                  else s0 in
                let recent_high :=
                  list_max (firstn (idx + 1 - (idx - 20))
                              (skipn (idx - 20) (map High ohlcv))) in
                let s2 :=
                  match recent_high with
                  | Some rh =>
                      if Qleb ((ath_v - rh) / ath_v * 100) 2 then s1 + 5 else s1
                  | None => s1
                  end in
                (* Bonus scores *)
                let s3 := if ma50_aligned then s2 + 15 else s2 in
                let d_spread_pct := (mxf - mm) / mm * 100 in
                let s4 := s3 + py_min 15 (d_spread_pct * 3) in
                let s5 :=
                  match w_mf_v with
                  | Some wmf =>
                      let w_spread_pct := (wmf - wmm) / wmm * 100 in
                      if weekly_full_align
                      then s4 + py_min 15 (w_spread_pct * 2 + 5)
                      else s4 + py_min 5 (py_max 0 w_spread_pct)
                  | None => s4 + 0
                  end in
                let s6 := if Qgtb c (Open bar) then s5 + 5 else s5 in
                let score := py_min 100 s6 in
                let signal :=
                  if Qgeb score 65 then "STRONG_BUY"
                  else if Qgeb score 40 then "BUY" else "WATCH" in
                let ml := replace_MA (bd_ma details) in
                let ag := bd_candle_ago details in
                let entry_label :=
                  String.append (_sig_short kind)
                    (String.append "@"
                       (String.append ml
                          (String.append "("
                             (String.append (str_of_nat ag) "d)")))) in
                Ok (Some (mkEntryCheck (py_round score 1) signal entry_label
                            details pct_from_ath weekly_full_align))
            | None, _, _, _, _, _ => Ok None
            | _, _, None, _, _, _ => Raise IndexError
            | _, _, _, _, _, _ => Ok None
            end
    end.

(** [fundamentals.get(key, default)] *)
Definition series_get (key : string) (s : Series) (default : Q) : Q :=
  match dict_get String.eqb key s with Some v => v | None => default end.

(** [EntryPointScanner.scan] *)
Definition ep_scan (self : EntryPointScanner) (ticker : string)
    (ohlcv : DataFrame) (fundamentals : Series) : Res (option ScanResult) :=
  match _compute_indicators self ohlcv with
  | None => Ok None
  | Some ind =>
      result <- _check_entry_at self (length ohlcv - 1) ohlcv ind ;;
      match result with
      | None => Ok None
      | Some result =>
          Ok (Some (ScanResult_init ticker (PFin (ec_score result))
                      (ec_signal result)
                      [("entry", VStr (ec_entry_label result));
                       ("dist%", VNum (py_round (bd_close_dist (ec_best_details result)) 1));
                       ("ath%", VNum (py_round (ec_pct_from_ath result) 1));
                       ("wk", VStr (if ec_weekly_full_align result then "Y" else ""));
                       ("cap$B", VNum (py_round
                           (series_get "marketCap" fundamentals 0 / 1000000000) 0))]))
      end
  end.

(** The loop of [prepare_simulation] over [range(d_slow + 20, len(ohlcv))],
    filling [_sim_entries]. *)
Fixpoint prepare_entries (self : EntryPointScanner) (ohlcv : DataFrame)
    (ind : Indicators) (idxs : list nat)
    (entries : list (Timestamp * EntrySignal))
    : Res (list (Timestamp * EntrySignal)) :=
  match idxs with
  | [] => Ok entries
  | i :: idxs' =>
      result <- _check_entry_at self i ohlcv ind ;;
      match result, nth_error ohlcv i with
      | Some r, Some b =>
          let date := Date b in
          prepare_entries self ohlcv ind idxs'
            (dict_set Z.eqb date
               (mkEntrySignal date (Close b) (ec_signal r)
                  [("entry", VStr (ec_entry_label r));
                   ("score", VNum (ec_score r))])
               entries)
      | Some _, None => Raise IndexError
      | None, _ => prepare_entries self ohlcv ind idxs' entries
      end
  end.

Definition with_sim (self : EntryPointScanner) (c : SimCache) : EntryPointScanner :=
  mkEntryPointScanner (d_xfast self) (d_fast self) (d_mid self) (d_slow self)
    (w_fast self) (w_mid self) (approach_pct self) (touch_pct self)
    (lookback self) (wick_body_ratio self) (upper_wick_max self) (Some c).

(** [EntryPointScanner.prepare_simulation] *)
Definition ep_prepare_simulation (self : EntryPointScanner) (ticker : string)
    (ohlcv : DataFrame) (fundamentals : Series) : Res EntryPointScanner :=
  match _compute_indicators self ohlcv with
  | None => Ok (with_sim self (mkSimCache ticker [] None))
  | Some ind =>
      entries <- prepare_entries self ohlcv ind
                   (seq (d_slow self + 20) (length ohlcv - (d_slow self + 20))) [] ;;
      Ok (with_sim self (mkSimCache ticker entries (Some ind)))
  end.

(** [EntryPointScanner.check_entry_signal] *)
Definition ep_check_entry_signal (self : EntryPointScanner) (ticker : string)
    (ohlcv : DataFrame) (fundamentals : Series) (as_of_date : Timestamp)
    : Res (option EntrySignal) :=
  match sim self with
  | Some c =>
      if String.eqb (_sim_ticker c) ticker
      then Ok (dict_get Z.eqb as_of_date (_sim_entries c))
      else base_check_entry_signal (ep_scan self) ticker ohlcv fundamentals as_of_date
  | None =>
      base_check_entry_signal (ep_scan self) ticker ohlcv fundamentals as_of_date
  end.

(** [index.get_loc(d)] on a unique index; [None] is the [KeyError]. *)
Fixpoint get_loc (idx : list Timestamp) (d : Timestamp) : option nat :=
  match idx with
  | [] => None
  | x :: r => if (x =? d)%Z then Some 0%nat else option_map S (get_loc r d)
  end.

(** [all(closes < mas)], element by element. *)
Definition all_below (cs : list Q) (ms : list (option Q)) : bool :=
  forallb (fun p => nlt (Some (fst p)) (snd p)) (combine cs ms).

(** [len(s.dropna())] *)
Definition count_defined (l : list (option Q)) : nat :=
  length (filter (fun o => negb (isna o)) l).

(** Which of the two branches of [use_cache] is live, with its locals. *)
Inductive ExitCtx : Type :=
| UseCache (ind : Indicators) (idx : nat)
| NoCache (close_s : list Q) (ma20_series : list (option Q)).

(** Rule 3 of [check_exit_signal]: the condition under which
    ["MA20_BREAKDOWN"] is returned. *)
Definition ma20_breakdown (ohlcv_slice : DataFrame) (ctx : ExitCtx) : bool :=
  match ctx with
  | UseCache ind idx =>
      if (2 <=? idx)%nat then
        let last_3_close := lastn 3 (map Close ohlcv_slice) in
        let last_3_ma20 := firstn 3 (skipn (idx - 2) (d_mm ind)) in
        (length last_3_ma20 =? 3)%nat && all_below last_3_close last_3_ma20
      else false
  | NoCache close_s ma20_series =>
      if (3 <=? length close_s)%nat && (3 <=? count_defined ma20_series)%nat
      then all_below (lastn 3 close_s) (lastn 3 ma20_series)
      else false
  end.

(** Rule 4: [current_ma20 > 0] and [dist_pct < -5.0]. *)
Definition sharp_drop (current_close : Q) (current_ma20 : option Q) : bool :=
  match current_ma20 with
  | Some m =>
      if Qgtb m 0 then Qltb ((current_close - m) / m * 100) (- (5))
      else false
  | None => false
  end.

(** Rule 5; reading [ohlcv.loc[current_date, "Volume"]] raises [KeyError]
    when the frame has no row for the date. *)
Definition volume_breakdown (ohlcv ohlcv_slice : DataFrame)
    (current_date : Timestamp) (current_close : Q) (current_ma20 : option Q)
    (ctx : ExitCtx) : Res bool :=
  if nlt (Some current_close) current_ma20 then
    match ctx with
    | UseCache ind idx =>
        let avg_vol := iloc (vol_avg ind) idx in
        match loc_row ohlcv current_date with
        | None => Raise KeyError
        | Some b =>
            let cur_vol := Volume b in
            Ok (ngt avg_vol (Some 0)
                && match avg_vol with
                   | Some a => Qgtb cur_vol (a * 2)
                   | None => false
                   end)
        end
    | NoCache _ _ =>
        let volume := map Volume ohlcv_slice in
        let avg_vol :=
          if (20 <=? length volume)%nat then mean (lastn 20 volume) else 0 in
        match last_opt volume with
        | None => Raise IndexError
        | Some cur_vol => Ok (Qgtb avg_vol 0 && Qgtb cur_vol (avg_vol * 2))
        end
    end
  else Ok false.

(** The six rules, in the order the method tests them. *)
Definition exit_rules (ohlcv ohlcv_slice : DataFrame)
    (entry_signal : EntrySignal) (current_date : Timestamp)
    (current_close : Q) (current_ma20 : option Q) (ctx : ExitCtx)
    : Res (option ExitSignal) :=
  let entry_price := es_price entry_signal in
  let fire reason :=
    Ok (Some (mkExitSignal current_date current_close reason [])) in
  (* 1. Stop-loss *)
  if Qltb current_close (entry_price * (90 # 100)) then fire "STOP_LOSS"
  (* 2. Profit target *)
  else if Qgtb current_close (entry_price * (115 # 100)) then fire "PROFIT_TARGET"
  (* 3. MA20 breakdown *)
  else if ma20_breakdown ohlcv_slice ctx then fire "MA20_BREAKDOWN"
  (* 4. Sharp drop *)
  else if sharp_drop current_close current_ma20 then fire "SHARP_DROP"
  else
    (* 5. Volume breakdown *)
    vb <- volume_breakdown ohlcv ohlcv_slice current_date current_close
            current_ma20 ctx ;;
    if vb then fire "VOLUME_BREAKDOWN"
    else
      (* 6. Time exit *)
      let days_held := (current_date - es_date entry_signal)%Z in
      if (30 <=? days_held)%Z then fire "TIME_EXIT" else Ok None.

(** [use_cache]: the prepared indicators, when they exist for [ticker]. *)
Definition cached_ind (self : EntryPointScanner) (ticker : string)
    : option Indicators :=
  match sim self with
  | Some c =>
      match _sim_ind c with
      | Some ind => if String.eqb (_sim_ticker c) ticker then Some ind else None
      | None => None
      end
  | None => None
  end.

(** [EntryPointScanner.check_exit_signal] *)
Definition ep_check_exit_signal (self : EntryPointScanner) (ticker : string)
    (ohlcv : DataFrame) (entry_signal : EntrySignal) (current_date : Timestamp)
    : Res (option ExitSignal) :=
  let ohlcv_slice := loc_upto ohlcv current_date in
  if (length ohlcv_slice <? d_mid self + 5)%nat then Ok None
  else
    match last_opt ohlcv_slice with
    | None => Raise IndexError
    | Some last_bar =>
        let current_close := Close last_bar in
        match cached_ind self ticker with
        | Some ind =>
            match get_loc (ind_index ind) current_date with
            | None => Ok None
            | Some idx =>
                let current_ma20 := iloc (d_mm ind) idx in
                if isna current_ma20 then Ok None
                else
                  exit_rules ohlcv ohlcv_slice entry_signal current_date
                    current_close current_ma20 (UseCache ind idx)
            end
        | None =>
            let close_s := map Close ohlcv_slice in
            let ma20_series := rolling_mean (d_mid self) close_s in
            let current_ma20 :=
              match last_opt ma20_series with Some v => v | None => None end in
            exit_rules ohlcv ohlcv_slice entry_signal current_date
              current_close current_ma20 (NoCache close_s ma20_series)
        end
    end.

(** *** The exit check in floating point

    The same method with the rounding of every float operation explicit.
    [0.90] and [1.15] are the floats nearest to those decimals; [100],
    [-5.0], [2] and [0] are floats as they stand. *)
Section ExitInArithmetic.
Variable A : Arithmetic.

(** Rule 4: [current_ma20 > 0] and [dist_pct < -5.0], where
    [dist_pct = (current_close - current_ma20) / current_ma20 * 100]. *)
Definition sharp_drop_fp (current_close : Q) (current_ma20 : option Q) : bool :=
  match current_ma20 with
  | Some m =>
      if Qgtb m 0 then
        let dist_pct := fl A (fl A (fl A (current_close - m) / m) * 100) in
        Qltb dist_pct (- (5))
      else false
  | None => false
  end.

(** Rule 5. *)
Definition volume_breakdown_fp (ohlcv ohlcv_slice : DataFrame)
    (current_date : Timestamp) (current_close : Q) (current_ma20 : option Q)
    (ctx : ExitCtx) : Res bool :=
  if nlt (Some current_close) current_ma20 then
    match ctx with
    | UseCache ind idx =>
        let avg_vol := iloc (vol_avg ind) idx in
        match loc_row ohlcv current_date with
        | None => Raise KeyError
        | Some b =>
            let cur_vol := Volume b in
            Ok (ngt avg_vol (Some 0)
                && match avg_vol with
                   | Some a => Qgtb cur_vol (fl A (a * 2))
                   | None => false
                   end)
        end
    | NoCache _ _ =>
        let volume := map Volume ohlcv_slice in
        let avg_vol :=
          if (20 <=? length volume)%nat then smean A (lastn 20 volume) else 0 in
        match last_opt volume with
        | None => Raise IndexError
        | Some cur_vol =>
            Ok (Qgtb avg_vol 0 && Qgtb cur_vol (fl A (avg_vol * 2)))
        end
    end
  else Ok false.

(** The six rules, in the order the method tests them. *)
Definition exit_rules_fp (ohlcv ohlcv_slice : DataFrame)
    (entry_signal : EntrySignal) (current_date : Timestamp)
    (current_close : Q) (current_ma20 : option Q) (ctx : ExitCtx)
    : Res (option ExitSignal) :=
  let entry_price := es_price entry_signal in
  let fire reason :=
    Ok (Some (mkExitSignal current_date current_close reason [])) in
  (* 1. Stop-loss *)
  if Qltb current_close (fl A (entry_price * fl A (90 # 100))) then
    fire "STOP_LOSS"
  (* 2. Profit target *)
  else if Qgtb current_close (fl A (entry_price * fl A (115 # 100))) then
    fire "PROFIT_TARGET"
  (* 3. MA20 breakdown *)
  else if ma20_breakdown ohlcv_slice ctx then fire "MA20_BREAKDOWN"
  (* 4. Sharp drop *)
  else if sharp_drop_fp current_close current_ma20 then fire "SHARP_DROP"
  else
    (* 5. Volume breakdown *)
    vb <- volume_breakdown_fp ohlcv ohlcv_slice current_date current_close
            current_ma20 ctx ;;
    if vb then fire "VOLUME_BREAKDOWN"
    else
      (* 6. Time exit *)
      let days_held := (current_date - es_date entry_signal)%Z in
      if (30 <=? days_held)%Z then fire "TIME_EXIT" else Ok None.

(** [EntryPointScanner.check_exit_signal] *)
Definition ep_check_exit_signal_fp (self : EntryPointScanner) (ticker : string)
    (ohlcv : DataFrame) (entry_signal : EntrySignal) (current_date : Timestamp)
    : Res (option ExitSignal) :=
  let ohlcv_slice := loc_upto ohlcv current_date in
  if (length ohlcv_slice <? d_mid self + 5)%nat then Ok None
  else
    match last_opt ohlcv_slice with
    | None => Raise IndexError
    | Some last_bar =>
        let current_close := Close last_bar in
        match cached_ind self ticker with
        | Some ind =>
            match get_loc (ind_index ind) current_date with
            | None => Ok None
            | Some idx =>
                let current_ma20 := iloc (d_mm ind) idx in
                if isna current_ma20 then Ok None
                else
                  exit_rules_fp ohlcv ohlcv_slice entry_signal current_date
                    current_close current_ma20 (UseCache ind idx)
            end
        | None =>
            let close_s := map Close ohlcv_slice in
            let ma20_series := rolling A (d_mid self) close_s in
            let current_ma20 :=
              match last_opt ma20_series with Some v => v | None => None end in
            exit_rules_fp ohlcv ohlcv_slice entry_signal current_date
              current_close current_ma20 (NoCache close_s ma20_series)
        end
    end.
End ExitInArithmetic.

#[export] Instance EntryPointScanner_scanner : BaseScanner EntryPointScanner := {
  scan := ep_scan;
  prepare_simulation := ep_prepare_simulation;
  check_entry_signal := ep_check_entry_signal;
  check_exit_signal := ep_check_exit_signal
}.

(** A scanner that implements only [scan] and inherits every default. *)
Record PlainScanner : Type := mkPlainScanner {
  plain_scan : string -> DataFrame -> Series -> Res (option ScanResult)
}.

#[export] Instance PlainScanner_scanner : BaseScanner PlainScanner := {
  scan := plain_scan;
  prepare_simulation := fun self _ _ _ => Ok self;
  check_entry_signal := fun self => base_check_entry_signal (plain_scan self);
  check_exit_signal := fun _ => base_check_exit_signal
}.

(* ------------------------------------------------------------------ *)
(** ** Single-ticker engine ([simulation/engine.py]) *)

Record SimulationEngine (S : Type) : Type := mkSimulationEngine {
  analyzer : S;
  initial_capital : Q;
  position_size : Q
}.

(** A row of [equity_rows]. *)
Record EquityRow : Type := mkEquityRow {
  eq_date : Timestamp;
  eq_equity : Q;
  eq_position_value : Q;
  eq_cash : Q
}.

(** Which hook the loop called on a day (ghost: not a variable of the
    source, it records the calls the loop body makes). *)
Inductive Hook : Type := EntryHook | ExitHook.

(** Loop variables of [simulate_ticker]. *)
Record SimState : Type := mkSimState {
  trades : list Trade;
  position : option EntrySignal;
  shares : Q;
  cash : Q;
  equity_rows : list EquityRow;
  hook_calls : list (Timestamp * Hook)
}.

Record SimulationResult : Type := mkSimulationResult {
  res_ticker : string;
  res_trades : list Trade;
  res_equity_curve : list EquityRow;
  total_return_pct : Q;
  win_rate : Q;
  avg_return_pct : Q;
  max_drawdown_pct : Q;
  num_trades : nat;
  avg_hold_days : Q;
  total_days : nat;
  exit_breakdown : list (string * nat)
}.

(** [index.searchsorted(v)] on an ascending index: the number of leading
    labels below [v]. *)
Fixpoint searchsorted (idx : list Timestamp) (v : Timestamp) : nat :=
  match idx with
  | [] => 0
  | x :: r => if (x <? v)%Z then S (searchsorted r v) else 0
  end.

Definition Qnat (n : nat) : Q := inject_Z (Z.of_nat n).

(** [exit_breakdown[r] = exit_breakdown.get(r, 0) + 1] over the trades. *)
Definition count_exit (acc : list (string * nat)) (t : Trade) : list (string * nat) :=
  let r := exit_reason t in
  dict_set String.eqb r
    (match dict_get String.eqb r acc with Some n => n | None => 0 end + 1)%nat acc.

(** Minimum of a non-empty column, [d] on an empty one. *)
Definition list_min_or (d : Q) (l : list Q) : Q :=
  match l with [] => d | x :: r => fold_left Qmin2 r x end.

(** [((equity - equity.expanding().max()) / running_max * 100).min()] *)
Definition max_drawdown (equity : list Q) : Q :=
  list_min_or 0
    (map (fun p =>
            match snd p with
            | Some m => (fst p - m) / m * 100
            | None => 0
            end)
         (combine equity (expanding_max equity))).

(** [SimulationEngine._build_result] *)
Definition _build_result (tkr : string) (ts : list Trade)
    (equity_curve : list EquityRow) (n_days : nat) : SimulationResult :=
  match ts with
  | [] => mkSimulationResult tkr [] equity_curve 0 0 0 0 0 0 n_days []
  | _ =>
      let n := Qnat (length ts) in
      let wins := Qnat (length (filter is_win ts)) in
      let win_rate := wins / n * 100 in
      let avg_return := Qsum (map return_pct ts) / n in
      let avg_hold := Qsum (map (fun t => inject_Z (hold_days t)) ts) / n in
      let equity := map eq_equity equity_curve in
      let initial := match equity with x :: _ => x | [] => 1 end in
      let final := match last_opt equity with Some x => x | None => 1 end in
      let total_return := (final - initial) / initial * 100 in
      mkSimulationResult tkr ts equity_curve
        (py_round total_return 2) (py_round win_rate 1)
        (py_round avg_return 2) (py_round (max_drawdown equity) 2)
        (length ts) (py_round avg_hold 1) n_days
        (fold_left count_exit ts [])
  end.

Section Engine.
Context {S : Type} `{BaseScanner S}.

(** [end_date - pd.DateOffset(years=1)]: the same calendar day one year
    earlier, as a function of the day number. *)
Variable one_year_before : Timestamp -> Timestamp.

Variable engine : SimulationEngine S.
Variable tkr : string.
Variable ohlcv : DataFrame.
Variable fundamentals : Series.

(** Lines 44-49 of [simulate_ticker]: the defaults of the window. *)
Definition default_end_date (end_date : option Timestamp) : Res Timestamp :=
  match end_date with
  | Some e => Ok e
  | None =>
      match last_opt (index ohlcv) with
      | Some e => Ok e
      | None => Raise IndexError
      end
  end.

Definition default_start_date (start_date : option Timestamp)
    (end_date : Timestamp) : Res Timestamp :=
  match start_date with
  | Some s => Ok s
  | None =>
      let one_year_ago := one_year_before end_date in
      let start_idx := searchsorted (index ohlcv) one_year_ago in
      match nth_error (index ohlcv) (Nat.max 50 start_idx) with
      | Some s => Ok s
      | None => Raise IndexError
      end
  end.

(** Body of the day loop, with the prepared analyzer [a]; [bar] is the
    row of [ohlcv_sim] at [current_date]. *)
Definition day_step (a : S) (st : SimState) (bar : Bar) : Res SimState :=
  let current_date := Date bar in
  let current_price := Close bar in
  match position st with
  | None =>
      (* Check for entry *)
      entry <- check_entry_signal a tkr ohlcv fundamentals current_date ;;
      let calls := hook_calls st ++ [(current_date, EntryHook)] in
      match entry with
      | Some e =>
          let shares' := (cash st * position_size engine) / es_price e in
          let cash' := cash st - shares' * es_price e in
          let position_value := shares' * current_price in
          Ok (mkSimState (trades st) (Some e) shares' cash'
                (equity_rows st ++
                   [mkEquityRow current_date (cash' + position_value)
                                position_value cash'])
                calls)
      | None =>
          Ok (mkSimState (trades st) None (shares st) (cash st)
                (equity_rows st ++
                   [mkEquityRow current_date (cash st + 0) 0 (cash st)])
                calls)
      end
  | Some pos =>
      let position_value := shares st * current_price in
      (* Check for exit *)
      exit_signal <- check_exit_signal a tkr ohlcv pos current_date ;;
      let calls := hook_calls st ++ [(current_date, ExitHook)] in
      match exit_signal with
      | Some x =>
          let cash' := cash st + shares st * xs_price x in
          let ret := (xs_price x - es_price pos) / es_price pos * 100 in
          let hold := (xs_date x - es_date pos)%Z in
          let t := mkTrade tkr (es_date pos) (es_price pos) (es_reason pos)
                     (xs_date x) (xs_price x) (xs_reason x)
                     (py_round ret 2) hold in
          Ok (mkSimState (trades st ++ [t]) None 0 cash'
                (equity_rows st ++
                   [mkEquityRow current_date (cash' + 0) 0 cash'])
                calls)
      | None =>
          Ok (mkSimState (trades st) (Some pos) (shares st) (cash st)
                (equity_rows st ++
                   [mkEquityRow current_date (cash st + position_value)
                                position_value (cash st)])
                calls)
      end
  end.

(** [for current_date in ohlcv_sim.index: ...] *)
Fixpoint day_loop (a : S) (st : SimState) (days : DataFrame) : Res SimState :=
  match days with
  | [] => Ok st
  | bar :: rest => st' <- day_step a st bar ;; day_loop a st' rest
  end.

(** [equity_rows[-1][...] = ...]: overwrite the last row. *)
Definition set_last_row (rows : list EquityRow) (c : Q) : list EquityRow :=
  match List.rev rows with
  | [] => []
  | r :: before => List.rev before ++ [mkEquityRow (eq_date r) c 0 c]
  end.

(** "Force-close any open position at end". *)
Definition force_close (ohlcv_sim : DataFrame) (st : SimState) : Res SimState :=
  match position st with
  | None => Ok st
  | Some pos =>
      match last_opt ohlcv_sim with
      | None => Raise IndexError
      | Some lastb =>
          let last_price := Close lastb in
          let last_date := Date lastb in
          let cash' := cash st + shares st * last_price in
          let ret := (last_price - es_price pos) / es_price pos * 100 in
          let hold := (last_date - es_date pos)%Z in
          let t := mkTrade tkr (es_date pos) (es_price pos) (es_reason pos)
                     last_date last_price "END_OF_DATA" (py_round ret 2) hold in
          Ok (mkSimState (trades st ++ [t]) (position st) (shares st) cash'
                (set_last_row (equity_rows st) cash') (hook_calls st))
      end
  end.

Definition init_state : SimState :=
  mkSimState [] None 0 (initial_capital engine) [] [].

(** The simulated window [ohlcv.loc[start_date:end_date]], or the
    [IndexError] of the defaults. *)
Definition sim_window (start_date end_date : option Timestamp) : Res DataFrame :=
  e <- default_end_date end_date ;;
  s <- default_start_date start_date e ;;
  Ok (loc_between ohlcv s e).

(** The state when the function reaches line 142. *)
Definition simulate_state (start_date end_date : option Timestamp)
    : Res (DataFrame * SimState) :=
  ohlcv_sim <- sim_window start_date end_date ;;
  a <- prepare_simulation (analyzer engine) tkr ohlcv fundamentals ;;
  st <- day_loop a init_state ohlcv_sim ;;
  st' <- force_close ohlcv_sim st ;;
  Ok (ohlcv_sim, st').

(** [SimulationEngine.simulate_ticker].  [set_index("date")] on a frame
    built from no rows raises [KeyError]. *)
Definition simulate_ticker (start_date end_date : option Timestamp)
    : Res SimulationResult :=
  r <- simulate_state start_date end_date ;;
  let ohlcv_sim := fst r in
  let st := snd r in
  match equity_rows st with
  | [] => Raise KeyError
  | rows => Ok (_build_result tkr (trades st) rows (length ohlcv_sim))
  end.
End Engine.

(* ------------------------------------------------------------------ *)
(** ** Portfolio engine ([simulation/portfolio.py]) *)

Module Portfolio.

Record OpenPosition : Type := mkOpenPosition {
  op_ticker : string;
  entry_signal : EntrySignal;
  op_shares : Q;
  cost_basis : Q
}.

Record PortfolioEngine (S : Type) : Type := mkPortfolioEngine {
  scanner : S;
  initial_capital : Q;
  max_positions : Z;
  position_size : Q
}.

(** A row of [equity_rows]. *)
Record EquityRow : Type := mkEquityRow {
  row_date : Timestamp;
  row_equity : Q;
  row_cash : Q;
  row_positions_value : Q;
  row_num_positions : nat
}.

(** Loop variables of [simulate]; [entry_queries] is ghost and records
    the tickers whose scanner was asked for an entry, with the day. *)
Record State : Type := mkState {
  cash : Q;
  open_positions : list (string * OpenPosition);
  trades : list Trade;
  equity_rows : list EquityRow;
  entry_queries : list (Timestamp * string)
}.

(** The fields of [PortfolioResult] that are read off the loop state
    (the summary statistics of [_build_result] are left out). *)
Record PortfolioResult : Type := mkPortfolioResult {
  res_trades : list Trade;
  res_equity_curve : list EquityRow;
  final_equity : Q;
  num_trades : nat;
  total_days : nat
}.

(** [entry.metadata.get("score", 0)]; the scanners store the score as a
    number. *)
Definition metadata_score (e : EntrySignal) : Q :=
  match dict_get String.eqb "score" (es_metadata e) with
  | Some (VNum q) => q
  | _ => 0
  end.

Definition Candidate : Type := (Q * string * EntrySignal)%type.
Definition cand_score (c : Candidate) : Q := fst (fst c).
Definition cand_ticker (c : Candidate) : string := snd (fst c).
Definition cand_entry (c : Candidate) : EntrySignal := snd c.

(** [candidates.sort(key=lambda x: x[0], reverse=True)]: descending by
    score, candidates of equal score keep their order. *)
Fixpoint insert_desc (c : Candidate) (l : list Candidate) : list Candidate :=
  match l with
  | [] => [c]
  | x :: r =>
      if Qltb (cand_score c) (cand_score x) then x :: insert_desc c r
      else c :: x :: r
  end.

Definition sort_desc (l : list Candidate) : list Candidate :=
  fold_right insert_desc [] l.

(** [sorted(set().union(...))] *)
Fixpoint insert_date (d : Timestamp) (l : list Timestamp) : list Timestamp :=
  match l with
  | [] => [d]
  | x :: r =>
      if (d <? x)%Z then d :: x :: r
      else if (d =? x)%Z then x :: r
      else x :: insert_date d r
  end.

Definition sorted_union (ls : list (list Timestamp)) : list Timestamp :=
  fold_left (fun acc l => fold_left (fun a d => insert_date d a) l acc) ls [].

Section Simulate.
Context {S : Type} `{BaseScanner S}.
Variable one_year_before : Timestamp -> Timestamp.
Variable engine : PortfolioEngine S.
Variable ohlcv_data : list (string * DataFrame).
Variable fundamentals_data : list (string * Series).

(** [fundamentals_data.get(ticker, pd.Series())] *)
Definition fundamentals_of (tkr : string) : Series :=
  match dict_get String.eqb tkr fundamentals_data with
  | Some f => f
  | None => []
  end.

(** Phase 1: one prepared scanner copy per ticker; a ticker without
    data, or whose preparation raises, is left out. *)
Fixpoint prepare_all (tickers : list string)
    (scanner_per_ticker : list (string * S)) (valid_tickers : list string)
    : list (string * S) * list string :=
  match tickers with
  | [] => (scanner_per_ticker, valid_tickers)
  | tkr :: rest =>
      match dict_get String.eqb tkr ohlcv_data with
      | None | Some [] => prepare_all rest scanner_per_ticker valid_tickers
      | Some ohlcv =>
          match prepare_simulation (scanner engine) tkr ohlcv
                  (fundamentals_of tkr) with
          | Ok scanner_copy =>
              prepare_all rest
                (dict_set String.eqb tkr scanner_copy scanner_per_ticker)
                (valid_tickers ++ [tkr])
          | Raise _ => prepare_all rest scanner_per_ticker valid_tickers
          end
      end
  end.

Section Loop.
Variable scanner_per_ticker : list (string * S).
Variable valid_tickers : list string.

Definition position_dollar_size : Q := initial_capital engine * position_size engine.

(** [d[k]] *)
Definition getitem (V : Type) (k : string) (d : list (string * V)) : Res V :=
  match dict_get String.eqb k d with
  | Some v => Ok v
  | None => Raise KeyError
  end.

(** Step A, the loop over [open_positions.items()]. *)
Fixpoint exits_loop (current_date : Timestamp)
    (items : list (string * OpenPosition)) (cash : Q) (trades : list Trade)
    (tickers_to_close : list string) : Res (Q * list Trade * list string) :=
  match items with
  | [] => Ok (cash, trades, tickers_to_close)
  | (tkr, pos) :: rest =>
      ohlcv <- getitem tkr ohlcv_data ;;
      if negb (in_index current_date ohlcv) then
        exits_loop current_date rest cash trades tickers_to_close
      else
        sc <- getitem tkr scanner_per_ticker ;;
        exit_signal <- check_exit_signal sc tkr ohlcv (entry_signal pos)
                         current_date ;;
        match exit_signal with
        | Some x =>
            let proceeds := op_shares pos * xs_price x in
            let e := entry_signal pos in
            let ret := (xs_price x - es_price e) / es_price e * 100 in
            let hold := (xs_date x - es_date e)%Z in
            let t := mkTrade tkr (es_date e) (es_price e) (es_reason e)
                       (xs_date x) (xs_price x) (xs_reason x)
                       (py_round ret 2) hold in
            exits_loop current_date rest (cash + proceeds) (trades ++ [t])
              (tickers_to_close ++ [tkr])
        | None => exits_loop current_date rest cash trades tickers_to_close
        end
  end.

(** [for ticker in tickers_to_close: del open_positions[ticker]] *)
Definition close_all (tickers_to_close : list string)
    (open_positions : list (string * OpenPosition))
    : list (string * OpenPosition) :=
  fold_left (fun d k => dict_del String.eqb k d) tickers_to_close open_positions.

(** Step B, the loop over [valid_tickers] that collects the candidates;
    the second component lists the tickers whose scanner was called. *)
Fixpoint collect_candidates (current_date : Timestamp)
    (open_positions : list (string * OpenPosition)) (tickers : list string)
    (candidates : list Candidate) (asked : list string)
    : Res (list Candidate * list string) :=
  match tickers with
  | [] => Ok (candidates, asked)
  | tkr :: rest =>
      if dict_mem String.eqb tkr open_positions then
        collect_candidates current_date open_positions rest candidates asked
      else
        ohlcv <- getitem tkr ohlcv_data ;;
        if negb (in_index current_date ohlcv) then
          collect_candidates current_date open_positions rest candidates asked
        else
          sc <- getitem tkr scanner_per_ticker ;;
          entry <- check_entry_signal sc tkr ohlcv (fundamentals_of tkr)
                     current_date ;;
          match entry with
          | Some e =>
              collect_candidates current_date open_positions rest
                (candidates ++ [(metadata_score e, tkr, e)]) (asked ++ [tkr])
          | None =>
              collect_candidates current_date open_positions rest candidates
                (asked ++ [tkr])
          end
  end.

(** Step B, the loop over [candidates[:available_slots]]. *)
Fixpoint open_loop (cands : list Candidate) (cash : Q)
    (open_positions : list (string * OpenPosition))
    : Q * list (string * OpenPosition) :=
  match cands with
  | [] => (cash, open_positions)
  | c :: rest =>
      let dollars_to_invest := py_min position_dollar_size cash in
      if Qltb dollars_to_invest (position_dollar_size * (1 # 2)) then
        (cash, open_positions)
      else
        let entry := cand_entry c in
        let shares := dollars_to_invest / es_price entry in
        let cash' := cash - shares * es_price entry in
        open_loop rest cash'
          (dict_set String.eqb (cand_ticker c)
             (mkOpenPosition (cand_ticker c) entry shares
                             (shares * es_price entry))
             open_positions)
  end.

(** Step B. *)
Definition entries_step (current_date : Timestamp) (cash : Q)
    (open_positions : list (string * OpenPosition))
    : Res (Q * list (string * OpenPosition) * list string) :=
  let available_slots :=
    (max_positions engine - Z.of_nat (length open_positions))%Z in
  if (0 <? available_slots)%Z && Qgeb cash (position_dollar_size * (1 # 2)) then
    r <- collect_candidates current_date open_positions valid_tickers [] [] ;;
    let candidates := sort_desc (fst r) in
    let co := open_loop (firstn (Z.to_nat available_slots) candidates)
                        cash open_positions in
    Ok (fst co, snd co, snd r)
  else Ok (cash, open_positions, []).

(** *** Step B in floating point

    The same step with the rounding of every float operation explicit;
    [0.5] is a float as it stands. *)
Definition position_dollar_size_fp (A : Arithmetic) : Q :=
  fl A (initial_capital engine * position_size engine).

(** The loop over [candidates[:available_slots]]. *)
Fixpoint open_loop_fp (A : Arithmetic) (cands : list Candidate) (cash : Q)
    (open_positions : list (string * OpenPosition))
    : Q * list (string * OpenPosition) :=
  match cands with
  | [] => (cash, open_positions)
  | c :: rest =>
      let dollars_to_invest := py_min (position_dollar_size_fp A) cash in
      if Qltb dollars_to_invest (fl A (position_dollar_size_fp A * (1 # 2))) then
        (cash, open_positions)
      else
        let entry := cand_entry c in
        let shares := fl A (dollars_to_invest / es_price entry) in
        let cash' := fl A (cash - fl A (shares * es_price entry)) in
        open_loop_fp A rest cash'
          (dict_set String.eqb (cand_ticker c)
             (mkOpenPosition (cand_ticker c) entry shares
                             (fl A (shares * es_price entry)))
             open_positions)
  end.

Definition entries_step_fp (A : Arithmetic) (current_date : Timestamp) (cash : Q)
    (open_positions : list (string * OpenPosition))
    : Res (Q * list (string * OpenPosition) * list string) :=
  let available_slots :=
    (max_positions engine - Z.of_nat (length open_positions))%Z in
  if (0 <? available_slots)%Z
     && Qgeb cash (fl A (position_dollar_size_fp A * (1 # 2))) then
    r <- collect_candidates current_date open_positions valid_tickers [] [] ;;
    let candidates := sort_desc (fst r) in
    let co := open_loop_fp A (firstn (Z.to_nat available_slots) candidates)
                cash open_positions in
    Ok (fst co, snd co, snd r)
  else Ok (cash, open_positions, []).

(** Step C: the price a position is marked at. *)
Definition mark_price (current_date : Timestamp) (ohlcv : DataFrame)
    (pos : OpenPosition) : Res Q :=
  if in_index current_date ohlcv then
    match loc_row ohlcv current_date with
    | Some b => Ok (Close b)
    | None => Raise KeyError
    end
  else
    let prior := filter (fun d => (d <? current_date)%Z) (index ohlcv) in
    match last_opt prior with
    | Some p =>
        match loc_row ohlcv p with
        | Some b => Ok (Close b)
        | None => Raise KeyError
        end
    | None => Ok (es_price (entry_signal pos))
    end.

Fixpoint positions_value (current_date : Timestamp)
    (items : list (string * OpenPosition)) (acc : Q) : Res Q :=
  match items with
  | [] => Ok acc
  | (tkr, pos) :: rest =>
      ohlcv <- getitem tkr ohlcv_data ;;
      price <- mark_price current_date ohlcv pos ;;
      positions_value current_date rest (acc + op_shares pos * price)
  end.

(** Body of the day loop of Phase 3. *)
Definition day_step (st : State) (current_date : Timestamp) : Res State :=
  a <- exits_loop current_date (open_positions st) (cash st) (trades st) [] ;;
  let cash1 := fst (fst a) in
  let trades1 := snd (fst a) in
  let open1 := close_all (snd a) (open_positions st) in
  b <- entries_step current_date cash1 open1 ;;
  let cash2 := fst (fst b) in
  let open2 := snd (fst b) in
  pv <- positions_value current_date open2 0 ;;
  Ok (mkState cash2 open2 trades1
        (equity_rows st ++
           [mkEquityRow current_date (cash2 + pv) cash2 pv (length open2)])
        (entry_queries st ++ map (pair current_date) (snd b))).

Fixpoint day_loop (st : State) (sim_dates : list Timestamp) : Res State :=
  match sim_dates with
  | [] => Ok st
  | d :: rest => st' <- day_step st d ;; day_loop st' rest
  end.

(** Phase 4, the loop over [list(open_positions.items())]. *)
Fixpoint force_close_loop (last_date : Timestamp)
    (items : list (string * OpenPosition)) (cash : Q) (trades : list Trade)
    : Res (Q * list Trade) :=
  match items with
  | [] => Ok (cash, trades)
  | (tkr, pos) :: rest =>
      ohlcv <- getitem tkr ohlcv_data ;;
      let prior := filter (fun d => (d <=? last_date)%Z) (index ohlcv) in
      last_price <-
        match last_opt prior with
        | Some p =>
            match loc_row ohlcv p with
            | Some b => Ok (Close b)
            | None => Raise KeyError
            end
        | None => Ok (es_price (entry_signal pos))
        end ;;
      let e := entry_signal pos in
      let ret := (last_price - es_price e) / es_price e * 100 in
      let hold := (last_date - es_date e)%Z in
      let t := mkTrade tkr (es_date e) (es_price e) (es_reason e)
                 last_date last_price "END_OF_DATA" (py_round ret 2) hold in
      force_close_loop last_date rest (cash + op_shares pos * last_price)
        (trades ++ [t])
  end.

(** [equity_rows[-1][...] = ...] of Phase 4. *)
Definition set_last_row (rows : list EquityRow) (c : Q) : list EquityRow :=
  match List.rev rows with
  | [] => []
  | r :: before => List.rev before ++ [mkEquityRow (row_date r) c c 0 0]
  end.

(** Phases 3 and 4 on a non-empty calendar. *)
Definition run (sim_dates : list Timestamp) : Res State :=
  st <- day_loop (mkState (initial_capital engine) [] [] [] []) sim_dates ;;
  match last_opt sim_dates with
  | None => Raise IndexError
  | Some last_date =>
      r <- force_close_loop last_date (open_positions st) (cash st) (trades st) ;;
      Ok (mkState (fst r) (open_positions st) (snd r)
            (set_last_row (equity_rows st) (fst r)) (entry_queries st))
  end.
End Loop.

Definition _empty_result : PortfolioResult :=
  mkPortfolioResult [] [] (initial_capital engine) 0 0.

(** Phase 2: the unified calendar clipped to the window; [None] when
    there is no valid ticker.  A valid ticker has bars, so [all_dates[-1]]
    exists. *)
Definition calendar (valid_tickers : list string)
    (start_date end_date : option Timestamp) : option (list Timestamp) :=
  match valid_tickers with
  | [] => None
  | _ =>
      let all_dates :=
        sorted_union
          (map (fun t => match dict_get String.eqb t ohlcv_data with
                         | Some o => index o
                         | None => []
                         end) valid_tickers) in
      let e := match end_date with
               | Some e => e
               | None => match last_opt all_dates with Some e => e | None => 0%Z end
               end in
      let s := match start_date with
               | Some s => s
               | None => one_year_before e
               end in
      Some (filter (fun d => (s <=? d)%Z && (d <=? e)%Z) all_dates)
  end.

(** [PortfolioEngine.simulate] *)
Definition simulate (tickers : list string)
    (start_date end_date : option Timestamp) : Res PortfolioResult :=
  let p := prepare_all tickers [] [] in
  match calendar (snd p) start_date end_date with
  | None | Some [] => Ok _empty_result
  | Some sim_dates =>
      st <- run (fst p) (snd p) sim_dates ;;
      let final :=
        match last_opt (equity_rows st) with
        | Some r => row_equity r
        | None => initial_capital engine
        end in
      Ok (mkPortfolioResult (trades st) (equity_rows st) (py_round final 2)
            (length (trades st)) (length sim_dates))
  end.
End Simulate.

End Portfolio.

(* ------------------------------------------------------------------ *)
(** ** Sample data *)

Module Sample.
(** Trading days Monday to Friday, the first one Monday 1970-01-05. *)
Definition day (i : nat) : Timestamp :=
  (4 + 7 * Z.of_nat (i / 5) + Z.of_nat (i mod 5))%Z.

(** A steadily rising ticker: every price of bar [i] is [1000 + i]. *)
Definition rising_bar (i : nat) : Bar :=
  let p := inject_Z (1000 + Z.of_nat i) in
  mkBar (day i) p p p p 1000.

Definition rising (n : nat) : DataFrame := map rising_bar (seq 0 n).
End Sample.

(* ================================================================== *)
(** * Properties *)

(** ** Comparisons *)

Lemma Qltb_lt (x y : Q) : Qltb x y = true <-> x < y.
Proof.
  unfold Qltb. rewrite negb_true_iff, <- not_true_iff_false, Qle_bool_iff.
  split; [apply Qnot_le_lt | apply Qlt_not_le].
Qed.

Lemma Qltb_ge (x y : Q) : Qltb x y = false <-> y <= x.
Proof.
  unfold Qltb. rewrite negb_false_iff. apply Qle_bool_iff.
Qed.

Lemma Qleb_le (x y : Q) : Qleb x y = true <-> x <= y.
Proof. apply Qle_bool_iff. Qed.

Lemma Qleb_gt (x y : Q) : Qleb x y = false <-> y < x.
Proof.
  unfold Qleb. rewrite <- not_true_iff_false, Qle_bool_iff.
  split; [apply Qnot_le_lt | apply Qlt_not_le].
Qed.

(** ** Scores of scan results (C8) *)

(** A score is a finite number between 0 and 100. *)
Definition score_in_range (p : pyfloat) : Prop :=
  exists q, p = PFin q /\ 0 <= q /\ q <= 100.

Lemma clamp_in_range (score : pyfloat) :
  score_in_range (pyfloat_max (PFin 0) (pyfloat_min (PFin 100) score)).
Proof.
  unfold score_in_range, pyfloat_max, pyfloat_min.
  destruct score as [ | | | q]; simpl.
  - exists 100. repeat split; discriminate.
  - exists 0. repeat split; discriminate.
  - exists 100. repeat split; discriminate.
  - destruct (Qltb q 100) eqn:H100; simpl.
    + destruct (Qltb 0 q) eqn:H0.
      * exists q. repeat split.
        -- apply Qlt_le_weak, Qltb_lt, H0.
        -- apply Qlt_le_weak, Qltb_lt, H100.
      * exists 0. repeat split; discriminate.
    + exists 100. repeat split; discriminate.
Qed.

Lemma bind_Ok_inv (A B : Type) (c : Res A) (k : A -> Res B) (b : B) :
  bind c k = Ok b -> exists a, c = Ok a /\ k a = Ok b.
Proof.
  destruct c as [a | e]; simpl; intros Hb; [exists a; auto | discriminate].
Qed.

(** C8. Every [ScanResult] built by the constructor has a finite score in
    [0, 100], whatever float (NaN and infinities included) is passed in;
    hence every result returned by the entry-point scanner's [scan] has a
    score in [0, 100]. *)
Theorem scan_result_score_in_range :
  (forall tkr score signal details,
      score_in_range (sr_score (ScanResult_init tkr score signal details)))
  /\
  (forall self tkr ohlcv fundamentals r,
      ep_scan self tkr ohlcv fundamentals = Ok (Some r) ->
      score_in_range (sr_score r)).
Proof.
  split.
  - intros. apply clamp_in_range.
  - intros self tkr ohlcv fundamentals r Hscan.
    unfold ep_scan in Hscan.
    destruct (_compute_indicators self ohlcv) as [ind | ]; [ | discriminate].
    apply bind_Ok_inv in Hscan. destruct Hscan as [res [_ Hres]].
    destruct res as [res | ]; [ | discriminate].
    injection Hres as <-. apply clamp_in_range.
Qed.

Lemma scan_result_score_in_range_witness :
  exists r,
    ep_scan EntryPointScanner_init "UP" (Sample.rising 111) [] = Ok (Some r)
    /\ score_in_range (sr_score r).
Proof.
  eexists. split.
  - vm_compute. reflexivity.
  - apply (proj2 scan_result_score_in_range EntryPointScanner_init "UP"
             (Sample.rising 111) []).
    vm_compute. reflexivity.
Defined.

(** ** The default entry check (C6) *)

Lemma loc_upto_In (ohlcv : DataFrame) (d : Timestamp) (b : Bar) :
  In b (loc_upto ohlcv d) <-> In b ohlcv /\ (Date b <= d)%Z.
Proof.
  unfold loc_upto. rewrite filter_In, Z.leb_le. tauto.
Qed.

Lemma last_opt_nonempty (A : Type) (l : list A) :
  l <> [] -> exists x, last_opt l = Some x.
Proof.
  unfold last_opt. intros Hl.
  destruct (List.rev l) as [ | x r] eqn:E.
  - apply (f_equal (@List.rev A)) in E. rewrite rev_involutive in E.
    simpl in E. contradiction.
  - exists x. reflexivity.
Qed.

Lemma last_opt_app (A : Type) (l : list A) (x : A) :
  last_opt (l ++ [x]) = Some x.
Proof.
  unfold last_opt. rewrite rev_app_distr. reflexivity.
Qed.

(** C6. The default [check_entry_signal] keeps exactly the bars dated up
    to [as_of_date]; with fewer than 50 such bars it returns none without
    scanning; otherwise it scans the truncated series, returns none when
    the scan does, and wraps a positive scan result as an entry signal
    dated [as_of_date] and priced at the last close of the truncated
    series, with the scan's signal as reason and its details as
    metadata. *)
Theorem base_check_entry_signal_spec
    (scan_fn : string -> DataFrame -> Series -> Res (option ScanResult))
    (tkr : string) (ohlcv : DataFrame) (fundamentals : Series)
    (as_of_date : Timestamp) :
  let ohlcv_slice := loc_upto ohlcv as_of_date in
  let verdict := base_check_entry_signal scan_fn tkr ohlcv fundamentals as_of_date in
  (forall b, In b ohlcv_slice <-> In b ohlcv /\ (Date b <= as_of_date)%Z)
  /\ ((length ohlcv_slice < 50)%nat -> verdict = Ok None)
  /\ ((50 <= length ohlcv_slice)%nat ->
      scan_fn tkr ohlcv_slice fundamentals = Ok None -> verdict = Ok None)
  /\ ((50 <= length ohlcv_slice)%nat ->
      forall result,
        scan_fn tkr ohlcv_slice fundamentals = Ok (Some result) ->
        exists b,
          last_opt ohlcv_slice = Some b /\
          verdict = Ok (Some (mkEntrySignal as_of_date (Close b)
                                (sr_signal result) (sr_details result)))).
Proof.
  intros ohlcv_slice verdict. subst verdict.
  unfold base_check_entry_signal. fold ohlcv_slice.
  split; [intro b; apply loc_upto_In | ].
  split; [ | split].
  - intros Hlt. apply Nat.ltb_lt in Hlt. rewrite Hlt. reflexivity.
  - intros Hge Hscan. apply Nat.ltb_ge in Hge. rewrite Hge, Hscan. reflexivity.
  - intros Hge result Hscan.
    assert (Hne : ohlcv_slice <> []).
    { intros E. rewrite E in Hge. simpl in Hge. lia. }
    destruct (last_opt_nonempty Hne) as [b Hb].
    exists b. split; [exact Hb | ].
    apply Nat.ltb_ge in Hge. rewrite Hge, Hscan. simpl. rewrite Hb. reflexivity.
Qed.

(** A scan that approves every ticker, used to exercise the defaults. *)
Definition always_buy : PlainScanner :=
  mkPlainScanner (fun tkr _ _ => Ok (Some (ScanResult_init tkr (PFin 50) "BUY" []))).

Lemma base_check_entry_signal_spec_witness :
  exists b,
    last_opt (loc_upto (Sample.rising 60) (Sample.day 54)) = Some b /\
    base_check_entry_signal (plain_scan always_buy) "UP" (Sample.rising 60) []
      (Sample.day 54)
    = Ok (Some (mkEntrySignal (Sample.day 54) (Close b) "BUY" [])).
Proof.
  apply (proj2 (proj2 (proj2
           (base_check_entry_signal_spec (plain_scan always_buy) "UP"
              (Sample.rising 60) [] (Sample.day 54))))
         ltac:(vm_compute; lia)
         (ScanResult_init "UP" (PFin 50) "BUY" [])).
  reflexivity.
Defined.

(** ** Insufficient data *)

(** The series is shorter than the longest daily lookback plus buffer, or
    has too few weekly bars for the weekly medium MA. *)
Definition insufficient (self : EntryPointScanner) (ohlcv : DataFrame) : Prop :=
  (length ohlcv < d_slow self + 20)%nat
  \/ (length (resample_ohlcv ohlcv) < w_mid self + 2)%nat.

Lemma compute_indicators_insufficient (self : EntryPointScanner) (ohlcv : DataFrame) :
  insufficient self ohlcv -> _compute_indicators self ohlcv = None.
Proof.
  unfold insufficient, _compute_indicators. intros [Hd | Hw].
  - apply Nat.ltb_lt in Hd. rewrite Hd. reflexivity.
  - apply Nat.ltb_lt in Hw. rewrite Hw.
    destruct (length ohlcv <? d_slow self + 20)%nat; reflexivity.
Qed.

Lemma compute_indicators_sufficient (self : EntryPointScanner) (ohlcv : DataFrame)
    (ind : Indicators) :
  _compute_indicators self ohlcv = Some ind -> ~ insufficient self ohlcv.
Proof.
  intros Hind Hins. rewrite (compute_indicators_insufficient Hins) in Hind.
  discriminate.
Qed.

(** Decidable check of strictly ascending dates. *)
Fixpoint ascending (l : list Z) : bool :=
  match l with
  | [] => true
  | x :: r => forallb (fun y => (x <? y)%Z) r && ascending r
  end.

Lemma ascending_sound (l : list Z) : ascending l = true -> StronglySorted Z.lt l.
Proof.
  induction l as [ | x r IH]; cbn [ascending]; intros Hasc; [constructor | ].
  apply andb_true_iff in Hasc. destruct Hasc as [Hx Hr].
  constructor; [apply IH; exact Hr | ].
  rewrite forallb_forall in Hx. apply Forall_forall.
  intros y Hy. apply Z.ltb_lt, Hx, Hy.
Qed.

(* ------------------------------------------------------------------ *)
(** ** Exit rules of the entry-point scanner (C2) *)

(** What the exit rules look at on a simulated day. *)
Record ExitView : Type := mkExitView {
  v_close : Q;                  (* the day's close *)
  v_closes3 : list Q;           (* the last three closes, oldest first *)
  v_mas3 : list (option Q);     (* the medium MA on those three days *)
  v_ma : option Q;              (* the day's medium MA *)
  v_volume : Q;                 (* the day's volume *)
  v_avg_volume : option Q       (* 20-day average volume; NaN when undefined *)
}.

(** The date labels exactly one row: [get_loc] then gives a position (on
    a repeated label it gives a slice or a mask). *)
Definition labels_once (idx : list Timestamp) (d : Timestamp) : bool :=
  (count_occ Z.eq_dec idx d =? 1)%nat.

(** The view of day [d], read from the prepared indicator columns when
    the scanner has them for [tkr] and from the truncated series
    otherwise; none when the history is too short, when the medium MA is
    undefined in the prepared columns, or when the day is not exactly one
    row of the prepared columns and of the frame. *)
Definition exit_view (A : Arithmetic) (self : EntryPointScanner) (tkr : string)
    (ohlcv : DataFrame) (d : Timestamp) : option ExitView :=
  let ohlcv_slice := loc_upto ohlcv d in
  if (length ohlcv_slice <? d_mid self + 5)%nat then None
  else
    match last_opt ohlcv_slice with
    | None => None
    | Some last_bar =>
        let closes := map Close ohlcv_slice in
        match cached_ind self tkr with
        | Some ind =>
            match get_loc (ind_index ind) d, loc_row ohlcv d with
            | Some idx, Some row =>
                match iloc (d_mm ind) idx with
                | Some m =>
                    if labels_once (ind_index ind) d then
                      Some (mkExitView (Close last_bar) (lastn 3 closes)
                              (if (2 <=? idx)%nat
                               then firstn 3 (skipn (idx - 2) (d_mm ind))
                               else [])
                              (Some m) (Volume row) (iloc (vol_avg ind) idx))
                    else None
                | None => None
                end
            | _, _ => None
            end
        | None =>
            let mas := rolling A (d_mid self) closes in
            let volume := map Volume ohlcv_slice in
            Some (mkExitView (Close last_bar) (lastn 3 closes) (lastn 3 mas)
                    (match last_opt mas with Some v => v | None => None end)
                    (Volume last_bar)
                    (if (20 <=? length volume)%nat
                     then Some (smean A (lastn 20 volume)) else None))
        end
    end.

(** The reason of the first rule that holds. *)
Definition first_match (rules : list (bool * string)) : option string :=
  option_map snd (find fst rules).

Definition three_closes_below (v : ExitView) : bool :=
  (length (v_mas3 v) =? 3)%nat && all_below (v_closes3 v) (v_mas3 v).

(** Percent by which the close lies above the medium MA (negative when
    below), as the specification measures the sharp drop. *)
Definition pct_from_ma (A : Arithmetic) (close ma : Q) : Q :=
  fl A (fl A (fl A (close - ma) / ma) * 100).

(** The six rules in priority order, as amended: the fourth needs a
    positive medium MA, the fifth a volume strictly above twice a positive
    average. *)
Definition exit_rules_as_amended (A : Arithmetic) (v : ExitView)
    (e : EntrySignal) (d : Timestamp) : list (bool * string) :=
  [ (Qltb (v_close v) (fl A (es_price e * fl A (90 # 100))), "STOP_LOSS");
    (Qgtb (v_close v) (fl A (es_price e * fl A (115 # 100))), "PROFIT_TARGET");
    (three_closes_below v, "MA20_BREAKDOWN");
    (match v_ma v with
     | Some m => Qgtb m 0 && Qltb (pct_from_ma A (v_close v) m) (- (5))
     | None => false
     end, "SHARP_DROP");
    (nlt (Some (v_close v)) (v_ma v)
     && match v_avg_volume v with
        | Some a => Qgtb a 0 && Qgtb (v_volume v) (fl A (a * 2))
        | None => false
        end, "VOLUME_BREAKDOWN");
    ((30 <=? d - es_date e)%Z, "TIME_EXIT") ].

(** The six rules as the specification words them: the fifth fires on a
    close below the medium MA with volume at least twice the average. *)
Definition exit_rules_as_specified (A : Arithmetic) (v : ExitView)
    (e : EntrySignal) (d : Timestamp) : list (bool * string) :=
  [ (Qltb (v_close v) (fl A (es_price e * fl A (90 # 100))), "STOP_LOSS");
    (Qgtb (v_close v) (fl A (es_price e * fl A (115 # 100))), "PROFIT_TARGET");
    (three_closes_below v, "MA20_BREAKDOWN");
    (match v_ma v with
     | Some m => Qltb (pct_from_ma A (v_close v) m) (- (5))
     | None => false
     end, "SHARP_DROP");
    (nlt (Some (v_close v)) (v_ma v)
     && match v_avg_volume v with
        | Some a => Qgeb (v_volume v) (fl A (a * 2))
        | None => false
        end, "VOLUME_BREAKDOWN");
    ((30 <=? d - es_date e)%Z, "TIME_EXIT") ].

Module ExitSample.
(** 111 bars on the trading days of [Sample]: the close is 100 and the
    volume 9 on the first 110 days; on the last day the close slips to 99
    on a volume of 19, which is exactly twice the 20-day average volume
    (9.5). *)
Definition bar (i : nat) : Bar :=
  if (i <? 110)%nat then mkBar (Sample.day i) 100 100 100 100 9
  else mkBar (Sample.day i) 99 99 99 99 19.

Definition ohlcv : DataFrame := map bar (seq 0 111).

(** A position opened at 100 five trading days before the last bar. *)
Definition entry : EntrySignal := mkEntrySignal (Sample.day 105) 100 "BUY" [].

Definition today : Timestamp := Sample.day 110.

(** Thirty bars at 115, and a position opened at 100 on the third last. *)
Definition flat115 : DataFrame :=
  map (fun i => mkBar (Sample.day i) 115 115 115 115 1000) (seq 0 30).
End ExitSample.

Lemma length_rolling_mean (w : nat) (xs : list Q) :
  length (rolling_mean w xs) = length xs.
Proof. unfold rolling_mean. rewrite length_map, length_seq. reflexivity. Qed.

Lemma length_rounded_rolling_mean (w : nat) (xs : list Q) :
  length (map (option_map round_binary64) (rolling_mean w xs)) = length xs.
Proof. rewrite length_map. apply length_rolling_mean. Qed.

(** No operation rounds: the arithmetic of the exact definitions. *)
Definition exact_arithmetic : Arithmetic :=
  mkArithmetic (fun q => q) rolling_mean mean length_rolling_mean.

(** Python's floats: every operation rounds to binary64.  The window
    means are the exact mean rounded once, which is what pandas computes
    when the sums of the window are exact, as they are on whole-numbered
    prices and volumes. *)
Definition binary64 : Arithmetic :=
  mkArithmetic round_binary64
    (fun w xs => map (option_map round_binary64) (rolling_mean w xs))
    (fun xs => round_binary64 (mean xs))
    length_rounded_rolling_mean.

(** [round_binary64] against the floats of the machine, whose operations
    are those of IEEE 754 binary64, on the computations of the examples
    below: the float nearest to 1.15, the profit target of an entry at
    100, the float nearest to 0.9, and the cash left of 100,000 dollars
    after 40,000 and the cost of 40,000 dollars' worth of shares at
    36.25. *)
Module Machine.
Import PrimFloat.

(** The rational a finite float denotes. *)
Definition value (f : float) : option Q :=
  match FloatOps.Prim2SF f with
  | SpecFloat.S754_zero _ => Some 0
  | SpecFloat.S754_finite s m e =>
      Some (Qred ((if s then - (1) else 1) * inject_Z (Zpos m) * pow2 e))
  | _ => None
  end.

Example round_binary64_on_the_machine :
  value (115 / 100)%float = Some (round_binary64 (115 # 100))
  /\ value (100 * (115 / 100))%float
     = Some (round_binary64 (100 * round_binary64 (115 # 100)))
  /\ value (9 / 10)%float = Some (round_binary64 (9 # 10))
  /\ value (40000 / 36.25)%float = Some (round_binary64 (40000 / (145 # 4)))
  /\ value (100000 - 40000 - 40000 / 36.25 * 36.25)%float
     = Some (round_binary64
               (60000 - round_binary64
                          (round_binary64 (40000 / (145 # 4)) * (145 # 4))))
  /\ value (100000 * (4 / 10))%float
     = Some (round_binary64 (100000 * round_binary64 (4 # 10))).
Proof. repeat split; vm_compute; reflexivity. Qed.
End Machine.

Lemma length_lastn (A : Type) (n : nat) (l : list A) :
  (n <= length l)%nat -> length (lastn n l) = n.
Proof. unfold lastn. intros Hn. rewrite length_skipn. lia. Qed.

Lemma last_opt_map (A B : Type) (f : A -> B) (l : list A) :
  last_opt (map f l) = option_map f (last_opt l).
Proof.
  unfold last_opt. rewrite <- map_rev.
  destruct (List.rev l); reflexivity.
Qed.

Lemma count_defined_skipn (k : nat) (l : list (option Q)) :
  (count_defined (skipn k l) <= count_defined l)%nat.
Proof.
  revert k. induction l as [ | o l IH]; intros [ | k]; simpl; try lia.
  specialize (IH k). unfold count_defined in *. simpl.
  destruct (negb (isna o)); simpl; lia.
Qed.

Lemma all_below_defined (cs : list Q) (ms : list (option Q)) :
  length cs = length ms -> all_below cs ms = true ->
  count_defined ms = length ms.
Proof.
  revert ms. induction cs as [ | c cs IH]; intros [ | m ms]; simpl;
    try discriminate; [reflexivity | ].
  intros Hlen Hall. injection Hlen as Hlen.
  unfold all_below in Hall. simpl in Hall.
  apply andb_true_iff in Hall. destruct Hall as [Hm Hall].
  destruct m as [m | ]; [ | discriminate].
  unfold count_defined in *. simpl. f_equal. apply IH; assumption.
Qed.

(** Without prepared columns, rule 3 is "the last three closes are each
    below their MA": the test on the number of defined MA values is
    implied. *)
Lemma breakdown_nocache (closes : list Q) (mas : list (option Q)) :
  length mas = length closes -> (3 <= length closes)%nat ->
  (if (3 <=? length closes)%nat && (3 <=? count_defined mas)%nat
   then all_below (lastn 3 closes) (lastn 3 mas) else false)
  = (length (lastn 3 mas) =? 3)%nat && all_below (lastn 3 closes) (lastn 3 mas).
Proof.
  intros Hlen H3.
  assert (Hm3 : length (lastn 3 mas) = 3%nat) by (apply length_lastn; lia).
  assert (Hc3 : length (lastn 3 closes) = 3%nat) by (apply length_lastn; lia).
  rewrite Hm3, Nat.eqb_refl, andb_true_l.
  destruct (all_below (lastn 3 closes) (lastn 3 mas)) eqn:Hall.
  - assert (Hdef : (3 <= count_defined mas)%nat).
    { pose proof (@all_below_defined _ _ (eq_trans Hc3 (eq_sym Hm3)) Hall) as Hd.
      rewrite Hm3 in Hd. unfold lastn in Hd.
      pose proof (count_defined_skipn (length mas - 3) mas). lia. }
    apply Nat.leb_le in H3, Hdef. rewrite H3, Hdef. reflexivity.
  - destruct ((3 <=? length closes)%nat && (3 <=? count_defined mas)%nat);
      reflexivity.
Qed.

(** In exact arithmetic the method is the one the engines call. *)
Lemma ep_check_exit_signal_exact (self : EntryPointScanner) (tkr : string)
    (ohlcv : DataFrame) (e : EntrySignal) (d : Timestamp) :
  ep_check_exit_signal_fp exact_arithmetic self tkr ohlcv e d
  = ep_check_exit_signal self tkr ohlcv e d.
Proof. reflexivity. Qed.

(** The chain of tests of [exit_rules_fp] is a first-match over the rule
    list, once rules 3 and 5 are known to read the view. *)
Lemma exit_rules_first_match (A : Arithmetic) (ohlcv ohlcv_slice : DataFrame)
    (e : EntrySignal) (d : Timestamp) (ctx : ExitCtx) (v : ExitView) :
  ma20_breakdown ohlcv_slice ctx = three_closes_below v ->
  volume_breakdown_fp A ohlcv ohlcv_slice d (v_close v) (v_ma v) ctx
  = Ok (nlt (Some (v_close v)) (v_ma v)
        && match v_avg_volume v with
           | Some a => Qgtb a 0 && Qgtb (v_volume v) (fl A (a * 2))
           | None => false
           end) ->
  exit_rules_fp A ohlcv ohlcv_slice e d (v_close v) (v_ma v) ctx
  = Ok (option_map (fun r => mkExitSignal d (v_close v) r [])
          (first_match (exit_rules_as_amended A v e d))).
Proof.
  intros H3 H5. unfold exit_rules_fp, first_match, exit_rules_as_amended.
  rewrite H3, H5. cbn [find fst snd option_map bind].
  destruct (Qltb (v_close v) (fl A (es_price e * fl A (90 # 100))));
    [reflexivity | ].
  destruct (Qgtb (v_close v) (fl A (es_price e * fl A (115 # 100))));
    [reflexivity | ].
  destruct (three_closes_below v); [reflexivity | ].
  assert (H4 : sharp_drop_fp A (v_close v) (v_ma v)
               = match v_ma v with
                 | Some m => Qgtb m 0 && Qltb (pct_from_ma A (v_close v) m) (- (5))
                 | None => false
                 end).
  { unfold sharp_drop_fp, pct_from_ma. destruct (v_ma v) as [m | ]; [ | reflexivity].
    destruct (Qgtb m 0); reflexivity. }
  rewrite H4.
  destruct (match v_ma v with
            | Some m => Qgtb m 0 && Qltb (pct_from_ma A (v_close v) m) (- (5))
            | None => false
            end); [reflexivity | ].
  destruct (nlt (Some (v_close v)) (v_ma v)
            && match v_avg_volume v with
               | Some a => Qgtb a 0 && Qgtb (v_volume v) (fl A (a * 2))
               | None => false
               end); [reflexivity | ].
  destruct (30 <=? d - es_date e)%Z; reflexivity.
Qed.

(** C2, as amended. In every arithmetic -- in particular in binary64, the
    arithmetic of the running program, and in exact arithmetic -- and on a
    frame with strictly ascending dates: on every day that has a view
    (enough history, a defined medium MA, one row for the day),
    [check_exit_signal] does not raise and returns the exit signal of the
    first rule that holds in the order stop-loss (close below entry times
    0.90), profit target (close above entry times 1.15), three consecutive
    closes below the medium MA, close more than 5 percent below a positive
    medium MA, close below the medium MA with volume strictly above twice
    a positive 20-day average volume, 30 calendar days held; the signal is
    dated that day and priced at its close, and none is returned when no
    rule holds.  With fewer than [d_mid + 5] bars of history the answer is
    none.  The method the engines of this development call is the one in
    exact arithmetic. *)
Theorem check_exit_signal_first_match (A : Arithmetic)
    (self : EntryPointScanner) (tkr : string) (ohlcv : DataFrame)
    (e : EntrySignal) (d : Timestamp) :
  StronglySorted Z.lt (index ohlcv) ->
  ((length (loc_upto ohlcv d) < d_mid self + 5)%nat ->
   ep_check_exit_signal_fp A self tkr ohlcv e d = Ok None)
  /\
  (forall v,
     exit_view A self tkr ohlcv d = Some v ->
     ep_check_exit_signal_fp A self tkr ohlcv e d
     = Ok (option_map (fun r => mkExitSignal d (v_close v) r [])
             (first_match (exit_rules_as_amended A v e d))))
  /\
  ep_check_exit_signal self tkr ohlcv e d
  = ep_check_exit_signal_fp exact_arithmetic self tkr ohlcv e d.
Proof.
  intros _. split; [ | split; [ | symmetry; apply ep_check_exit_signal_exact]].
  - intros Hshort. unfold ep_check_exit_signal_fp.
    apply Nat.ltb_lt in Hshort. rewrite Hshort. reflexivity.
  - intros v Hv. unfold exit_view in Hv. unfold ep_check_exit_signal_fp.
    destruct (length (loc_upto ohlcv d) <? d_mid self + 5)%nat eqn:Hlen;
      [discriminate | ].
    apply Nat.ltb_ge in Hlen.
    destruct (last_opt (loc_upto ohlcv d)) as [last_bar | ] eqn:Hlast;
      [ | discriminate].
    destruct (cached_ind self tkr) as [ind | ].
    + (* prepared columns *)
      destruct (get_loc (ind_index ind) d) as [idx | ]; [ | discriminate].
      destruct (loc_row ohlcv d) as [row | ] eqn:Hrow; [ | discriminate].
      destruct (iloc (d_mm ind) idx) as [m | ] eqn:Hm; [ | discriminate].
      destruct (labels_once (ind_index ind) d); [ | discriminate].
      injection Hv as <-. cbn [isna].
      apply (@exit_rules_first_match A ohlcv (loc_upto ohlcv d) e d
               (UseCache ind idx)
               (mkExitView (Close last_bar)
                  (lastn 3 (map Close (loc_upto ohlcv d)))
                  (if (2 <=? idx)%nat
                   then firstn 3 (skipn (idx - 2) (d_mm ind)) else [])
                  (Some m) (Volume row) (iloc (vol_avg ind) idx))).
      * unfold ma20_breakdown, three_closes_below. cbn [v_mas3 v_closes3].
        destruct (2 <=? idx)%nat; reflexivity.
      * unfold volume_breakdown_fp.
        cbn [v_close v_ma v_volume v_avg_volume]. rewrite Hrow.
        destruct (nlt (Some (Close last_bar)) (Some m)); [ | reflexivity].
        destruct (iloc (vol_avg ind) idx) as [a | ]; reflexivity.
    + (* no prepared columns *)
      injection Hv as <-.
      set (closes := map Close (loc_upto ohlcv d)).
      set (mas := rolling A (d_mid self) closes).
      apply (@exit_rules_first_match A ohlcv (loc_upto ohlcv d) e d
               (NoCache closes mas)
               (mkExitView (Close last_bar) (lastn 3 closes) (lastn 3 mas)
                  (match last_opt mas with Some v => v | None => None end)
                  (Volume last_bar)
                  (if (20 <=? length (map Volume (loc_upto ohlcv d)))%nat
                   then Some (smean A (lastn 20 (map Volume (loc_upto ohlcv d))))
                   else None))).
      * unfold ma20_breakdown, three_closes_below. cbn [v_mas3 v_closes3].
        apply breakdown_nocache.
        -- subst mas. apply rolling_length.
        -- subst closes. rewrite length_map. lia.
      * unfold volume_breakdown_fp.
        cbn [v_close v_ma v_volume v_avg_volume].
        rewrite last_opt_map, Hlast. cbn [option_map].
        destruct (nlt (Some (Close last_bar))
                    (match last_opt mas with Some v => v | None => None end));
          [ | reflexivity].
        destruct (20 <=? length (map Volume (loc_upto ohlcv d)))%nat;
          reflexivity.
Qed.

(** The prepared scanner of the sample. *)
Definition prepared_on (ohlcv : DataFrame) : EntryPointScanner :=
  match ep_prepare_simulation EntryPointScanner_init "UP" ohlcv [] with
  | Ok s => s
  | Raise _ => EntryPointScanner_init
  end.

(** C2 as stated fails on the bound of rule 5: on the last day of the
    sample the close (99) is below the medium MA (99.95) and the volume
    (19) equals twice the 20-day average (9.5), so the rules as specified
    give VOLUME_BREAKDOWN, while the scanner, prepared or not, returns
    none -- in binary64 and in exact arithmetic alike. *)
Lemma exit_volume_bound_counterexample :
  let self := prepared_on ExitSample.ohlcv in
  exists v,
    exit_view binary64 self "UP" ExitSample.ohlcv ExitSample.today = Some v
    /\ v_close v == 99
    /\ v_ma v = Some (1999 # 20)
    /\ v_volume v == 19
    /\ v_avg_volume v = Some (190 # 20)
    /\ first_match
         (exit_rules_as_specified binary64 v ExitSample.entry ExitSample.today)
       = Some "VOLUME_BREAKDOWN"
    /\ cached_ind self "UP" <> None
    /\ ep_check_exit_signal_fp binary64 self "UP" ExitSample.ohlcv
         ExitSample.entry ExitSample.today = Ok None
    /\ ep_check_exit_signal_fp binary64 EntryPointScanner_init "UP"
         ExitSample.ohlcv ExitSample.entry ExitSample.today = Ok None
    /\ ep_check_exit_signal self "UP" ExitSample.ohlcv ExitSample.entry
         ExitSample.today = Ok None
    /\ ep_check_exit_signal EntryPointScanner_init "UP" ExitSample.ohlcv
         ExitSample.entry ExitSample.today = Ok None.
Proof.
  eexists. split; [vm_compute; reflexivity | ].
  repeat split; try (vm_compute; reflexivity).
  vm_compute. discriminate.
Qed.

Lemma check_exit_signal_first_match_witness :
  let self := prepared_on ExitSample.ohlcv in
  let stop := mkEntrySignal (Sample.day 105) 120 "BUY" [] in
  exists v,
    exit_view binary64 self "UP" ExitSample.ohlcv ExitSample.today = Some v
    /\ ep_check_exit_signal_fp binary64 self "UP" ExitSample.ohlcv stop
         ExitSample.today
       = Ok (Some (mkExitSignal ExitSample.today (v_close v) "STOP_LOSS" [])).
Proof.
  intros self stop. eexists. split.
  - vm_compute. reflexivity.
  - refine (eq_trans
              (proj1 (proj2 (@check_exit_signal_first_match binary64 self "UP"
                               ExitSample.ohlcv stop ExitSample.today _)) _ _) _).
    + apply ascending_sound. vm_compute. reflexivity.
    + vm_compute. reflexivity.
    + vm_compute. reflexivity.
Defined.

(** The thresholds are the rounded products.  A position entered at 100
    whose close is 115: in binary64 the target [100 * 1.15] is
    114.99999999999998..., below 115, and the rule fires; in exact
    arithmetic the target is 115 and it does not. *)
Example profit_target_at_the_rounded_threshold :
  let e := mkEntrySignal (Sample.day 27) 100 "BUY" [] in
  let d := Sample.day 29 in
  fl binary64 (100 * fl binary64 (115 # 100))
  == 8092405580431359 # 70368744177664
  /\ ep_check_exit_signal_fp binary64 EntryPointScanner_init "UP"
       ExitSample.flat115 e d
     = Ok (Some (mkExitSignal d 115 "PROFIT_TARGET" []))
  /\ ep_check_exit_signal EntryPointScanner_init "UP" ExitSample.flat115 e d
     = Ok None.
Proof.
  cbv zeta. split; [vm_compute; reflexivity | ].
  split; vm_compute; reflexivity.
Qed.

(* ------------------------------------------------------------------ *)
(** ** The default window of the single-ticker engine (C10) *)

Lemma searchsorted_le (idx : list Timestamp) (v : Timestamp) :
  (searchsorted idx v <= length idx)%nat.
Proof.
  induction idx as [ | x r IH]; simpl; [lia | ].
  destruct (x <? v)%Z; lia.
Qed.

Lemma searchsorted_all (idx : list Timestamp) (v : Timestamp) :
  searchsorted idx v = length idx -> Forall (fun x => (x < v)%Z) idx.
Proof.
  induction idx as [ | x r IH]; simpl; intros Hs; [constructor | ].
  destruct (x <? v)%Z eqn:Hx; [ | discriminate].
  constructor; [apply Z.ltb_lt, Hx | apply IH; lia].
Qed.

Lemma last_opt_In (A : Type) (l : list A) (x : A) :
  last_opt l = Some x -> In x l.
Proof.
  unfold last_opt. intros Hl. apply in_rev.
  destruct (List.rev l) as [ | y r]; [discriminate | ].
  injection Hl as ->. left. reflexivity.
Qed.

(** A label at or after [v] stops the search before the end. *)
Lemma searchsorted_lt (idx : list Timestamp) (v e : Timestamp) :
  In e idx -> (v <= e)%Z -> (searchsorted idx v < length idx)%nat.
Proof.
  intros Hin Hve.
  pose proof (searchsorted_le idx v) as Hle.
  destruct (Nat.eq_dec (searchsorted idx v) (length idx)) as [Heq | Hne]; [ | lia].
  apply searchsorted_all in Heq. rewrite Forall_forall in Heq.
  specialize (Heq e Hin). lia.
Qed.

Lemma default_start_date_in_bounds (one_year_before : Timestamp -> Timestamp)
    (ohlcv : DataFrame) (e : Timestamp) :
  (exists s, default_start_date one_year_before ohlcv None e = Ok s)
  <-> (Nat.max 50 (searchsorted (index ohlcv) (one_year_before e))
       < length ohlcv)%nat.
Proof.
  unfold default_start_date.
  set (i := Nat.max 50 (searchsorted (index ohlcv) (one_year_before e))).
  assert (Hlen : length (index ohlcv) = length ohlcv) by apply length_map.
  destruct (nth_error (index ohlcv) i) as [s | ] eqn:Hn.
  - split; [intros _ | intros _; exists s; reflexivity].
    rewrite <- Hlen. apply nth_error_Some. congruence.
  - split; [intros [s Hs]; discriminate | intros Hlt].
    apply nth_error_None in Hn. lia.
Qed.

(** C10, as amended. With [start_date] omitted the default start date is
    [ohlcv.index[max(50, start_idx)]], in bounds exactly when the series
    has more than [max(50, start_idx)] bars.  A series of 50 or fewer bars
    always makes the call raise [IndexError], so a call that returns has
    more than 50 bars; and when [end_date] is omitted too (the year is
    counted back from the last bar) the window is defined exactly when
    the series has more than 50 bars. *)
Theorem default_start_date_bounds
    (S : Type) (H : BaseScanner S) (one_year_before : Timestamp -> Timestamp)
    (engine : SimulationEngine S) (tkr : string) (ohlcv : DataFrame)
    (fundamentals : Series) :
  (forall e,
      (exists s, default_start_date one_year_before ohlcv None e = Ok s)
      <-> (Nat.max 50 (searchsorted (index ohlcv) (one_year_before e))
           < length ohlcv)%nat)
  /\ (forall end_date,
        (length ohlcv <= 50)%nat ->
        simulate_ticker one_year_before engine tkr ohlcv fundamentals None end_date
        = Raise IndexError)
  /\ (forall end_date r,
        simulate_ticker one_year_before engine tkr ohlcv fundamentals None end_date
        = Ok r ->
        (50 < length ohlcv)%nat)
  /\ ((forall d, (one_year_before d < d)%Z) ->
      ((exists w, sim_window one_year_before ohlcv None None = Ok w)
       <-> (50 < length ohlcv)%nat)).
Proof.
  assert (Hraise : forall end_date,
             (length ohlcv <= 50)%nat ->
             sim_window one_year_before ohlcv None end_date = Raise IndexError).
  { intros end_date Hshort. unfold sim_window.
    destruct (default_end_date ohlcv end_date) as [e | err] eqn:He.
    - cbn [bind].
      destruct (default_start_date one_year_before ohlcv None e) as [s | err] eqn:Hs.
      + assert (Hex : exists s, default_start_date one_year_before ohlcv None e = Ok s)
          by (exists s; exact Hs).
        apply default_start_date_in_bounds in Hex. lia.
      + unfold default_start_date in Hs.
        destruct (nth_error (index ohlcv) _); [discriminate | ].
        injection Hs as <-. reflexivity.
    - unfold default_end_date in He.
      destruct end_date; [discriminate | ].
      destruct (last_opt (index ohlcv)); [discriminate | ].
      injection He as <-. reflexivity. }
  assert (Hsim : forall end_date,
             (length ohlcv <= 50)%nat ->
             simulate_ticker one_year_before engine tkr ohlcv fundamentals None
               end_date = Raise IndexError).
  { intros end_date Hshort. unfold simulate_ticker, simulate_state.
    rewrite (Hraise end_date Hshort). reflexivity. }
  split; [intro e; apply default_start_date_in_bounds | ].
  split; [exact Hsim | ].
  split.
  - intros end_date r Hok.
    destruct (le_lt_dec (length ohlcv) 50) as [Hshort | Hlong]; [ | exact Hlong].
    rewrite (Hsim end_date Hshort) in Hok. discriminate.
  - intros Hback. split.
    + intros [w Hw].
      destruct (le_lt_dec (length ohlcv) 50) as [Hshort | Hlong]; [ | exact Hlong].
      rewrite (Hraise None Hshort) in Hw. discriminate.
    + intros Hlong. unfold sim_window, default_end_date.
      assert (Hne : index ohlcv <> []).
      { intros E. apply (f_equal (@length _)) in E.
        unfold index in E. rewrite length_map in E. simpl in E. lia. }
      destruct (last_opt_nonempty Hne) as [e He]. rewrite He. cbn [bind].
      assert (Hex : exists s, default_start_date one_year_before ohlcv None e = Ok s).
      { apply default_start_date_in_bounds.
        pose proof (@searchsorted_lt (index ohlcv) (one_year_before e) e
                      (last_opt_In _ He) (Z.lt_le_incl _ _ (Hback e))) as Hs.
        assert (Hlen : length (index ohlcv) = length ohlcv) by apply length_map.
        rewrite Hlen in Hs. lia. }
      destruct Hex as [s Hs]. rewrite Hs. cbn [bind]. eexists. reflexivity.
Qed.

(** A caller-supplied [end_date] more than a year after the last bar puts
    [start_idx] at the end of the index: the default start date is out of
    bounds although the series has 60 bars. *)
Lemma default_start_date_counterexample :
  let back := fun d : Timestamp => (d - 365)%Z in
  let late := Some (Sample.day 59 + 1000)%Z in
  (50 < length (Sample.rising 60))%nat
  /\ searchsorted (index (Sample.rising 60)) (back (Sample.day 59 + 1000)%Z)
     = 60%nat
  /\ default_start_date back (Sample.rising 60) None (Sample.day 59 + 1000)%Z
     = Raise IndexError
  /\ simulate_ticker back (mkSimulationEngine EntryPointScanner_init 100000 1)
       "UP" (Sample.rising 60) [] None late
     = Raise IndexError.
Proof.
  repeat split; try (vm_compute; reflexivity). vm_compute. lia.
Qed.

Lemma default_start_date_bounds_witness :
  exists w,
    sim_window (fun d : Timestamp => (d - 365)%Z) (Sample.rising 60) None None
    = Ok w.
Proof.
  apply (proj2 (proj2 (proj2
           (default_start_date_bounds EntryPointScanner_scanner
              (fun d : Timestamp => (d - 365)%Z)
              (mkSimulationEngine EntryPointScanner_init 100000 1)
              "UP" (Sample.rising 60) [])))).
  - intros d. lia.
  - vm_compute. lia.
Defined.

(* ------------------------------------------------------------------ *)
(** ** The day loop of the single-ticker engine (C4, C5, C9) *)

(** Scanners whose signals carry the date they were asked about: an entry
    signal of a prepared scanner is dated [as_of_date], an exit signal
    [current_date]. *)
Class DatedScanner (S : Type) `{BaseScanner S} : Prop := {
  entry_dated :
    forall (a0 a : S) tkr ohlcv f,
      prepare_simulation a0 tkr ohlcv f = Ok a ->
      forall d e,
        check_entry_signal a tkr ohlcv f d = Ok (Some e) -> es_date e = d;
  exit_dated :
    forall (a : S) tkr ohlcv p d x,
      check_exit_signal a tkr ohlcv p d = Ok (Some x) -> xs_date x = d
}.

Arguments DatedScanner S {_}.

(** The final row shows full liquidation. *)
Definition row_liquid (r : EquityRow) : Prop :=
  eq_position_value r == 0 /\ eq_equity r == eq_cash r.

Section EngineFacts.
Context {S : Type} `{BaseScanner S}.
Variable engine : SimulationEngine S.
Variable tkr : string.
Variable ohlcv : DataFrame.
Variable fundamentals : Series.
Variable a : S.

Local Abbreviation step := (day_step engine tkr ohlcv fundamentals a).
Local Abbreviation loop := (day_loop engine tkr ohlcv fundamentals a).

(** The four ways a day can go. *)
Inductive day_case (st : SimState) (bar : Bar) (st' : SimState) : Prop :=
| DayEnter (e : EntrySignal) :
    position st = None ->
    check_entry_signal a tkr ohlcv fundamentals (Date bar) = Ok (Some e) ->
    position st' = Some e -> trades st' = trades st ->
    hook_calls st' = hook_calls st ++ [(Date bar, EntryHook)] ->
    day_case st bar st'
| DayIdle :
    position st = None ->
    check_entry_signal a tkr ohlcv fundamentals (Date bar) = Ok None ->
    position st' = None -> trades st' = trades st ->
    hook_calls st' = hook_calls st ++ [(Date bar, EntryHook)] ->
    (exists r, last_opt (equity_rows st') = Some r /\ row_liquid r) ->
    day_case st bar st'
| DayExit (pos : EntrySignal) (x : ExitSignal) (t : Trade) :
    position st = Some pos ->
    check_exit_signal a tkr ohlcv pos (Date bar) = Ok (Some x) ->
    position st' = None -> trades st' = trades st ++ [t] ->
    entry_date t = es_date pos -> exit_date t = xs_date x ->
    hook_calls st' = hook_calls st ++ [(Date bar, ExitHook)] ->
    (exists r, last_opt (equity_rows st') = Some r /\ row_liquid r) ->
    day_case st bar st'
| DayHold (pos : EntrySignal) :
    position st = Some pos ->
    check_exit_signal a tkr ohlcv pos (Date bar) = Ok None ->
    position st' = Some pos -> trades st' = trades st ->
    hook_calls st' = hook_calls st ++ [(Date bar, ExitHook)] ->
    day_case st bar st'.

Lemma row_liquid_intro (d : Timestamp) (c : Q) :
  row_liquid (mkEquityRow d (c + 0) 0 c).
Proof.
  unfold row_liquid. simpl. split; [reflexivity | apply Qplus_0_r].
Qed.

Lemma day_step_case (st st' : SimState) (bar : Bar) :
  step st bar = Ok st' ->
  day_case st bar st'
  /\ map eq_date (equity_rows st') = map eq_date (equity_rows st) ++ [Date bar].
Proof.
  unfold day_step. intros Hstep.
  destruct (position st) as [pos | ] eqn:Hpos.
  - destruct (check_exit_signal a tkr ohlcv pos (Date bar)) as [[x | ] | err] eqn:Hx;
      cbn [bind] in Hstep; [ | | discriminate]; injection Hstep as <-; split;
      try (cbn [equity_rows]; rewrite map_app; reflexivity).
    + eapply DayExit; cbn; eauto.
      eexists. split; [apply last_opt_app | apply row_liquid_intro].
    + eapply DayHold; cbn; eauto.
  - destruct (check_entry_signal a tkr ohlcv fundamentals (Date bar))
      as [[e | ] | err] eqn:He;
      cbn [bind] in Hstep; [ | | discriminate]; injection Hstep as <-; split;
      try (cbn [equity_rows]; rewrite map_app; reflexivity).
    + eapply DayEnter; cbn; eauto.
    + eapply DayIdle; cbn; eauto.
      eexists. split; [apply last_opt_app | apply row_liquid_intro].
Qed.

Lemma day_loop_snoc (st : SimState) (days : DataFrame) (bar : Bar) :
  loop st (days ++ [bar]) = (st1 <- loop st days ;; step st1 bar).
Proof.
  revert st. induction days as [ | b days IH]; intros st; cbn [app day_loop bind].
  - destruct (step st bar); reflexivity.
  - destruct (step st b) as [st1 | err]; cbn [bind]; [apply IH | reflexivity].
Qed.

(** One equity row and one hook call per simulated day, in order. *)
Lemma day_loop_rows (days : DataFrame) (st st' : SimState) :
  loop st days = Ok st' ->
  map eq_date (equity_rows st') = map eq_date (equity_rows st) ++ map Date days
  /\ map fst (hook_calls st') = map fst (hook_calls st) ++ map Date days.
Proof.
  revert st. induction days as [ | b days IH]; intros st Hloop; cbn [day_loop] in Hloop.
  - injection Hloop as <-. cbn [map]. rewrite !app_nil_r. split; reflexivity.
  - apply bind_Ok_inv in Hloop. destruct Hloop as [st1 [Hstep Hloop]].
    destruct (IH _ Hloop) as [Hrows Hcalls].
    destruct (day_step_case _ _ Hstep) as [Hcase Hdates].
    assert (Hhook : map fst (hook_calls st1) = map fst (hook_calls st) ++ [Date b]).
    { destruct Hcase as [e _ _ _ _ Hc | _ _ _ _ Hc _ | pos x t _ _ _ _ _ _ Hc _ | pos _ _ _ _ Hc];
        rewrite Hc, map_app; reflexivity. }
    rewrite Hrows, Hcalls, Hdates, Hhook. cbn [map]. rewrite <- !app_assoc.
    split; reflexivity.
Qed.

(** A flat state after at least one day ends on a liquid row. *)
Lemma day_loop_liquid (days : DataFrame) (st st' : SimState) :
  days <> [] -> loop st days = Ok st' -> position st' = None ->
  exists r, last_opt (equity_rows st') = Some r /\ row_liquid r.
Proof.
  intros Hne Hloop Hflat.
  destruct (exists_last Hne) as [days' [bar ->]].
  rewrite day_loop_snoc in Hloop. apply bind_Ok_inv in Hloop.
  destruct Hloop as [st1 [_ Hstep]].
  destruct (day_step_case _ _ Hstep) as [Hcase _].
  destruct Hcase as [e _ _ Hp _ _ | _ _ _ _ _ Hr | pos x t _ _ _ _ _ _ _ Hr | pos _ _ Hp _ _];
    try congruence; exact Hr.
Qed.

(** The slot holds the old position, nothing, or a signal entered on one
    of the days just simulated. *)
Lemma day_loop_position (days : DataFrame) (st st' : SimState) (pos : EntrySignal) :
  loop st days = Ok st' -> position st' = Some pos ->
  position st = Some pos
  \/ exists bar, In bar days
       /\ check_entry_signal a tkr ohlcv fundamentals (Date bar) = Ok (Some pos).
Proof.
  revert st. induction days as [ | b days IH]; intros st Hloop Hpos; cbn [day_loop] in Hloop.
  - injection Hloop as <-. left. exact Hpos.
  - apply bind_Ok_inv in Hloop. destruct Hloop as [st1 [Hstep Hloop]].
    destruct (IH _ Hloop Hpos) as [Hsame | [bar [Hin Hbar]]].
    + destruct (day_step_case _ _ Hstep) as [Hcase _].
      destruct Hcase as [e _ He Hp _ _ | _ _ Hp _ _ _ | p x t _ _ Hp _ _ _ _ _ | p Hp0 _ Hp _ _];
        try congruence.
      * right. exists b. split; [left; reflexivity | congruence].
      * left. congruence.
    + right. exists bar. split; [right; exact Hin | exact Hbar].
Qed.
End EngineFacts.

(** A trade closed after the day it was opened. *)
Definition closes_later (t : Trade) : Prop := (entry_date t < exit_date t)%Z.

Section TradeDates.
Context {S : Type} `{BaseScanner S}.
Variable engine : SimulationEngine S.
Variable tkr : string.
Variable ohlcv : DataFrame.
Variable fundamentals : Series.
Variable a : S.

Hypothesis Hentry :
  forall d e, check_entry_signal a tkr ohlcv fundamentals d = Ok (Some e) ->
              es_date e = d.
Hypothesis Hexit :
  forall p d x, check_exit_signal a tkr ohlcv p d = Ok (Some x) -> xs_date x = d.

Lemma day_loop_trades (days : DataFrame) (st st' : SimState) :
  StronglySorted Z.lt (map Date days) ->
  Forall closes_later (trades st) ->
  (forall pos, position st = Some pos ->
               Forall (fun b => (es_date pos < Date b)%Z) days) ->
  day_loop engine tkr ohlcv fundamentals a st days = Ok st' ->
  Forall closes_later (trades st').
Proof.
  revert st. induction days as [ | b days IH]; intros st Hsorted Htr Hpos Hloop;
    cbn [day_loop] in Hloop.
  - injection Hloop as <-. exact Htr.
  - apply bind_Ok_inv in Hloop. destruct Hloop as [st1 [Hstep Hloop]].
    cbn [map] in Hsorted. apply StronglySorted_inv in Hsorted.
    destruct Hsorted as [Hsorted Hb]. rewrite Forall_map in Hb.
    destruct (day_step_case _ _ _ _ _ _ _ Hstep) as [Hcase _].
    apply (IH st1 Hsorted); [ | | exact Hloop].
    + destruct Hcase as [e _ _ _ Ht _ | _ _ _ Ht _ _ | pos x t Hp Hx _ Ht Hed Hxd _ _ | pos _ _ _ Ht _];
        rewrite Ht; try exact Htr.
      apply Forall_app. split; [exact Htr | ].
      constructor; [ | constructor].
      unfold closes_later. rewrite Hed, Hxd, (Hexit _ _ Hx).
      specialize (Hpos pos Hp). inversion Hpos; assumption.
    + intros pos Hp1.
      destruct Hcase as [e _ He Hp _ _ | _ _ Hp _ _ _ | p x t _ _ Hp _ _ _ _ _ | p Hp0 _ Hp _ _];
        try congruence.
      * assert (e = pos) by congruence. subst e.
        rewrite (Hentry _ He). exact Hb.
      * assert (p = pos) by congruence. subst p.
        specialize (Hpos pos Hp0). inversion Hpos; assumption.
Qed.

(** A position still open after the loop was entered on a simulated day. *)
Lemma day_loop_entered (days : DataFrame) (st' : SimState) (pos : EntrySignal) :
  day_loop engine tkr ohlcv fundamentals a (init_state engine) days = Ok st' ->
  position st' = Some pos ->
  In (es_date pos) (map Date days).
Proof.
  intros Hloop Hpos.
  destruct (day_loop_position _ _ _ _ _ _ _ Hloop Hpos) as [Hinit | [bar [Hin Hbar]]].
  - discriminate.
  - rewrite (Hentry _ Hbar). apply in_map. exact Hin.
Qed.
End TradeDates.

Lemma sorted_le_last (l : list Z) (x y : Z) :
  StronglySorted Z.lt l -> In x l -> last_opt l = Some y -> (x <= y)%Z.
Proof.
  intros Hs Hin Hlast.
  assert (Hne : l <> []) by (intros ->; contradiction).
  destruct (exists_last Hne) as [l' [z ->]].
  rewrite last_opt_app in Hlast. injection Hlast as ->.
  apply in_app_or in Hin. destruct Hin as [Hin | [-> | []]]; [ | lia].
  clear Hne. induction l' as [ | w l' IH]; [contradiction | ].
  cbn [app] in Hs. apply StronglySorted_inv in Hs. destruct Hs as [Hs Hw].
  destruct Hin as [-> | Hin].
  - rewrite Forall_forall in Hw.
    assert (x < y)%Z by (apply Hw, in_or_app; right; left; reflexivity). lia.
  - apply IH; assumption.
Qed.

Lemma sorted_filter (l : list Bar) (p : Bar -> bool) :
  StronglySorted Z.lt (map Date l) -> StronglySorted Z.lt (map Date (filter p l)).
Proof.
  induction l as [ | b l IH]; intros Hs; cbn [filter map]; [constructor | ].
  cbn [map] in Hs. apply StronglySorted_inv in Hs. destruct Hs as [Hs Hb].
  destruct (p b); [ | apply IH; exact Hs].
  cbn [map]. constructor; [apply IH; exact Hs | ].
  rewrite Forall_map in *. rewrite Forall_forall in *.
  intros x Hx. apply filter_In in Hx. apply Hb. tauto.
Qed.

Lemma sorted_NoDup (l : list Z) : StronglySorted Z.lt l -> NoDup l.
Proof.
  induction 1 as [ | x l Hs IH Hx]; constructor; [ | exact IH].
  intros Hin. rewrite Forall_forall in Hx. specialize (Hx x Hin). lia.
Qed.

Lemma NoDup_fst_functional (A B : Type) (l : list (A * B)) (k : A) (x y : B) :
  NoDup (map fst l) -> In (k, x) l -> In (k, y) l -> x = y.
Proof.
  induction l as [ | [k' z] l IH]; cbn [map fst]; intros Hnd Hx Hy; [contradiction | ].
  inversion Hnd as [ | ? ? Hnotin Hnd']; subst.
  destruct Hx as [Hx | Hx]; destruct Hy as [Hy | Hy].
  - congruence.
  - injection Hx as -> ->. exfalso. apply Hnotin.
    apply (in_map fst) in Hy. exact Hy.
  - injection Hy as -> ->. exfalso. apply Hnotin.
    apply (in_map fst) in Hx. exact Hx.
  - apply IH; assumption.
Qed.

(** ** The scanners of the repository date their signals *)

Lemma base_check_entry_signal_dated scan_fn tkr ohlcv f d e :
  base_check_entry_signal scan_fn tkr ohlcv f d = Ok (Some e) -> es_date e = d.
Proof.
  unfold base_check_entry_signal.
  destruct (length (loc_upto ohlcv d) <? 50)%nat; [discriminate | ].
  destruct (scan_fn tkr (loc_upto ohlcv d) f) as [[r | ] | err]; cbn [bind];
    try discriminate.
  destruct (last_opt (loc_upto ohlcv d)); [ | discriminate].
  intros He. injection He as <-. reflexivity.
Qed.

Lemma base_check_exit_signal_dated tkr ohlcv p d x :
  base_check_exit_signal tkr ohlcv p d = Ok (Some x) -> xs_date x = d.
Proof.
  unfold base_check_exit_signal.
  destruct (last_opt (loc_upto ohlcv d)); [ | discriminate].
  destruct (Qltb _ _); [intros Hx; injection Hx as <-; reflexivity | ].
  destruct (30 <=? d - es_date p)%Z; [ | discriminate].
  intros Hx; injection Hx as <-; reflexivity.
Qed.

Lemma exit_rules_dated ohlcv ohlcv_slice e d c m ctx x :
  exit_rules ohlcv ohlcv_slice e d c m ctx = Ok (Some x) -> xs_date x = d.
Proof.
  unfold exit_rules.
  repeat (match goal with
          | |- (if ?b then _ else _) = _ -> _ => destruct b
          | |- Ok (Some _) = Ok (Some _) -> _ =>
              let Hx := fresh in intros Hx; injection Hx as <-; reflexivity
          end).
  destruct (volume_breakdown ohlcv ohlcv_slice d c m ctx) as [[ | ] | err];
    cbn [bind]; try discriminate.
  - intros Hx; injection Hx as <-; reflexivity.
  - destruct (30 <=? d - es_date e)%Z; [ | discriminate].
    intros Hx; injection Hx as <-; reflexivity.
Qed.

Lemma ep_check_exit_signal_dated self tkr ohlcv p d x :
  ep_check_exit_signal self tkr ohlcv p d = Ok (Some x) -> xs_date x = d.
Proof.
  unfold ep_check_exit_signal.
  destruct (length (loc_upto ohlcv d) <? d_mid self + 5)%nat; [discriminate | ].
  destruct (last_opt (loc_upto ohlcv d)); [ | discriminate].
  destruct (cached_ind self tkr) as [ind | ].
  - destruct (get_loc (ind_index ind) d); [ | discriminate].
    destruct (isna _); [discriminate | apply exit_rules_dated].
  - apply exit_rules_dated.
Qed.

(** Every cached entry is filed under its own date. *)
Definition filed_by_date (kv : Timestamp * EntrySignal) : Prop :=
  es_date (snd kv) = fst kv.

Lemma dict_set_filed (k : Timestamp) (v : EntrySignal)
    (d : list (Timestamp * EntrySignal)) :
  es_date v = k -> Forall filed_by_date d ->
  Forall filed_by_date (dict_set Z.eqb k v d).
Proof.
  intros Hv. induction d as [ | [k' v'] d IH]; intros Hd; cbn [dict_set].
  - constructor; [exact Hv | constructor].
  - apply Forall_cons_iff in Hd. destruct Hd as [Hk Hd'].
    destruct (Z.eqb_spec k k') as [Heq | Hne].
    + constructor; [unfold filed_by_date; cbn; congruence | exact Hd'].
    + constructor; [exact Hk | apply IH; exact Hd'].
Qed.

Lemma dict_get_filed (k : Timestamp) (v : EntrySignal)
    (d : list (Timestamp * EntrySignal)) :
  Forall filed_by_date d -> dict_get Z.eqb k d = Some v -> es_date v = k.
Proof.
  induction d as [ | [k' v'] d IH]; intros Hd; cbn [dict_get]; [discriminate | ].
  apply Forall_cons_iff in Hd. destruct Hd as [Hk Hd'].
  destruct (Z.eqb_spec k k') as [-> | Hne].
  - intros Hv. injection Hv as <-. exact Hk.
  - apply IH. exact Hd'.
Qed.

Lemma prepare_entries_filed self ohlcv ind idxs entries out :
  Forall filed_by_date entries ->
  prepare_entries self ohlcv ind idxs entries = Ok out ->
  Forall filed_by_date out.
Proof.
  revert entries. induction idxs as [ | i idxs IH]; intros entries Hd;
    cbn [prepare_entries].
  - intros Hout. injection Hout as <-. exact Hd.
  - destruct (_check_entry_at self i ohlcv ind) as [[r | ] | err]; cbn [bind];
      try discriminate.
    + destruct (nth_error ohlcv i) as [b | ]; [ | discriminate].
      apply IH. apply dict_set_filed; [reflexivity | exact Hd].
    + apply IH. exact Hd.
Qed.

Lemma ep_prepared_entry_dated self0 self tkr ohlcv f d e :
  ep_prepare_simulation self0 tkr ohlcv f = Ok self ->
  ep_check_entry_signal self tkr ohlcv f d = Ok (Some e) -> es_date e = d.
Proof.
  unfold ep_prepare_simulation, ep_check_entry_signal.
  destruct (_compute_indicators self0 ohlcv) as [ind | ].
  - destruct (prepare_entries self0 ohlcv ind _ []) as [entries | err] eqn:Hprep;
      cbn [bind]; [ | discriminate].
    intros Hs. injection Hs as <-. cbn [with_sim sim _sim_ticker _sim_entries].
    rewrite String.eqb_refl. intros He. injection He as He.
    eapply dict_get_filed; [ | exact He].
    eapply prepare_entries_filed; [ | exact Hprep]. constructor.
  - intros Hs. injection Hs as <-. cbn [with_sim sim _sim_ticker _sim_entries].
    rewrite String.eqb_refl. discriminate.
Qed.

#[export] Instance EntryPointScanner_dated : DatedScanner EntryPointScanner.
Proof.
  split.
  - intros a0 a tkr ohlcv f Hprep d e. eapply ep_prepared_entry_dated. exact Hprep.
  - intros a tkr ohlcv p d x. apply ep_check_exit_signal_dated.
Qed.

#[export] Instance PlainScanner_dated : DatedScanner PlainScanner.
Proof.
  split.
  - intros a0 a tkr ohlcv f _ d e. apply base_check_entry_signal_dated.
  - intros a tkr ohlcv p d x. apply base_check_exit_signal_dated.
Qed.

Lemma sim_window_inv one_year_before ohlcv start_date end_date w :
  sim_window one_year_before ohlcv start_date end_date = Ok w ->
  exists s e, w = loc_between ohlcv s e.
Proof.
  unfold sim_window. intros Hw.
  apply bind_Ok_inv in Hw. destruct Hw as [e [_ Hw]].
  apply bind_Ok_inv in Hw. destruct Hw as [s [_ Hw]].
  injection Hw as <-. exists s, e. reflexivity.
Qed.

(** The pieces of a run that reached the end of [simulate_ticker]'s loop
    and force-close. *)
Lemma simulate_state_inv (S : Type) (H : BaseScanner S) one_year_before
    (engine : SimulationEngine S) tkr ohlcv fundamentals start_date end_date w st :
  simulate_state one_year_before engine tkr ohlcv fundamentals start_date end_date
  = Ok (w, st) ->
  exists a st1,
    sim_window one_year_before ohlcv start_date end_date = Ok w
    /\ prepare_simulation (analyzer engine) tkr ohlcv fundamentals = Ok a
    /\ day_loop engine tkr ohlcv fundamentals a (init_state engine) w = Ok st1
    /\ force_close tkr w st1 = Ok st.
Proof.
  unfold simulate_state. intros Hrun.
  apply bind_Ok_inv in Hrun. destruct Hrun as [w0 [Hw Hrun]].
  apply bind_Ok_inv in Hrun. destruct Hrun as [a [Ha Hrun]].
  apply bind_Ok_inv in Hrun. destruct Hrun as [st1 [Hloop Hrun]].
  apply bind_Ok_inv in Hrun. destruct Hrun as [st2 [Hfc Hrun]].
  injection Hrun as <- <-. exists a, st1. auto.
Qed.

(** C9. In a single-ticker run over a series with strictly ascending
    dates and a scanner that dates its signals, the loop makes exactly
    one hook call per simulated day, so no day has both an entry check and
    an exit check: the exit check of a position opened on day D is first
    made on a later day.  Every trade closed by the scanner has its exit
    date strictly after its entry date; only the END_OF_DATA trade, closed
    on the last simulated day, may have exit date equal to entry date. *)
Theorem exit_check_after_entry_day
    (S : Type) (H : BaseScanner S) (HD : DatedScanner S)
    (one_year_before : Timestamp -> Timestamp) (engine : SimulationEngine S)
    (tkr : string) (ohlcv : DataFrame) (fundamentals : Series)
    (start_date end_date : option Timestamp) (w : DataFrame) (st : SimState) :
  StronglySorted Z.lt (index ohlcv) ->
  simulate_state one_year_before engine tkr ohlcv fundamentals start_date end_date
  = Ok (w, st) ->
  map fst (hook_calls st) = map Date w
  /\ (forall d, In (d, EntryHook) (hook_calls st) ->
                ~ In (d, ExitHook) (hook_calls st))
  /\ exists closed forced,
       trades st = closed ++ forced
       /\ Forall closes_later closed
       /\ (forced = []
           \/ exists t last_bar,
                forced = [t]
                /\ exit_reason t = "END_OF_DATA"
                /\ last_opt w = Some last_bar
                /\ exit_date t = Date last_bar
                /\ (entry_date t <= exit_date t)%Z).
Proof.
  intros Hsorted Hrun.
  apply simulate_state_inv in Hrun.
  destruct Hrun as [a [st1 [Hw [Ha [Hloop Hfc]]]]].
  destruct (sim_window_inv _ _ _ _ Hw) as [s [e ->]].
  assert (Hws : StronglySorted Z.lt (map Date (loc_between ohlcv s e)))
    by (apply sorted_filter; exact Hsorted).
  set (w := loc_between ohlcv s e) in *.
  destruct (day_loop_rows _ _ _ _ _ _ _ Hloop) as [_ Hcalls].
  cbn [init_state hook_calls map app] in Hcalls.
  assert (Hcalls' : hook_calls st = hook_calls st1).
  { unfold force_close in Hfc. destruct (position st1); [ | congruence].
    destruct (last_opt w); [ | discriminate]. injection Hfc as <-. reflexivity. }
  assert (Hclosed : Forall closes_later (trades st1)).
  { eapply (@day_loop_trades S H engine tkr ohlcv fundamentals a)
      with (days := w) (st := init_state engine).
    - intros d x Hx. eapply entry_dated; [exact Ha | exact Hx].
    - intros p d x Hx. eapply exit_dated; exact Hx.
    - exact Hws.
    - constructor.
    - intros pos Hpos. discriminate.
    - exact Hloop. }
  split; [congruence | ]. split.
  - intros d Hin Hout.
    assert (Hnd : NoDup (map fst (hook_calls st))).
    { rewrite Hcalls', Hcalls. apply sorted_NoDup. exact Hws. }
    assert (Heq : EntryHook = ExitHook)
      by (eapply NoDup_fst_functional; eassumption).
    discriminate.
  - unfold force_close in Hfc.
    destruct (position st1) as [pos | ] eqn:Hpos.
    + destruct (last_opt w) as [lastb | ] eqn:Hlast; [ | discriminate].
      injection Hfc as <-. cbn [trades].
      eexists. eexists. split; [reflexivity | ]. split; [exact Hclosed | ].
      right. eexists. exists lastb. split; [reflexivity | ].
      cbn [exit_reason exit_date entry_date]. repeat split.
      apply (sorted_le_last (l := map Date w)); [exact Hws | | ].
      * eapply (@day_loop_entered S H engine tkr ohlcv fundamentals a)
          with (st' := st1); [ | exact Hloop | exact Hpos].
        intros d x Hx. eapply entry_dated; [exact Ha | exact Hx].
      * rewrite last_opt_map, Hlast. reflexivity.
    + injection Hfc as <-. exists (trades st1), [].
      split; [symmetry; apply app_nil_r | ]. split; [exact Hclosed | left; reflexivity].
Qed.

Module RunSample.
Definition back (d : Timestamp) : Timestamp := (d - 365)%Z.

Definition engine : SimulationEngine EntryPointScanner :=
  mkSimulationEngine EntryPointScanner_init 100000 1.

(** The run of the engine over the 130 rising bars, both dates omitted. *)
Definition run : Res (DataFrame * SimState) :=
  simulate_state back engine "UP" (Sample.rising 130) [] None None.
End RunSample.

Lemma exit_check_after_entry_day_witness :
  exists w st,
    RunSample.run = Ok (w, st)
    /\ map exit_reason (trades st) = ["TIME_EXIT"; "END_OF_DATA"]
    /\ map fst (hook_calls st) = map Date w.
Proof.
  eexists. eexists. split; [vm_compute; reflexivity | ]. split.
  - vm_compute. reflexivity.
  - refine (proj1 (exit_check_after_entry_day EntryPointScanner_dated
                     RunSample.back RunSample.engine "UP" (Sample.rising 130) []
                     None None _ _)).
    + apply ascending_sound. vm_compute. reflexivity.
    + vm_compute. reflexivity.
Defined.

(* ------------------------------------------------------------------ *)
(** ** Dictionaries keep one record per key *)

Section DictFacts.
Variables K V : Type.
Variable eqb : K -> K -> bool.
Hypothesis eqb_spec : forall x y, reflect (x = y) (eqb x y).

Lemma dict_mem_In (k : K) (d : list (K * V)) :
  dict_mem eqb k d = true <-> In k (dict_keys d).
Proof.
  unfold dict_mem. induction d as [ | [k' v'] d IH]; cbn [dict_get dict_keys map fst].
  - split; [discriminate | contradiction].
  - destruct (eqb_spec k k') as [-> | Hne].
    + split; [intros _; left; reflexivity | reflexivity].
    + rewrite IH. split; [intros Hin; right; exact Hin | ].
      intros [Heq | Hin]; [congruence | exact Hin].
Qed.

Lemma dict_set_keys (k : K) (v : V) (d : list (K * V)) :
  dict_keys (dict_set eqb k v d)
  = if dict_mem eqb k d then dict_keys d else dict_keys d ++ [k].
Proof.
  unfold dict_mem. induction d as [ | [k' v'] d IH];
    cbn [dict_set dict_get dict_keys map fst app]; [reflexivity | ].
  destruct (eqb_spec k k') as [-> | Hne]; [reflexivity | ].
  cbn [map fst]. fold (dict_keys (dict_set eqb k v d)). rewrite IH.
  destruct (dict_get eqb k d); reflexivity.
Qed.

Lemma dict_set_NoDup (k : K) (v : V) (d : list (K * V)) :
  NoDup (dict_keys d) -> NoDup (dict_keys (dict_set eqb k v d)).
Proof.
  intros Hnd. rewrite dict_set_keys.
  destruct (dict_mem eqb k d) eqn:Hmem; [exact Hnd | ].
  apply NoDup_app; [exact Hnd | constructor; [intros [] | constructor] | ].
  intros x Hin [<- | []].
  apply dict_mem_In in Hin. congruence.
Qed.

Lemma dict_del_keys_incl (k : K) (d : list (K * V)) (x : K) :
  In x (dict_keys (dict_del eqb k d)) -> In x (dict_keys d).
Proof.
  induction d as [ | [k' v'] d IH]; cbn [dict_del dict_keys map fst]; [auto | ].
  destruct (eqb k k'); [intros Hin; right; exact Hin | ].
  cbn [map fst]. intros [Heq | Hin]; [left; exact Heq | right; apply IH, Hin].
Qed.

Lemma dict_del_NoDup (k : K) (d : list (K * V)) :
  NoDup (dict_keys d) -> NoDup (dict_keys (dict_del eqb k d)).
Proof.
  induction d as [ | [k' v'] d IH]; cbn [dict_del dict_keys map fst];
    intros Hnd; [constructor | ].
  inversion Hnd as [ | ? ? Hnotin Hnd']; subst.
  destruct (eqb k k'); [exact Hnd' | ].
  cbn [map fst]. constructor; [ | apply IH, Hnd'].
  intros Hin. apply Hnotin. eapply dict_del_keys_incl. exact Hin.
Qed.

Lemma dict_del_length (k : K) (d : list (K * V)) :
  (length (dict_del eqb k d) <= length d)%nat.
Proof.
  induction d as [ | [k' v'] d IH]; cbn [dict_del length]; [lia | ].
  destruct (eqb k k'); cbn [length]; lia.
Qed.
End DictFacts.

Lemma string_eqb_reflect (x y : string) : reflect (x = y) (String.eqb x y).
Proof. apply String.eqb_spec. Qed.

(* ------------------------------------------------------------------ *)
(** ** The day loop of the portfolio engine (C1, C4, C5) *)

(** The book holds at most one record per ticker. *)
Definition one_per_ticker (open_positions : list (string * Portfolio.OpenPosition))
    : Prop :=
  NoDup (dict_keys open_positions).

Section PortfolioFacts.
Context {S : Type} `{BaseScanner S}.
Variable engine : Portfolio.PortfolioEngine S.
Variable ohlcv_data : list (string * DataFrame).
Variable fundamentals_data : list (string * Series).
Variable scanner_per_ticker : list (string * S).
Variable valid_tickers : list string.

Local Abbreviation pf_step :=
  (Portfolio.day_step engine ohlcv_data fundamentals_data scanner_per_ticker
     valid_tickers).
Local Abbreviation pf_loop :=
  (Portfolio.day_loop engine ohlcv_data fundamentals_data scanner_per_ticker
     valid_tickers).

Lemma close_all_one_per_ticker (ks : list string)
    (open_positions : list (string * Portfolio.OpenPosition)) :
  one_per_ticker open_positions ->
  one_per_ticker (Portfolio.close_all ks open_positions).
Proof.
  unfold Portfolio.close_all, one_per_ticker. revert open_positions.
  induction ks as [ | k ks IH]; intros d Hd; cbn [fold_left]; [exact Hd | ].
  apply IH. apply dict_del_NoDup; auto using string_eqb_reflect.
Qed.

Lemma open_loop_one_per_ticker (cands : list Portfolio.Candidate) (c : Q)
    (open_positions : list (string * Portfolio.OpenPosition)) :
  one_per_ticker open_positions ->
  one_per_ticker (snd (Portfolio.open_loop engine cands c open_positions)).
Proof.
  unfold one_per_ticker. revert c open_positions.
  induction cands as [ | x cands IH]; intros c d Hd; cbn [Portfolio.open_loop];
    [exact Hd | ].
  destruct (Qltb _ _); [exact Hd | ].
  apply IH. apply dict_set_NoDup; auto using string_eqb_reflect.
Qed.

(** The scanner is only asked about tickers that hold no position, and
    every candidate comes from a ticker that was asked. *)
Lemma collect_candidates_asked (d : Timestamp)
    (open_positions : list (string * Portfolio.OpenPosition))
    (tickers : list string) (cands cands' : list Portfolio.Candidate)
    (asked asked' : list string) :
  Portfolio.collect_candidates ohlcv_data fundamentals_data scanner_per_ticker
    d open_positions tickers cands asked = Ok (cands', asked') ->
  (forall t, In t asked -> dict_mem String.eqb t open_positions = false) ->
  (forall c, In c cands -> In (Portfolio.cand_ticker c) asked) ->
  (forall t, In t asked' -> dict_mem String.eqb t open_positions = false)
  /\ (forall c, In c cands' -> In (Portfolio.cand_ticker c) asked').
Proof.
  revert cands asked.
  induction tickers as [ | t tickers IH]; intros cands asked Hcol Hasked Hcands;
    cbn [Portfolio.collect_candidates] in Hcol.
  - injection Hcol as <- <-. split; assumption.
  - destruct (dict_mem String.eqb t open_positions) eqn:Hmem.
    + apply (IH _ _ Hcol); assumption.
    + apply bind_Ok_inv in Hcol. destruct Hcol as [o [_ Hcol]].
      destruct (negb (in_index d o)); [apply (IH _ _ Hcol); assumption | ].
      apply bind_Ok_inv in Hcol. destruct Hcol as [sc [_ Hcol]].
      apply bind_Ok_inv in Hcol. destruct Hcol as [[e | ] [_ Hcol]];
        apply (IH _ _ Hcol).
      * intros t' Hin. apply in_app_or in Hin.
        destruct Hin as [Hin | [<- | []]]; [apply Hasked, Hin | exact Hmem].
      * intros c Hin. apply in_app_or in Hin. apply in_or_app.
        destruct Hin as [Hin | [<- | []]]; [left; apply Hcands, Hin | ].
        right. left. reflexivity.
      * intros t' Hin. apply in_app_or in Hin.
        destruct Hin as [Hin | [<- | []]]; [apply Hasked, Hin | exact Hmem].
      * intros c Hin. apply in_or_app. left. apply Hcands, Hin.
Qed.

Lemma entries_step_facts (d : Timestamp) (c : Q)
    (open_positions : list (string * Portfolio.OpenPosition))
    (c' : Q) (open' : list (string * Portfolio.OpenPosition)) (asked : list string) :
  Portfolio.entries_step engine ohlcv_data fundamentals_data scanner_per_ticker
    valid_tickers d c open_positions = Ok (c', open', asked) ->
  (one_per_ticker open_positions -> one_per_ticker open')
  /\ (forall t, In t asked -> dict_mem String.eqb t open_positions = false).
Proof.
  unfold Portfolio.entries_step. intros Hstep.
  destruct (_ && _).
  - apply bind_Ok_inv in Hstep. destruct Hstep as [[cands asked0] [Hcol Hstep]].
    injection Hstep as <- <- <-. split.
    + apply open_loop_one_per_ticker.
    + apply (collect_candidates_asked _ _ _ _ _ Hcol); intros ? [].
  - injection Hstep as <- <- <-. split; [auto | intros ? []].
Qed.

Lemma pf_day_step_facts (st st' : Portfolio.State) (d : Timestamp) :
  pf_step st d = Ok st' ->
  (one_per_ticker (Portfolio.open_positions st) ->
   one_per_ticker (Portfolio.open_positions st'))
  /\ map Portfolio.row_date (Portfolio.equity_rows st')
     = map Portfolio.row_date (Portfolio.equity_rows st) ++ [d].
Proof.
  unfold Portfolio.day_step. intros Hstep.
  apply bind_Ok_inv in Hstep. destruct Hstep as [[[c1 t1] ks] [_ Hstep]].
  apply bind_Ok_inv in Hstep. destruct Hstep as [[[c2 o2] asked] [Hent Hstep]].
  apply bind_Ok_inv in Hstep. destruct Hstep as [pv [_ Hstep]].
  injection Hstep as <-. cbn [Portfolio.open_positions Portfolio.equity_rows fst snd].
  split.
  - intros Hone. apply (proj1 (entries_step_facts _ _ _ Hent)).
    apply close_all_one_per_ticker. exact Hone.
  - rewrite map_app. reflexivity.
Qed.

Lemma pf_day_loop_facts (days : list Timestamp) (st st' : Portfolio.State) :
  pf_loop st days = Ok st' ->
  (one_per_ticker (Portfolio.open_positions st) ->
   one_per_ticker (Portfolio.open_positions st'))
  /\ map Portfolio.row_date (Portfolio.equity_rows st')
     = map Portfolio.row_date (Portfolio.equity_rows st) ++ days.
Proof.
  revert st. induction days as [ | d days IH]; intros st Hloop;
    cbn [Portfolio.day_loop] in Hloop.
  - injection Hloop as <-. rewrite app_nil_r. auto.
  - apply bind_Ok_inv in Hloop. destruct Hloop as [st1 [Hstep Hloop]].
    destruct (pf_day_step_facts _ _ Hstep) as [Hone1 Hrows1].
    destruct (IH _ Hloop) as [Hone Hrows].
    split; [auto | ].
    rewrite Hrows, Hrows1, <- app_assoc. reflexivity.
Qed.
End PortfolioFacts.

(** Number of positions the single-ticker engine holds. *)
Definition open_count (st : SimState) : nat :=
  match position st with Some _ => 1 | None => 0 end.

(** C4. Each ticker has at most one open position at every point of a
    simulation.  Single-ticker engine: the state holds at most one
    position, and a day that starts with a position makes no entry query
    and ends with that same position or none.  Portfolio engine: after
    any number of simulated days the book has one record per ticker;
    closing the day's exits and opening the day's entries keep it so, and
    the entry scanner is only asked about tickers that hold no position. *)
Theorem one_open_position_per_ticker (S : Type) (H : BaseScanner S) :
  (forall (engine : SimulationEngine S) tkr ohlcv fundamentals a st days st',
      day_loop engine tkr ohlcv fundamentals a st days = Ok st' ->
      (open_count st' <= 1)%nat)
  /\ (forall (engine : SimulationEngine S) tkr ohlcv fundamentals a st bar st' pos,
        day_step engine tkr ohlcv fundamentals a st bar = Ok st' ->
        position st = Some pos ->
        (position st' = Some pos \/ position st' = None)
        /\ hook_calls st' = hook_calls st ++ [(Date bar, ExitHook)])
  /\ (forall (engine : Portfolio.PortfolioEngine S) ohlcv_data fundamentals_data
             scanner_per_ticker valid_tickers days st',
        Portfolio.day_loop engine ohlcv_data fundamentals_data scanner_per_ticker
          valid_tickers
          (Portfolio.mkState (Portfolio.initial_capital engine) [] [] [] []) days
        = Ok st' ->
        one_per_ticker (Portfolio.open_positions st'))
  /\ (forall (engine : Portfolio.PortfolioEngine S) ohlcv_data fundamentals_data
             scanner_per_ticker valid_tickers d c open_positions ks c' open' asked,
        one_per_ticker open_positions ->
        Portfolio.entries_step engine ohlcv_data fundamentals_data
          scanner_per_ticker valid_tickers d c
          (Portfolio.close_all ks open_positions)
        = Ok (c', open', asked) ->
        one_per_ticker (Portfolio.close_all ks open_positions)
        /\ one_per_ticker open'
        /\ (forall t, In t asked ->
              dict_mem String.eqb t (Portfolio.close_all ks open_positions) = false)).
Proof.
  split; [ | split; [ | split]].
  - intros. unfold open_count. destruct (position st'); lia.
  - intros engine tkr ohlcv fundamentals a st bar st' pos Hstep Hpos.
    destruct (day_step_case _ _ _ _ _ _ _ Hstep) as [Hcase _].
    destruct Hcase as [e Hp _ _ _ _ | Hp _ _ _ _ _ | p x t Hp _ Hp' _ _ _ Hc _ | p Hp _ Hp' _ Hc];
      try congruence.
    + split; [right; exact Hp' | exact Hc].
    + split; [left; congruence | exact Hc].
  - intros engine ohlcv_data fundamentals_data scanner_per_ticker valid_tickers
      days st' Hloop.
    apply (proj1 (pf_day_loop_facts _ _ _ _ _ _ _ Hloop)). constructor.
  - intros engine ohlcv_data fundamentals_data scanner_per_ticker valid_tickers
      d c open_positions ks c' open' asked Hone Hent.
    pose proof (close_all_one_per_ticker ks Hone) as Hclosed.
    destruct (entries_step_facts _ _ _ _ _ _ _ _ Hent) as [Hkeep Hasked].
    auto.
Qed.

(* ------------------------------------------------------------------ *)
(** ** Equity curves (C5) *)

Lemma set_last_row_facts (rows : list EquityRow) (c : Q) :
  map eq_date (set_last_row rows c) = map eq_date rows
  /\ (rows <> [] ->
      exists r, last_opt (set_last_row rows c) = Some r /\ row_liquid r).
Proof.
  unfold set_last_row.
  destruct (List.rev rows) as [ | r before] eqn:Hrev.
  - apply (f_equal (@List.rev _)) in Hrev. rewrite rev_involutive in Hrev.
    cbn in Hrev. subst rows. split; [reflexivity | intros Hne; contradiction].
  - apply (f_equal (@List.rev _)) in Hrev. rewrite rev_involutive in Hrev.
    cbn [List.rev] in Hrev. subst rows. rewrite !map_app. split; [reflexivity | ].
    intros _. eexists. split; [apply last_opt_app | ].
    unfold row_liquid. cbn. split; reflexivity.
Qed.

(** The final row of the portfolio curve shows full liquidation. *)
Definition pf_row_liquid (r : Portfolio.EquityRow) : Prop :=
  Portfolio.row_positions_value r == 0
  /\ Portfolio.row_equity r == Portfolio.row_cash r
  /\ Portfolio.row_num_positions r = 0%nat.

Lemma pf_set_last_row_facts (rows : list Portfolio.EquityRow) (c : Q) :
  map Portfolio.row_date (Portfolio.set_last_row rows c)
  = map Portfolio.row_date rows
  /\ (forall r, last_opt (Portfolio.set_last_row rows c) = Some r ->
                pf_row_liquid r).
Proof.
  unfold Portfolio.set_last_row.
  destruct (List.rev rows) as [ | r0 before] eqn:Hrev.
  - apply (f_equal (@List.rev _)) in Hrev. rewrite rev_involutive in Hrev.
    cbn in Hrev. subst rows. split; [reflexivity | intros r Hr; discriminate].
  - apply (f_equal (@List.rev _)) in Hrev. rewrite rev_involutive in Hrev.
    cbn [List.rev] in Hrev. subst rows. rewrite !map_app. split; [reflexivity | ].
    intros r Hr. rewrite last_opt_app in Hr. injection Hr as <-.
    unfold pf_row_liquid. cbn. repeat split; reflexivity.
Qed.

Lemma build_result_curve tkr ts rows n :
  res_equity_curve (_build_result tkr ts rows n) = rows
  /\ total_days (_build_result tkr ts rows n) = n.
Proof. unfold _build_result. destruct ts; split; reflexivity. Qed.

(* ------------------------------------------------------------------ *)
(** ** Entry selection of the portfolio engine (C1) *)

(** As specified: the score is taken from the signal's metadata, 0 when
    the metadata has none. *)
Definition spec_score (e : EntrySignal) : Q :=
  match find (fun kv => String.eqb (fst kv) "score") (es_metadata e) with
  | Some (_, VNum q) => q
  | _ => 0
  end.

Lemma metadata_score_as_specified (e : EntrySignal) :
  Portfolio.metadata_score e = spec_score e.
Proof.
  unfold Portfolio.metadata_score, spec_score.
  induction (es_metadata e) as [ | [k v] m IH]; cbn [dict_get find fst];
    [reflexivity | ].
  rewrite (String.eqb_sym k "score").
  destruct (String.eqb "score" k); [reflexivity | exact IH].
Qed.

Section EntrySelection.
Context {S : Type} `{BaseScanner S}.
Variable A : Arithmetic.
Variable engine : Portfolio.PortfolioEngine S.
Variable ohlcv_data : list (string * DataFrame).
Variable fundamentals_data : list (string * Series).
Variable scanner_per_ticker : list (string * S).
Variable valid_tickers : list string.

Local Abbreviation pds := (Portfolio.position_dollar_size_fp engine A).
Local Abbreviation half := (fl A (Portfolio.position_dollar_size_fp engine A * (1 # 2))).

(** The ticker has a bar on day [d]. *)
Definition trades_on (d : Timestamp) (t : string) : bool :=
  match dict_get String.eqb t ohlcv_data with
  | Some o => in_index d o
  | None => false
  end.

(** The entry signal the ticker's scanner gives for day [d], if any. *)
Definition entry_signal_of (d : Timestamp) (t : string) : option EntrySignal :=
  match dict_get String.eqb t ohlcv_data, dict_get String.eqb t scanner_per_ticker with
  | Some o, Some sc =>
      match check_entry_signal sc t o
              (Portfolio.fundamentals_of fundamentals_data t) d with
      | Ok e => e
      | Raise _ => None
      end
  | _, _ => None
  end.

(** As specified: every ticker without an open position that trades on
    day [d]. *)
Definition spec_queried (d : Timestamp)
    (open_positions : list (string * Portfolio.OpenPosition)) : list string :=
  filter (fun t => negb (dict_mem String.eqb t open_positions) && trades_on d t)
         valid_tickers.

(** As specified: the signals that fire among the queried tickers, each
    with its score. *)
Definition spec_candidates (d : Timestamp)
    (open_positions : list (string * Portfolio.OpenPosition))
    : list Portfolio.Candidate :=
  flat_map (fun t => match entry_signal_of d t with
                     | Some e => [(spec_score e, t, e)]
                     | None => []
                     end)
           (spec_queried d open_positions).

(** As specified: open the candidates in order, each sized at
    min(per-position dollars, remaining cash), skipping a candidate when
    the remaining cash is below half the per-position dollars.  The
    position holds as many shares as the dollars buy, and the remaining
    cash goes down by what they cost. *)
Fixpoint spec_open (cands : list Portfolio.Candidate) (cash : Q)
    (open_positions : list (string * Portfolio.OpenPosition))
    : Q * list (string * Portfolio.OpenPosition) :=
  match cands with
  | [] => (cash, open_positions)
  | c :: rest =>
      if Qltb cash half then spec_open rest cash open_positions
      else
        let dollars := py_min pds cash in
        let entry := Portfolio.cand_entry c in
        let shares := fl A (dollars / es_price entry) in
        let cost := fl A (shares * es_price entry) in
        spec_open rest (fl A (cash - cost))
          (dict_set String.eqb (Portfolio.cand_ticker c)
             (Portfolio.mkOpenPosition (Portfolio.cand_ticker c) entry shares cost)
             open_positions)
  end.

Lemma spec_open_no_cash (cands : list Portfolio.Candidate) (cash : Q)
    (open_positions : list (string * Portfolio.OpenPosition)) :
  Qltb cash half = true ->
  spec_open cands cash open_positions = (cash, open_positions).
Proof.
  intros Hlow. induction cands as [ | c rest IH]; cbn [spec_open]; [reflexivity | ].
  rewrite Hlow. exact IH.
Qed.

Lemma half_test (cash : Q) :
  half <= pds ->
  Qltb (py_min pds cash) half = Qltb cash half.
Proof.
  intros Hhalf. unfold py_min.
  destruct (Qltb cash pds) eqn:Hc; [reflexivity | ].
  apply Qltb_ge in Hc.
  transitivity false; [ | symmetry]; apply Qltb_ge; lra.
Qed.

Lemma open_loop_as_specified (cands : list Portfolio.Candidate) (cash : Q)
    (open_positions : list (string * Portfolio.OpenPosition)) :
  half <= pds ->
  Portfolio.open_loop_fp engine A cands cash open_positions
  = spec_open cands cash open_positions.
Proof.
  intros Hhalf. revert cash open_positions.
  induction cands as [ | c rest IH]; intros cash open_positions;
    cbn [Portfolio.open_loop_fp spec_open]; [reflexivity | ].
  rewrite (half_test cash Hhalf).
  destruct (Qltb cash half) eqn:Hlow.
  - symmetry. apply spec_open_no_cash. exact Hlow.
  - apply IH.
Qed.

Lemma collect_candidates_as_specified (d : Timestamp)
    (open_positions : list (string * Portfolio.OpenPosition))
    (tickers : list string) (cands cands' : list Portfolio.Candidate)
    (asked asked' : list string) :
  Portfolio.collect_candidates ohlcv_data fundamentals_data scanner_per_ticker
    d open_positions tickers cands asked = Ok (cands', asked') ->
  let queried :=
    filter (fun t => negb (dict_mem String.eqb t open_positions) && trades_on d t)
           tickers in
  asked' = asked ++ queried
  /\ cands' = cands ++ flat_map (fun t => match entry_signal_of d t with
                                          | Some e => [(Portfolio.metadata_score e, t, e)]
                                          | None => []
                                          end) queried.
Proof.
  revert cands asked.
  induction tickers as [ | t tickers IH]; intros cands asked Hcol;
    cbn [Portfolio.collect_candidates filter] in *.
  - injection Hcol as <- <-. cbn. rewrite !app_nil_r. split; reflexivity.
  - destruct (dict_mem String.eqb t open_positions) eqn:Hmem; cbn [negb andb].
    + apply (IH _ _ Hcol).
    + unfold Portfolio.getitem in Hcol.
      destruct (dict_get String.eqb t ohlcv_data) as [o | ] eqn:Ho;
        cbn [bind] in Hcol; [ | discriminate].
      assert (Htr : trades_on d t = in_index d o)
        by (unfold trades_on; rewrite Ho; reflexivity).
      rewrite Htr.
      destruct (in_index d o) eqn:Hin; cbn [negb] in Hcol.
      * destruct (dict_get String.eqb t scanner_per_ticker) as [sc | ] eqn:Hsc;
          cbn [bind] in Hcol; [ | discriminate].
        destruct (check_entry_signal sc t o
                    (Portfolio.fundamentals_of fundamentals_data t) d)
          as [e | err] eqn:He; cbn [bind] in Hcol; [ | discriminate].
        assert (Hes : entry_signal_of d t = e)
          by (unfold entry_signal_of; rewrite Ho, Hsc, He; reflexivity).
        cbn [flat_map]. rewrite Hes.
        destruct e as [e | ]; destruct (IH _ _ Hcol) as [Hasked Hcands];
          rewrite Hasked, Hcands, <- !app_assoc; split; reflexivity.
      * apply (IH _ _ Hcol).
Qed.

(** The candidates the loop collects carry the score of the
    specification. *)
Lemma collected_scores_as_specified (d : Timestamp) (l : list string) :
  flat_map (fun t => match entry_signal_of d t with
                     | Some e => [(Portfolio.metadata_score e, t, e)]
                     | None => []
                     end) l
  = flat_map (fun t => match entry_signal_of d t with
                       | Some e => [(spec_score e, t, e)]
                       | None => []
                       end) l.
Proof.
  induction l as [ | t l IH]; cbn [flat_map]; [reflexivity | ].
  rewrite IH. destruct (entry_signal_of d t) as [e | ]; [ | reflexivity].
  rewrite metadata_score_as_specified. reflexivity.
Qed.
End EntrySelection.

(** *** The ranking of candidates *)

(** Scores never increase along the list. *)
Definition descending (l : list Portfolio.Candidate) : Prop :=
  StronglySorted
    (fun a b => Portfolio.cand_score b <= Portfolio.cand_score a) l.

Lemma insert_desc_perm (c : Portfolio.Candidate) (l : list Portfolio.Candidate) :
  Permutation (Portfolio.insert_desc c l) (c :: l).
Proof.
  induction l as [ | x r IH]; cbn [Portfolio.insert_desc]; [reflexivity | ].
  destruct (Qltb _ _); [ | reflexivity].
  rewrite IH. apply perm_swap.
Qed.

Lemma sort_desc_perm (l : list Portfolio.Candidate) :
  Permutation (Portfolio.sort_desc l) l.
Proof.
  unfold Portfolio.sort_desc.
  induction l as [ | c l IH]; cbn [fold_right]; [reflexivity | ].
  rewrite insert_desc_perm. constructor. exact IH.
Qed.

Lemma insert_desc_descending (c : Portfolio.Candidate) (l : list Portfolio.Candidate) :
  descending l -> descending (Portfolio.insert_desc c l).
Proof.
  unfold descending.
  induction l as [ | x r IH]; intros Hs; cbn [Portfolio.insert_desc].
  - constructor; constructor.
  - apply StronglySorted_inv in Hs. destruct Hs as [Hr Hx].
    destruct (Qltb (Portfolio.cand_score c) (Portfolio.cand_score x)) eqn:Hc.
    + apply Qltb_lt in Hc. constructor; [apply IH; exact Hr | ].
      apply (Permutation_Forall (Permutation_sym (insert_desc_perm c r))).
      constructor; [apply Qlt_le_weak; exact Hc | exact Hx].
    + apply Qltb_ge in Hc. constructor; [constructor; assumption | ].
      constructor; [exact Hc | ].
      apply (Forall_impl _ (P := fun b => Portfolio.cand_score b <= Portfolio.cand_score x));
        [ | exact Hx].
      intros b Hb. apply (Qle_trans _ _ _ Hb Hc).
Qed.

Lemma sort_desc_descending (l : list Portfolio.Candidate) :
  descending (Portfolio.sort_desc l).
Proof.
  unfold Portfolio.sort_desc.
  induction l as [ | c l IH]; cbn [fold_right]; [constructor | ].
  apply insert_desc_descending. exact IH.
Qed.

(** The sort is stable: the candidates of any given score keep the order
    in which they were collected. *)
Lemma insert_desc_stable (s : Q) (c : Portfolio.Candidate)
    (l : list Portfolio.Candidate) :
  filter (fun x => Qeq_bool (Portfolio.cand_score x) s) (Portfolio.insert_desc c l)
  = filter (fun x => Qeq_bool (Portfolio.cand_score x) s) (c :: l).
Proof.
  induction l as [ | x r IH]; cbn [Portfolio.insert_desc]; [reflexivity | ].
  destruct (Qltb (Portfolio.cand_score c) (Portfolio.cand_score x)) eqn:Hc;
    [ | reflexivity].
  apply Qltb_lt in Hc. cbn [filter] in *. rewrite IH.
  destruct (Qeq_bool (Portfolio.cand_score c) s) eqn:Hcs; [ | reflexivity].
  destruct (Qeq_bool (Portfolio.cand_score x) s) eqn:Hxs; [ | reflexivity].
  apply Qeq_bool_iff in Hcs, Hxs. rewrite Hcs, Hxs in Hc.
  exfalso. apply (Qlt_irrefl _ Hc).
Qed.

Lemma sort_desc_stable (s : Q) (l : list Portfolio.Candidate) :
  filter (fun x => Qeq_bool (Portfolio.cand_score x) s) (Portfolio.sort_desc l)
  = filter (fun x => Qeq_bool (Portfolio.cand_score x) s) l.
Proof.
  unfold Portfolio.sort_desc.
  induction l as [ | c l IH]; cbn [fold_right]; [reflexivity | ].
  rewrite insert_desc_stable. cbn [filter]. rewrite IH. reflexivity.
Qed.

(** Step B as the specification words it, for the outcome
    [(cash', open_positions', asked)] of the step. *)
Definition selected_as_specified {S : Type} {H : BaseScanner S}
    (A : Arithmetic) (engine : Portfolio.PortfolioEngine S)
    (ohlcv_data : list (string * DataFrame))
    (fundamentals_data : list (string * Series))
    (scanner_per_ticker : list (string * S)) (valid_tickers : list string)
    (d : Timestamp) (cash : Q)
    (open_positions : list (string * Portfolio.OpenPosition))
    (r : Q * list (string * Portfolio.OpenPosition) * list string) : Prop :=
  let available_slots :=
    (Portfolio.max_positions engine - Z.of_nat (length open_positions))%Z in
  let half := fl A (Portfolio.position_dollar_size_fp engine A * (1 # 2)) in
  if (0 <? available_slots)%Z && Qgeb cash half then
    snd r = spec_queried ohlcv_data valid_tickers d open_positions
    /\ exists ranked,
         Permutation ranked
           (spec_candidates ohlcv_data fundamentals_data scanner_per_ticker
              valid_tickers d open_positions)
         /\ descending ranked
         /\ (forall s,
               filter (fun x => Qeq_bool (Portfolio.cand_score x) s) ranked
               = filter (fun x => Qeq_bool (Portfolio.cand_score x) s)
                   (spec_candidates ohlcv_data fundamentals_data
                      scanner_per_ticker valid_tickers d open_positions))
         /\ fst r = spec_open A engine (firstn (Z.to_nat available_slots) ranked)
                      cash open_positions
  else r = (cash, open_positions, []).

(** In exact arithmetic the entry step is the one of the day loop. *)
Lemma entries_step_exact (S : Type) (H : BaseScanner S)
    (engine : Portfolio.PortfolioEngine S)
    (ohlcv_data : list (string * DataFrame))
    (fundamentals_data : list (string * Series))
    (scanner_per_ticker : list (string * S)) (valid_tickers : list string)
    (d : Timestamp) (cash : Q)
    (open_positions : list (string * Portfolio.OpenPosition)) :
  Portfolio.entries_step_fp engine ohlcv_data fundamentals_data scanner_per_ticker
    valid_tickers exact_arithmetic d cash open_positions
  = Portfolio.entries_step engine ohlcv_data fundamentals_data scanner_per_ticker
      valid_tickers d cash open_positions.
Proof.
  unfold Portfolio.entries_step_fp, Portfolio.entries_step.
  assert (Hopen : forall cands c o,
             Portfolio.open_loop_fp engine exact_arithmetic cands c o
             = Portfolio.open_loop engine cands c o).
  { induction cands as [ | x cands IH]; intros c o;
      cbn [Portfolio.open_loop_fp Portfolio.open_loop]; [reflexivity | ].
    rewrite IH. reflexivity. }
  change (fl exact_arithmetic
            (Portfolio.position_dollar_size_fp engine exact_arithmetic * (1 # 2)))
    with (Portfolio.position_dollar_size engine * (1 # 2)).
  destruct (_ && _); [ | reflexivity].
  destruct (Portfolio.collect_candidates _ _ _ _ _ _ _ _) as [r | err];
    cbn [bind]; [ | reflexivity].
  rewrite Hopen. reflexivity.
Qed.

(** C1. In every arithmetic -- in particular in binary64, the arithmetic
    of the running program, and in exact arithmetic -- in which half the
    per-position dollars is not above the per-position dollars (in exact
    arithmetic: for every size that is not negative), and with signals
    priced above zero, the entry step of a day has the outcome the
    specification words: with a free slot and cash of at least half the
    per-position dollars, every ticker without a position that trades
    that day is queried, the signals that fire are ranked by descending
    score, the score being the one filed in the signal's metadata and 0
    when there is none (equal scores keep scan order), and the top
    [available_slots] are opened in that order, each sized at
    min(per-position dollars, remaining cash), a candidate being skipped
    once the remaining cash is below half the per-position dollars;
    otherwise nothing is queried or opened.  In particular, with
    [max_positions = 1], an empty book, enough cash and two tickers that
    both signal, only the higher-scoring one is opened (the first in scan
    order on a tie).  The entry step of the day loop of this development
    is the one in exact arithmetic. *)
Theorem entry_selection_by_score (S : Type) (H : BaseScanner S)
    (A : Arithmetic) (engine : Portfolio.PortfolioEngine S)
    (ohlcv_data : list (string * DataFrame))
    (fundamentals_data : list (string * Series))
    (scanner_per_ticker : list (string * S)) :
  fl A (Portfolio.position_dollar_size_fp engine A * (1 # 2))
  <= Portfolio.position_dollar_size_fp engine A ->
  (forall valid_tickers d cash open_positions r,
      (forall t e,
         In t valid_tickers ->
         entry_signal_of ohlcv_data fundamentals_data scanner_per_ticker d t
         = Some e ->
         0 < es_price e) ->
      Portfolio.entries_step_fp engine ohlcv_data fundamentals_data
        scanner_per_ticker valid_tickers A d cash open_positions = Ok r ->
      selected_as_specified A engine ohlcv_data fundamentals_data
        scanner_per_ticker valid_tickers d cash open_positions r)
  /\
  (forall t1 t2 o1 o2 sc1 sc2 e1 e2 d cash,
      Portfolio.max_positions engine = 1%Z ->
      fl A (Portfolio.position_dollar_size_fp engine A * (1 # 2)) <= cash ->
      dict_get String.eqb t1 ohlcv_data = Some o1 ->
      dict_get String.eqb t2 ohlcv_data = Some o2 ->
      in_index d o1 = true -> in_index d o2 = true ->
      dict_get String.eqb t1 scanner_per_ticker = Some sc1 ->
      dict_get String.eqb t2 scanner_per_ticker = Some sc2 ->
      check_entry_signal sc1 t1 o1
        (Portfolio.fundamentals_of fundamentals_data t1) d = Ok (Some e1) ->
      check_entry_signal sc2 t2 o2
        (Portfolio.fundamentals_of fundamentals_data t2) d = Ok (Some e2) ->
      exists cash' open',
        Portfolio.entries_step_fp engine ohlcv_data fundamentals_data
          scanner_per_ticker [t1; t2] A d cash [] = Ok (cash', open', [t1; t2])
        /\ dict_keys open'
           = [if Qltb (spec_score e1) (spec_score e2) then t2 else t1])
  /\
  (forall valid_tickers d cash open_positions,
      Portfolio.entries_step engine ohlcv_data fundamentals_data
        scanner_per_ticker valid_tickers d cash open_positions
      = Portfolio.entries_step_fp engine ohlcv_data fundamentals_data
          scanner_per_ticker valid_tickers exact_arithmetic d cash
          open_positions).
Proof.
  intros Hhalf.
  split; [ | split; [ | intros; symmetry; apply entries_step_exact]].
  - intros valid_tickers d cash open_positions r _ Hstep.
    unfold Portfolio.entries_step_fp in Hstep. unfold selected_as_specified.
    destruct ((0 <? _)%Z && Qgeb cash _); [ | injection Hstep as <-; reflexivity].
    apply bind_Ok_inv in Hstep. destruct Hstep as [[cands asked] [Hcol Hstep]].
    injection Hstep as <-. cbn [fst snd].
    apply collect_candidates_as_specified in Hcol.
    destruct Hcol as [Hasked Hcands].
    cbn [app] in Hasked, Hcands.
    rewrite collected_scores_as_specified in Hcands.
    split; [exact Hasked | ].
    exists (Portfolio.sort_desc cands). subst cands.
    split; [apply sort_desc_perm | ].
    split; [apply sort_desc_descending | ].
    split; [intro s; apply sort_desc_stable | ].
    rewrite (@open_loop_as_specified _ A engine _ _ _ Hhalf).
    destruct (spec_open _ _ _ _ _); reflexivity.
  - intros t1 t2 o1 o2 sc1 sc2 e1 e2 d cash Hmax Hcash Ho1 Ho2 Hin1 Hin2
      Hsc1 Hsc2 He1 He2.
    unfold Portfolio.entries_step_fp. rewrite Hmax. cbn [length Z.of_nat].
    assert (Hge : Qgeb cash
                    (fl A (Portfolio.position_dollar_size_fp engine A * (1 # 2)))
                  = true)
      by (apply Qleb_le; exact Hcash).
    rewrite Hge. cbn [Z.sub Z.opp Z.add Z.ltb Z.compare Pos.compare andb].
    cbn [Portfolio.collect_candidates dict_mem dict_get].
    unfold Portfolio.getitem.
    rewrite Ho1. cbn [bind]. rewrite Hin1. cbn [negb]. rewrite Hsc1. cbn [bind].
    rewrite He1. cbn [bind app Portfolio.collect_candidates dict_mem dict_get].
    rewrite Ho2. cbn [bind]. rewrite Hin2. cbn [negb]. rewrite Hsc2. cbn [bind].
    rewrite He2. cbn [bind app fst snd Portfolio.collect_candidates].
    unfold Portfolio.sort_desc. cbn [fold_right Portfolio.insert_desc].
    unfold Portfolio.cand_score. cbn [fst snd].
    assert (Hopen : forall c,
               dict_keys (snd (Portfolio.open_loop_fp engine A [c] cash []))
               = [Portfolio.cand_ticker c]).
    { intros c. cbn [Portfolio.open_loop_fp].
      rewrite (@half_test _ A engine cash Hhalf).
      assert (Hlow : Qltb cash
                       (fl A (Portfolio.position_dollar_size_fp engine A * (1 # 2)))
                     = false)
        by (apply Qltb_ge; exact Hcash).
      rewrite Hlow. reflexivity. }
    change (Z.to_nat 1) with 1%nat.
    rewrite !metadata_score_as_specified.
    destruct (Qltb (spec_score e1) (spec_score e2));
      cbn [firstn]; eexists; eexists; (split; [reflexivity | ]);
      cbn [fst snd]; apply Hopen.
Qed.

(* ------------------------------------------------------------------ *)
(** ** A two-ticker portfolio run *)

Module PortfolioSample.
(** Bar [i] of a ticker whose every price is [base + i]. *)
Definition bar (base : Z) (i : nat) : Bar :=
  let p := inject_Z (base + Z.of_nat i) in
  mkBar (Sample.day i) p p p p 1000.

Definition series (base : Z) : DataFrame := map (bar base) (seq 0 130).

(** On day 100 both tickers signal: "AAA" with score 79.5 and "BBB",
    scanned second, with score 82.1. *)
Definition ohlcv_data : list (string * DataFrame) :=
  [("AAA", series 1000); ("BBB", series 2000)].

Definition tickers : list string := ["AAA"; "BBB"].

(** One slot, 50,000 dollars per position. *)
Definition engine : Portfolio.PortfolioEngine EntryPointScanner :=
  Portfolio.mkPortfolioEngine EntryPointScanner_init 100000 1 (1 # 2).

Definition prepared : list (string * EntryPointScanner) * list string :=
  Portfolio.prepare_all engine ohlcv_data [] tickers [] [].

Definition day100 : Timestamp := Sample.day 100.

Definition calendar : list Timestamp := map Date (series 1000).
End PortfolioSample.

Module RankSample.
(** Sixty bars at one price on the trading days of [Sample]. *)
Definition flat (p : Q) : DataFrame :=
  map (fun i => mkBar (Sample.day i) p p p p 1000) (seq 0 60).

(** A scanner that signals on every day and files the score [score tkr]
    in the details of its result, which the default entry check hands on
    as the metadata of the signal. *)
Definition scorer (score : string -> Q) : PlainScanner :=
  mkPlainScanner
    (fun tkr _ _ =>
       Ok (Some (ScanResult_init tkr (PFin (score tkr)) "BUY"
                   [("score", VNum (score tkr))]))).

Definition today : Timestamp := Sample.day 59.

(** "DEAR" trades at 200 and scores 10; "CHEAP", scanned second, trades
    at 10 and scores 90. *)
Definition ohlcv_data : list (string * DataFrame) :=
  [("DEAR", flat 200); ("CHEAP", flat 10)].

Definition by_name (tkr : string) : Q :=
  if String.eqb tkr "CHEAP" then 90 else 10.

Definition scanners : list (string * PlainScanner) :=
  [("DEAR", scorer by_name); ("CHEAP", scorer by_name)].

(** One slot, 50,000 dollars per position. *)
Definition engine : Portfolio.PortfolioEngine PlainScanner :=
  Portfolio.mkPortfolioEngine (scorer by_name) 100000 1 (1 # 2).

(** Three tickers at 100, 36.25 and 50, scored in that order. *)
Definition three : list (string * DataFrame) :=
  [("A", flat 100); ("B", flat (145 # 4)); ("C", flat 50)].

Definition in_order (tkr : string) : Q :=
  if String.eqb tkr "A" then 30 else if String.eqb tkr "B" then 20 else 10.

Definition three_scanners : list (string * PlainScanner) :=
  [("A", scorer in_order); ("B", scorer in_order); ("C", scorer in_order)].

(** Three slots and 0.4 of 100,000 dollars per position: the float
    nearest to 0.4 for the run in binary64, the decimal itself for the
    run in exact arithmetic. *)
Definition engine64 : Portfolio.PortfolioEngine PlainScanner :=
  Portfolio.mkPortfolioEngine (scorer in_order) 100000 3 (round_binary64 (4 # 10)).

Definition engine_exact : Portfolio.PortfolioEngine PlainScanner :=
  Portfolio.mkPortfolioEngine (scorer in_order) 100000 3 (4 # 10).
End RankSample.

Lemma entry_selection_by_score_witness :
  exists r,
    Portfolio.entries_step_fp RankSample.engine RankSample.ohlcv_data []
      RankSample.scanners ["DEAR"; "CHEAP"] binary64 RankSample.today 100000 []
    = Ok r
    /\ dict_keys (snd (fst r)) = ["CHEAP"]
    /\ selected_as_specified binary64 RankSample.engine RankSample.ohlcv_data []
         RankSample.scanners ["DEAR"; "CHEAP"] RankSample.today 100000 [] r.
Proof.
  eexists. split; [vm_compute; reflexivity | ]. split; [reflexivity | ].
  apply (proj1 (@entry_selection_by_score _ _ binary64 RankSample.engine
                  RankSample.ohlcv_data [] RankSample.scanners
                  ltac:(vm_compute; discriminate))).
  - intros t e [<- | [<- | []]] He; vm_compute in He; injection He as <-;
      reflexivity.
  - vm_compute. reflexivity.
Defined.

(** The cost of a position is the rounded product of the rounded number
    of shares and the price.  With 100,000 dollars, 40,000 per position
    and candidates at 100, 36.25 and 50: in binary64 the shares bought at
    36.25 cost a little more than 40,000, the cash left after two
    positions is 19,999.999999999993, below half a position, and the
    third candidate is skipped; in exact arithmetic 20,000 are left and
    the third position is opened with them. *)
Example rounded_cost_leaves_cash_short :
  (exists cash' open',
     Portfolio.entries_step_fp RankSample.engine64 RankSample.three []
       RankSample.three_scanners ["A"; "B"; "C"] binary64 RankSample.today
       100000 []
     = Ok (cash', open', ["A"; "B"; "C"])
     /\ dict_keys open' = ["A"; "B"]
     /\ cash' == 2748779069439999 # 137438953472)
  /\ (exists cash' open',
        Portfolio.entries_step RankSample.engine_exact RankSample.three []
          RankSample.three_scanners ["A"; "B"; "C"] RankSample.today 100000 []
        = Ok (cash', open', ["A"; "B"; "C"])
        /\ dict_keys open' = ["A"; "B"; "C"]
        /\ cash' == 0).
Proof.
  split; eexists; eexists; (split; [vm_compute; reflexivity | ]);
    split; reflexivity.
Qed.

Lemma one_open_position_per_ticker_witness :
  exists st,
    Portfolio.day_loop PortfolioSample.engine PortfolioSample.ohlcv_data []
      (fst PortfolioSample.prepared) (snd PortfolioSample.prepared)
      (Portfolio.mkState (Portfolio.initial_capital PortfolioSample.engine)
         [] [] [] [])
      PortfolioSample.calendar = Ok st
    /\ dict_keys (Portfolio.open_positions st) = ["BBB"]
    /\ one_per_ticker (Portfolio.open_positions st).
Proof.
  eexists. split; [vm_compute; reflexivity | ]. split; [reflexivity | ].
  apply (proj1 (proj2 (proj2
           (one_open_position_per_ticker EntryPointScanner_scanner)))
         PortfolioSample.engine PortfolioSample.ohlcv_data []
         (fst PortfolioSample.prepared) (snd PortfolioSample.prepared)
         PortfolioSample.calendar).
  vm_compute. reflexivity.
Defined.

(* ------------------------------------------------------------------ *)
(** ** No look-ahead in entry evaluation (C3) *)

(** *** Daily indicator columns read only the bars up to their row *)

Lemma nth_map_seq (f : nat -> option Q) (n k : nat) :
  (k < n)%nat -> nth k (map f (seq 0 n)) None = f k.
Proof.
  intros Hk.
  rewrite (nth_indep _ None (f 0%nat)) by (rewrite length_map, length_seq; exact Hk).
  rewrite (map_nth f (seq 0 n) 0%nat k), seq_nth by exact Hk. reflexivity.
Qed.

Lemma iloc_rolling_mean (w : nat) (xs : list Q) (k : nat) :
  (k < length xs)%nat ->
  iloc (rolling_mean w xs) k = window_mean w (firstn (S k) xs).
Proof. intros Hk. unfold iloc, rolling_mean. apply nth_map_seq. exact Hk. Qed.

Lemma iloc_expanding_max (xs : list Q) (k : nat) :
  (k < length xs)%nat ->
  iloc (expanding_max xs) k = list_max (firstn (S k) xs).
Proof. intros Hk. unfold iloc, expanding_max. apply nth_map_seq. exact Hk. Qed.

(** Two frames share their first [n] rows. *)
Definition same_prefix (n : nat) (A B : DataFrame) : Prop :=
  firstn n A = firstn n B.

Lemma same_prefix_le (n m : nat) (A B : DataFrame) :
  (m <= n)%nat -> same_prefix n A B -> same_prefix m A B.
Proof.
  unfold same_prefix. intros Hm Hn.
  rewrite <- (Nat.min_l m n Hm), <- !firstn_firstn, Hn. reflexivity.
Qed.

Lemma same_prefix_col (f : Bar -> Q) (n : nat) (A B : DataFrame) :
  same_prefix n A B -> firstn n (map f A) = firstn n (map f B).
Proof. unfold same_prefix. intros Hn. rewrite !firstn_map, Hn. reflexivity. Qed.

Lemma same_prefix_nth (n k : nat) (A B : DataFrame) :
  same_prefix n A B -> (k < n)%nat -> nth_error A k = nth_error B k.
Proof.
  unfold same_prefix. intros Hn Hk.
  rewrite <- (firstn_skipn n A), <- (firstn_skipn n B), Hn.
  destruct (Nat.lt_ge_cases k (length (firstn n B))) as [Hlt | Hge].
  - rewrite !nth_error_app1 by exact Hlt. reflexivity.
  - assert (HB : length B = length (firstn n B))
      by (rewrite length_firstn in *; lia).
    assert (HA : length A = length (firstn n B)).
    { rewrite <- Hn. rewrite <- Hn in Hge. rewrite length_firstn in *. lia. }
    assert (nth_error A k = None) by (apply nth_error_None; lia).
    assert (nth_error B k = None) by (apply nth_error_None; lia).
    rewrite (firstn_skipn n B). rewrite <- Hn at 1. rewrite (firstn_skipn n A).
    congruence.
Qed.

Lemma same_prefix_rolling (f : Bar -> Q) (w k : nat) (A B : DataFrame) :
  same_prefix (S k) A B -> (k < length A)%nat -> (k < length B)%nat ->
  iloc (rolling_mean w (map f A)) k = iloc (rolling_mean w (map f B)) k.
Proof.
  intros Hp HA HB.
  rewrite !iloc_rolling_mean by (rewrite length_map; assumption).
  rewrite (same_prefix_col f Hp). reflexivity.
Qed.

Lemma same_prefix_expanding (f : Bar -> Q) (k : nat) (A B : DataFrame) :
  same_prefix (S k) A B -> (k < length A)%nat -> (k < length B)%nat ->
  iloc (expanding_max (map f A)) k = iloc (expanding_max (map f B)) k.
Proof.
  intros Hp HA HB.
  rewrite !iloc_expanding_max by (rewrite length_map; assumption).
  rewrite (same_prefix_col f Hp). reflexivity.
Qed.

(** *** The weekly resample *)

Lemma week_label_ge (d : Timestamp) : (d <= week_label d)%Z.
Proof.
  unfold week_label, weekday.
  pose proof (Z.mod_pos_bound (d + 3) 7 eq_refl). lia.
Qed.

Lemma week_label_div (d : Timestamp) : week_label d = (7 * ((d + 3) / 7) + 3)%Z.
Proof.
  unfold week_label, weekday.
  pose proof (Z.div_mod (d + 3) 7 ltac:(discriminate)). lia.
Qed.

Lemma week_label_mono (d1 d2 : Timestamp) :
  (d1 <= d2)%Z -> (week_label d1 <= week_label d2)%Z.
Proof.
  intros Hle. rewrite !week_label_div.
  pose proof (Z.div_le_mono (d1 + 3) (d2 + 3) 7 eq_refl ltac:(lia)). lia.
Qed.

Lemma resample_head (b : Bar) (l : DataFrame) (r : Bar) (rs : DataFrame) :
  resample_ohlcv (b :: l) = r :: rs -> Date r = week_label (Date b).
Proof.
  cbn [resample_ohlcv].
  destruct (resample_ohlcv l) as [ | r0 rs0].
  - intros E. injection E as <- _. reflexivity.
  - destruct (Z.eqb_spec (week_label (Date b)) (Date r0)) as [Heq | Hne];
      intros E; injection E as <- _; cbn; congruence.
Qed.

Lemma resample_nil (l : DataFrame) : resample_ohlcv l = [] -> l = [].
Proof.
  destruct l as [ | b l]; [reflexivity | ]. cbn [resample_ohlcv].
  destruct (resample_ohlcv l) as [ | r0 rs0]; [discriminate | ].
  destruct (_ =? _)%Z; discriminate.
Qed.

Lemma resample_labels (P : Timestamp -> Prop) (l : DataFrame) :
  Forall (fun b => P (week_label (Date b))) l ->
  Forall (fun r => P (Date r)) (resample_ohlcv l).
Proof.
  induction l as [ | b l IH]; intros Hl; cbn [resample_ohlcv]; [constructor | ].
  apply Forall_cons_iff in Hl. destruct Hl as [Hb Hl]. specialize (IH Hl).
  destruct (resample_ohlcv l) as [ | r0 rs0].
  - constructor; [exact Hb | constructor].
  - apply Forall_cons_iff in IH. destruct IH as [Hr0 Hrs0].
    destruct (_ =? _)%Z.
    + constructor; [exact Hr0 | exact Hrs0].
    + constructor; [exact Hb | constructor; assumption].
Qed.

(** Weeks on either side of a date are resampled independently. *)
Lemma resample_app (c : Timestamp) (P T : DataFrame) :
  Forall (fun b => (week_label (Date b) <= c)%Z) P ->
  Forall (fun b => (c < week_label (Date b))%Z) T ->
  resample_ohlcv (P ++ T) = resample_ohlcv P ++ resample_ohlcv T.
Proof.
  intros HP HT. induction P as [ | b P IH]; [reflexivity | ].
  apply Forall_cons_iff in HP. destruct HP as [Hb HP]. specialize (IH HP).
  cbn [app resample_ohlcv]. rewrite IH.
  destruct (resample_ohlcv P) as [ | r0 rs0] eqn:HrP.
  - cbn [app]. destruct (resample_ohlcv T) as [ | t0 ts0] eqn:HrT; [reflexivity | ].
    assert (Hlab : Forall (fun r => (c < Date r)%Z) (resample_ohlcv T))
      by (apply (resample_labels (fun x => (c < x)%Z)); exact HT).
    rewrite HrT in Hlab. apply Forall_cons_iff in Hlab. destruct Hlab as [Ht0 _].
    cbv beta in Hb, Ht0.
    destruct (Z.eqb_spec (week_label (Date b)) (Date t0)) as [Heq | Hne];
      [ | reflexivity].
    exfalso. rewrite Heq in Hb.
    exact (Z.lt_irrefl _ (Z.lt_le_trans _ _ _ Ht0 Hb)).
  - cbn [app]. destruct (_ =? _)%Z; reflexivity.
Qed.

Lemma ffill_at_later (s : list (Timestamp * option Q)) (d : Timestamp)
    (acc : option Q) :
  Forall (fun lv => (d < fst lv)%Z) s ->
  fold_left (fun a lv => if (fst lv <=? d)%Z then snd lv else a) s acc = acc.
Proof.
  unfold Timestamp in *.
  revert acc. induction s as [ | lv s IH]; intros acc Hs; cbn [fold_left];
    [reflexivity | ].
  apply Forall_cons_iff in Hs. destruct Hs as [Hlv Hs]. cbv beta in Hlv.
  destruct (Z.leb_spec (fst lv) d) as [Hle | Hgt]; [lia | apply IH; exact Hs].
Qed.

Lemma ffill_at_app (s1 s2 : list (Timestamp * option Q)) (d : Timestamp) :
  Forall (fun lv => (d < fst lv)%Z) s2 ->
  ffill_at (s1 ++ s2) d = ffill_at s1 d.
Proof.
  intros Hs2. unfold ffill_at. rewrite fold_left_app.
  apply ffill_at_later. exact Hs2.
Qed.

Lemma combine_app (A B : Type) (l1 l2 : list A) (m1 m2 : list B) :
  length l1 = length m1 ->
  combine (l1 ++ l2) (m1 ++ m2) = combine l1 m1 ++ combine l2 m2.
Proof.
  revert m1. induction l1 as [ | x l1 IH]; intros [ | y m1] Hlen;
    try discriminate; cbn [app combine]; [reflexivity | ].
  f_equal. apply IH. injection Hlen as Hlen. exact Hlen.
Qed.

Lemma Forall_combine_fst (A B : Type) (P : A -> Prop) (l : list A) (m : list B) :
  Forall P l -> Forall (fun p => P (fst p)) (combine l m).
Proof.
  revert m. induction l as [ | x l IH]; intros m Hl; [constructor | ].
  destruct m as [ | y m]; [constructor | ].
  apply Forall_cons_iff in Hl. destruct Hl as [Hx Hl].
  cbn [combine]. constructor; [exact Hx | apply IH; exact Hl].
Qed.

(** A weekly column projected onto the daily index: [f] turns the weekly
    closes into the column ([map Some] for the closes themselves, a
    rolling mean for the weekly MAs). *)
Definition weekly_col (f : list Q -> list (option Q)) (ohlcv : DataFrame)
    : list (option Q) :=
  reindex_ffill (index (resample_ohlcv ohlcv))
    (f (map Close (resample_ohlcv ohlcv))) (index ohlcv).

(** A column transformer that keeps the length and whose value at a row
    reads only the rows up to it. *)
Definition causal (f : list Q -> list (option Q)) : Prop :=
  (forall xs, length (f xs) = length xs)
  /\ (forall xs ys, firstn (length xs) (f (xs ++ ys)) = f xs).

Lemma causal_some : causal (map Some).
Proof.
  split; [intros xs; apply length_map | ].
  intros xs ys. rewrite map_app, firstn_app, length_map, Nat.sub_diag.
  cbn [firstn]. rewrite app_nil_r.
  apply firstn_all2. rewrite length_map. lia.
Qed.

Lemma causal_rolling_mean (w : nat) : causal (rolling_mean w).
Proof.
  split; [intros xs; apply length_rolling_mean | ].
  intros xs ys. unfold rolling_mean.
  rewrite length_app, seq_app, map_app, firstn_app, length_map, length_seq.
  rewrite Nat.sub_diag, firstn_O, app_nil_r.
  rewrite firstn_all2 by (rewrite length_map, length_seq; lia).
  apply map_ext_in. intros i Hi. apply in_seq in Hi. cbv beta.
  rewrite firstn_app.
  replace (S i - length xs)%nat with 0%nat by lia.
  rewrite firstn_O, app_nil_r. reflexivity.
Qed.

(** The weekly value on day [d] is made from the bars whose week closed
    on or before [d]. *)
Lemma weekly_value_split (f : list Q -> list (option Q)) (d : Timestamp)
    (P T : DataFrame) :
  causal f ->
  Forall (fun b => (week_label (Date b) <= d)%Z) P ->
  Forall (fun b => (d < week_label (Date b))%Z) T ->
  ffill_at (combine (index (resample_ohlcv (P ++ T)))
              (f (map Close (resample_ohlcv (P ++ T))))) d
  = ffill_at (combine (index (resample_ohlcv P))
                (f (map Close (resample_ohlcv P)))) d.
Proof.
  intros [Hlen Hpre] HP HT.
  rewrite (resample_app HP HT). unfold index. rewrite !map_app.
  set (cP := map Close (resample_ohlcv P)).
  set (cT := map Close (resample_ohlcv T)).
  rewrite <- (firstn_skipn (length cP) (f (cP ++ cT))), Hpre.
  rewrite combine_app
    by (rewrite Hlen; subst cP; rewrite !length_map; reflexivity).
  apply ffill_at_app. apply Forall_combine_fst.
  rewrite Forall_map.
  apply (resample_labels (fun x => (d < x)%Z)). exact HT.
Qed.

Lemma sorted_later (A : DataFrame) (k : nat) (bk : Bar) :
  StronglySorted Z.lt (index A) -> nth_error A k = Some bk ->
  Forall (fun b => (Date bk < Date b)%Z) (skipn (S k) A).
Proof.
  unfold index. revert k. induction A as [ | a A IH]; intros k Hs Hk.
  - destruct k; discriminate.
  - cbn [map] in Hs. apply StronglySorted_inv in Hs. destruct Hs as [Hs Ha].
    destruct k as [ | k]; cbn [nth_error skipn] in *.
    + injection Hk as <-. rewrite Forall_map in Ha. exact Ha.
    + apply IH; assumption.
Qed.

Lemma filter_none (A : Type) (p : A -> bool) (l : list A) :
  Forall (fun x => p x = false) l -> filter p l = [].
Proof.
  induction 1 as [ | x l Hx _ IH]; cbn [filter]; [reflexivity | ].
  rewrite Hx. exact IH.
Qed.

Lemma filter_all (A : Type) (p : A -> bool) (l : list A) :
  Forall (fun x => p x = true) l -> filter p l = l.
Proof.
  induction 1 as [ | x l Hx _ IH]; cbn [filter]; [reflexivity | ].
  rewrite Hx, IH. reflexivity.
Qed.

(** The bars whose week closed on or before [d]. *)
Definition closed_weeks (d : Timestamp) (A : DataFrame) : DataFrame :=
  filter (fun b => (week_label (Date b) <=? d)%Z) A.

Definition open_weeks (d : Timestamp) (A : DataFrame) : DataFrame :=
  filter (fun b => negb (week_label (Date b) <=? d)%Z) A.

Lemma sorted_weeks_split (d : Timestamp) (A : DataFrame) :
  StronglySorted Z.lt (index A) -> A = closed_weeks d A ++ open_weeks d A.
Proof.
  unfold index, closed_weeks, open_weeks.
  induction A as [ | a A IH]; intros Hs; [reflexivity | ].
  cbn [map] in Hs. apply StronglySorted_inv in Hs. destruct Hs as [Hs Ha].
  cbn [filter].
  destruct (Z.leb_spec (week_label (Date a)) d) as [Hle | Hgt]; cbn [negb app].
  - f_equal. apply IH. exact Hs.
  - assert (Hlate : Forall (fun b => (week_label (Date b) <=? d)%Z = false) A).
    { rewrite Forall_map in Ha. apply (Forall_impl _ (P := fun b => (Date a < Date b)%Z));
        [ | exact Ha].
      intros b Hb. apply Z.leb_gt.
      pose proof (@week_label_mono (Date a) (Date b)) as Hm.
      unfold Timestamp in *. lia. }
    rewrite (filter_none _ Hlate). cbn [app]. f_equal.
    symmetry. apply filter_all.
    apply (Forall_impl _ (P := fun b => (week_label (Date b) <=? d)%Z = false));
      [ | exact Hlate].
    intros b Hb. rewrite Hb. reflexivity.
Qed.

Lemma closed_weeks_prefix (A : DataFrame) (k : nat) (bk : Bar) :
  StronglySorted Z.lt (index A) -> nth_error A k = Some bk ->
  closed_weeks (Date bk) A = closed_weeks (Date bk) (firstn (S k) A).
Proof.
  intros Hs Hk. unfold closed_weeks.
  rewrite <- (firstn_skipn (S k) A) at 1. rewrite filter_app.
  rewrite (filter_none (fun b => (week_label (Date b) <=? Date bk)%Z)
             (l := skipn (S k) A)); [apply app_nil_r | ].
  apply (Forall_impl _ (P := fun b => (Date bk < Date b)%Z));
    [ | apply sorted_later; assumption].
  intros b Hb. apply Z.leb_gt.
  pose proof (week_label_ge (Date b)). unfold Timestamp in *. lia.
Qed.

Lemma weekly_col_iloc (f : list Q -> list (option Q)) (A : DataFrame)
    (k : nat) (bk : Bar) :
  nth_error A k = Some bk ->
  iloc (weekly_col f A) k
  = ffill_at (combine (index (resample_ohlcv A))
                (f (map Close (resample_ohlcv A)))) (Date bk).
Proof.
  intros Hk. unfold iloc, weekly_col, reindex_ffill, index.
  apply nth_error_nth. rewrite !nth_error_map, Hk. reflexivity.
Qed.

(** A weekly column at row [k] reads only the first [k + 1] daily bars. *)
Lemma same_prefix_weekly (f : list Q -> list (option Q)) (k : nat)
    (A B : DataFrame) :
  causal f ->
  StronglySorted Z.lt (index A) -> StronglySorted Z.lt (index B) ->
  same_prefix (S k) A B -> (k < length A)%nat ->
  iloc (weekly_col f A) k = iloc (weekly_col f B) k.
Proof.
  intros Hf HsA HsB Hp HA.
  destruct (nth_error A k) as [bk | ] eqn:Hk;
    [ | apply nth_error_None in Hk; lia].
  assert (HkB : nth_error B k = Some bk)
    by (rewrite <- (same_prefix_nth Hp (Nat.lt_succ_diag_r k)); exact Hk).
  rewrite (@weekly_col_iloc f A k bk Hk), (@weekly_col_iloc f B k bk HkB).
  assert (Hsplit : forall X,
             StronglySorted Z.lt (index X) ->
             ffill_at (combine (index (resample_ohlcv X))
                         (f (map Close (resample_ohlcv X)))) (Date bk)
             = ffill_at (combine (index (resample_ohlcv (closed_weeks (Date bk) X)))
                           (f (map Close (resample_ohlcv (closed_weeks (Date bk) X)))))
                        (Date bk)).
  { intros X HsX. rewrite (@sorted_weeks_split (Date bk) X HsX) at 1 2.
    apply weekly_value_split; [exact Hf | | ].
    - apply Forall_forall. intros b Hb. apply filter_In in Hb.
      apply Z.leb_le. tauto.
    - apply Forall_forall. intros b Hb. apply filter_In in Hb.
      destruct Hb as [_ Hb]. apply negb_true_iff, Z.leb_gt in Hb. exact Hb. }
  rewrite (Hsplit A HsA), (Hsplit B HsB).
  rewrite (@closed_weeks_prefix A k bk HsA Hk), (@closed_weeks_prefix B k bk HsB HkB).
  unfold same_prefix in Hp. rewrite Hp. reflexivity.
Qed.

(** *** The entry check at a row reads only the rows up to it *)

(** The columns read by [_check_entry_at] agree on rows [0..i]. *)
Record cols_agree (i : nat) (X Y : Indicators) : Prop := mkColsAgree {
  agree_d_mxf : forall k, (k <= i)%nat -> iloc (d_mxf X) k = iloc (d_mxf Y) k;
  agree_d_mf : forall k, (k <= i)%nat -> iloc (d_mf X) k = iloc (d_mf Y) k;
  agree_d_mm : forall k, (k <= i)%nat -> iloc (d_mm X) k = iloc (d_mm Y) k;
  agree_d_ms : forall k, (k <= i)%nat -> iloc (d_ms X) k = iloc (d_ms Y) k;
  agree_ath : forall k, (k <= i)%nat -> iloc (ath X) k = iloc (ath Y) k;
  agree_w_close : forall k, (k <= i)%nat -> iloc (w_close X) k = iloc (w_close Y) k;
  agree_w_mf : forall k, (k <= i)%nat -> iloc (w_mf X) k = iloc (w_mf Y) k;
  agree_w_mm : forall k, (k <= i)%nat -> iloc (w_mm X) k = iloc (w_mm Y) k
}.

Lemma compute_indicators_inv (self : EntryPointScanner) (A : DataFrame)
    (ind : Indicators) :
  _compute_indicators self A = Some ind ->
  ind = mkIndicators (index A)
          (rolling_mean (d_xfast self) (map Close A))
          (rolling_mean (d_fast self) (map Close A))
          (rolling_mean (d_mid self) (map Close A))
          (rolling_mean (d_slow self) (map Close A))
          (expanding_max (map High A))
          (rolling_mean 20 (map Volume A))
          (weekly_col (map Some) A)
          (weekly_col (rolling_mean (w_fast self)) A)
          (weekly_col (rolling_mean (w_mid self)) A).
Proof.
  unfold _compute_indicators.
  destruct (length A <? d_slow self + 20)%nat; [discriminate | ].
  destruct (length (resample_ohlcv A) <? w_mid self + 2)%nat; [discriminate | ].
  intros E. injection E as <-. reflexivity.
Qed.

Lemma indicators_agree (self : EntryPointScanner) (i : nat) (A B : DataFrame)
    (indA indB : Indicators) :
  _compute_indicators self A = Some indA ->
  _compute_indicators self B = Some indB ->
  StronglySorted Z.lt (index A) -> StronglySorted Z.lt (index B) ->
  same_prefix (S i) A B -> (i < length A)%nat -> (i < length B)%nat ->
  cols_agree i indA indB.
Proof.
  intros HA HB HsA HsB Hp HlA HlB.
  apply compute_indicators_inv in HA, HB. subst indA indB.
  assert (Hk : forall k, (k <= i)%nat ->
                 same_prefix (S k) A B /\ (k < length A)%nat /\ (k < length B)%nat).
  { intros k Hle. split; [apply (same_prefix_le (n := S i)); [lia | exact Hp] | lia]. }
  split; intros k Hle; destruct (Hk k Hle) as [Hpk [HkA HkB]]; cbn;
    first [ apply same_prefix_rolling; assumption
          | apply same_prefix_expanding; assumption
          | apply same_prefix_weekly;
            auto using causal_some, causal_rolling_mean ].
Qed.

Lemma fold_left_ext_in (A B : Type) (f g : A -> B -> A) (l : list B) (a : A) :
  (forall acc x, In x l -> f acc x = g acc x) ->
  fold_left f l a = fold_left g l a.
Proof.
  revert a. induction l as [ | x l IH]; intros a Hfg; cbn [fold_left]; [reflexivity | ].
  rewrite (Hfg a x (or_introl eq_refl)). apply IH.
  intros acc y Hy. apply Hfg. right. exact Hy.
Qed.

Lemma lookback_range_le (self : EntryPointScanner) (i j : nat) :
  In j (lookback_range self i) -> (j <= i)%nat.
Proof. unfold lookback_range. intros Hj. apply in_seq in Hj. lia. Qed.

Lemma same_prefix_slice (f : Bar -> Q) (n lo len : nat) (A B : DataFrame) :
  same_prefix n A B -> (lo + len <= n)%nat ->
  firstn len (skipn lo (map f A)) = firstn len (skipn lo (map f B)).
Proof.
  intros Hp Hle. rewrite !firstn_skipn_comm.
  rewrite (same_prefix_col f (same_prefix_le (m := (lo + len)%nat) Hle Hp)).
  reflexivity.
Qed.

Lemma check_entry_at_ext (self : EntryPointScanner) (i : nat) (A B : DataFrame)
    (indA indB : Indicators) :
  same_prefix (S i) A B -> cols_agree i indA indB ->
  _check_entry_at self i A indA = _check_entry_at self i B indB.
Proof.
  intros Hp [Hmxf Hmf Hmm Hms Hath Hwc Hwmf Hwmm].
  assert (Hfold :
            fold_left (check_candle self i A indA) (lookback_range self i)
                      (mkBest None 0 None)
            = fold_left (check_candle self i B indB) (lookback_range self i)
                        (mkBest None 0 None)).
  { apply fold_left_ext_in. intros acc j Hj. apply lookback_range_le in Hj.
    unfold check_candle.
    rewrite (same_prefix_nth (k := j) Hp) by lia.
    rewrite (Hmf j Hj), (Hmm j Hj). reflexivity. }
  assert (Hslice :
            firstn (i + 1 - (i - 20)) (skipn (i - 20) (map High A))
            = firstn (i + 1 - (i - 20)) (skipn (i - 20) (map High B)))
    by (apply (same_prefix_slice High (n := S i)); [exact Hp | lia]).
  unfold _check_entry_at.
  rewrite (same_prefix_nth (k := i) Hp) by lia.
  rewrite (Hmxf i), (Hmf i), (Hmm i), (Hms i), (Hath i), (Hwc i), (Hwmf i),
    (Hwmm i), Hfold, Hslice by lia.
  reflexivity.
Qed.

(** *** The prepared entry cache *)

Lemma get_loc_nth (idx : list Timestamp) (d : Timestamp) (i : nat) :
  get_loc idx d = Some i -> nth_error idx i = Some d.
Proof.
  unfold Timestamp in *.
  revert i. induction idx as [ | x r IH]; intros i; cbn [get_loc]; [discriminate | ].
  destruct (Z.eqb_spec x d) as [-> | Hne].
  - intros E. injection E as <-. reflexivity.
  - destruct (get_loc r d) as [j | ]; [ | discriminate].
    intros E. injection E as <-. cbn [nth_error]. apply IH. reflexivity.
Qed.

Lemma get_loc_unique (idx : list Timestamp) (d : Timestamp) (i : nat) :
  NoDup idx -> nth_error idx i = Some d -> get_loc idx d = Some i.
Proof.
  unfold Timestamp in *.
  revert i. induction idx as [ | x r IH]; intros i Hnd Hi.
  - destruct i; discriminate.
  - inversion Hnd as [ | ? ? Hnotin Hnd']; subst. cbn [get_loc].
    destruct i as [ | i]; cbn [nth_error] in Hi.
    + injection Hi as ->. rewrite Z.eqb_refl. reflexivity.
    + destruct (Z.eqb_spec x d) as [-> | Hne].
      * exfalso. apply Hnotin. eapply nth_error_In. exact Hi.
      * rewrite (IH i Hnd' Hi). reflexivity.
Qed.

Lemma get_loc_app (l1 l2 : list Timestamp) (d : Timestamp) :
  Forall (fun x => (d < x)%Z) l2 -> get_loc (l1 ++ l2) d = get_loc l1 d.
Proof.
  unfold Timestamp in *. intros Hl2.
  induction l1 as [ | x r IH]; cbn [app get_loc].
  - induction Hl2 as [ | y l2 Hy _ IH2]; cbn [get_loc]; [reflexivity | ].
    destruct (Z.eqb_spec y d); [lia | rewrite IH2; reflexivity].
  - rewrite IH. reflexivity.
Qed.

Lemma dict_get_set_same (V : Type) (k : Timestamp) (v : V)
    (d : list (Timestamp * V)) :
  dict_get Z.eqb k (dict_set Z.eqb k v d) = Some v.
Proof.
  unfold Timestamp in *.
  induction d as [ | [k' v'] d IH]; cbn [dict_set dict_get].
  - rewrite Z.eqb_refl. reflexivity.
  - destruct (Z.eqb_spec k k') as [Heq | Hne]; cbn [dict_get].
    + subst k'. rewrite Z.eqb_refl. reflexivity.
    + destruct (Z.eqb_spec k k'); [contradiction | exact IH].
Qed.

Lemma dict_get_set_other (V : Type) (k k0 : Timestamp) (v : V)
    (d : list (Timestamp * V)) :
  k <> k0 -> dict_get Z.eqb k (dict_set Z.eqb k0 v d) = dict_get Z.eqb k d.
Proof.
  unfold Timestamp in *. intros Hne.
  induction d as [ | [k' v'] d IH]; cbn [dict_set dict_get].
  - destruct (Z.eqb_spec k k0); [contradiction | reflexivity].
  - destruct (Z.eqb_spec k0 k') as [Heq | Hne']; cbn [dict_get].
    + subst k'. destruct (Z.eqb_spec k k0); [contradiction | reflexivity].
    + rewrite IH. reflexivity.
Qed.

(** The signal [prepare_simulation] files for row [i], if the entry check
    fires there. *)
Definition cached_entry (self : EntryPointScanner) (ohlcv : DataFrame)
    (ind : Indicators) (i : nat) : option EntrySignal :=
  match _check_entry_at self i ohlcv ind, nth_error ohlcv i with
  | Ok (Some r), Some b =>
      Some (mkEntrySignal (Date b) (Close b) (ec_signal r)
              [("entry", VStr (ec_entry_label r)); ("score", VNum (ec_score r))])
  | _, _ => None
  end.

(** What the cache holds for date [d] once the rows below [lo] are done. *)
Definition cache_upto (self : EntryPointScanner) (ohlcv : DataFrame)
    (ind : Indicators) (lo : nat) (d : Timestamp) : option EntrySignal :=
  match get_loc (index ohlcv) d with
  | Some i =>
      if ((i <? d_slow self + 20) || (lo <=? i))%nat then None
      else cached_entry self ohlcv ind i
  | None => None
  end.

Lemma prepare_entries_get (self : EntryPointScanner) (ohlcv : DataFrame)
    (ind : Indicators) (d : Timestamp) (n : nat) :
  NoDup (index ohlcv) ->
  forall lo entries out,
    (d_slow self + 20 <= lo)%nat ->
    dict_get Z.eqb d entries = cache_upto self ohlcv ind lo d ->
    prepare_entries self ohlcv ind (seq lo n) entries = Ok out ->
    dict_get Z.eqb d out = cache_upto self ohlcv ind (lo + n) d.
Proof.
  intros Hnd. induction n as [ | n IH]; intros lo entries out Hlo Hget Hprep;
    cbn [seq prepare_entries] in Hprep.
  - injection Hprep as <-. rewrite Nat.add_0_r. exact Hget.
  - replace (lo + S n)%nat with (S lo + n)%nat by lia.
    assert (Hstep : forall same,
               (get_loc (index ohlcv) d = Some lo ->
                cached_entry self ohlcv ind lo = same) ->
               (get_loc (index ohlcv) d <> Some lo ->
                cache_upto self ohlcv ind lo d = same) ->
               cache_upto self ohlcv ind (S lo) d = same).
    { intros same Hat Hoff. unfold cache_upto in *.
      destruct (get_loc (index ohlcv) d) as [i | ] eqn:Hi;
        [ | apply Hoff; discriminate].
      destruct (Nat.eq_dec i lo) as [-> | Hne].
      - rewrite <- (Hat eq_refl).
        replace (lo <? d_slow self + 20)%nat with false
          by (symmetry; apply Nat.ltb_ge; lia).
        replace (S lo <=? lo)%nat with false
          by (symmetry; apply Nat.leb_gt; lia).
        reflexivity.
      - rewrite <- Hoff by congruence.
        destruct (i <? d_slow self + 20)%nat; [reflexivity | ]. cbn [orb].
        destruct (Nat.leb_spec (S lo) i), (Nat.leb_spec lo i);
          try reflexivity; lia. }
    destruct (_check_entry_at self lo ohlcv ind) as [[r | ] | err] eqn:Hcheck;
      cbn [bind] in Hprep; [ | | discriminate].
    + destruct (nth_error ohlcv lo) as [b | ] eqn:Hb; [ | discriminate].
      eapply IH; [lia | | exact Hprep].
      assert (Hidx : nth_error (index ohlcv) lo = Some (Date b))
        by (unfold index; rewrite nth_error_map, Hb; reflexivity).
      destruct (Z.eq_dec d (Date b)) as [-> | Hne].
      * rewrite dict_get_set_same. symmetry. apply Hstep.
        -- intros _. unfold cached_entry. rewrite Hcheck, Hb. reflexivity.
        -- intros Hoff. exfalso. apply Hoff.
           apply get_loc_unique; assumption.
      * rewrite (dict_get_set_other _ _ Hne), Hget. symmetry. apply Hstep.
        -- intros Hat. apply get_loc_nth in Hat. congruence.
        -- reflexivity.
    + eapply IH; [lia | | exact Hprep].
      rewrite Hget. symmetry. apply Hstep.
      * intros Hat. unfold cached_entry. rewrite Hcheck.
        unfold cache_upto. rewrite Hat.
        replace (lo <=? lo)%nat with true by (symmetry; apply Nat.leb_le; lia).
        rewrite orb_true_r. reflexivity.
      * reflexivity.
Qed.

Lemma list_max_nonempty (l : list Q) : l <> [] -> exists m, list_max l = Some m.
Proof. destruct l as [ | x r]; [contradiction | ]. intros _. eexists. reflexivity. Qed.

(** On a row of the frame the entry check returns, it does not raise. *)
Lemma check_entry_at_returns (self : EntryPointScanner) (A : DataFrame)
    (ind : Indicators) (i : nat) :
  _compute_indicators self A = Some ind -> (i < length A)%nat ->
  exists r, _check_entry_at self i A ind = Ok r.
Proof.
  intros Hind Hi. apply compute_indicators_inv in Hind.
  assert (Hath : exists m, iloc (ath ind) i = Some m).
  { subst ind. cbn [ath].
    rewrite iloc_expanding_max by (rewrite length_map; exact Hi).
    apply list_max_nonempty. intros E.
    apply (f_equal (@length _)) in E.
    rewrite length_firstn, length_map in E. cbn [length] in E. lia. }
  destruct Hath as [m Hm].
  destruct (nth_error A i) as [bar | ] eqn:Hbar;
    [ | apply nth_error_None in Hbar; lia].
  unfold _check_entry_at. rewrite Hbar, Hm.
  destruct (i <? d_slow self + 20)%nat; [eexists; reflexivity | ].
  destruct (isna (iloc (w_mm ind) i) || _); [eexists; reflexivity | ].
  destruct (isna (iloc (d_mxf ind) i) || _); [eexists; reflexivity | ].
  destruct (nlt (Some (Close bar)) (iloc (d_mm ind) i)); [eexists; reflexivity | ].
  destruct (best_signal _); [ | eexists; reflexivity].
  destruct (best_details _); [ | eexists; reflexivity].
  destruct (iloc (d_mxf ind) i); [ | eexists; reflexivity].
  destruct (iloc (d_mm ind) i); [ | eexists; reflexivity].
  destruct (iloc (w_mm ind) i); eexists; reflexivity.
Qed.

Lemma prepare_entries_returns (self : EntryPointScanner) (A : DataFrame)
    (ind : Indicators) (idxs : list nat) :
  _compute_indicators self A = Some ind ->
  Forall (fun i => (i < length A)%nat) idxs ->
  forall entries, exists out, prepare_entries self A ind idxs entries = Ok out.
Proof.
  intros Hind Hidx. induction Hidx as [ | i idxs Hi _ IH]; intros entries;
    cbn [prepare_entries]; [eexists; reflexivity | ].
  destruct (@check_entry_at_returns self A ind i Hind Hi) as [r Hr]. rewrite Hr.
  cbn [bind]. destruct r as [r | ]; [ | apply IH].
  destruct (nth_error A i) as [b | ] eqn:Hb;
    [apply IH | apply nth_error_None in Hb; lia].
Qed.

(** What a scanner prepared on a series with enough history answers for
    date [d]: the signal filed for the row dated [d], if that row is past
    the warm-up and the entry check fires there. *)
Lemma prepared_verdict (self : EntryPointScanner) (tkr : string) (A : DataFrame)
    (f : Series) (ind : Indicators) :
  _compute_indicators self A = Some ind -> NoDup (index A) ->
  exists prepared,
    ep_prepare_simulation self tkr A f = Ok prepared
    /\ forall ohlcv f' d,
         ep_check_entry_signal prepared tkr ohlcv f' d
         = Ok (cache_upto self A ind (length A) d).
Proof.
  intros Hind Hnd.
  assert (Hlen : (d_slow self + 20 <= length A)%nat).
  { unfold _compute_indicators in Hind.
    destruct (Nat.ltb_spec (length A) (d_slow self + 20)); [discriminate | lia]. }
  assert (Hidx : Forall (fun i => (i < length A)%nat)
                   (seq (d_slow self + 20) (length A - (d_slow self + 20)))).
  { apply Forall_forall. intros i Hi. apply in_seq in Hi. lia. }
  destruct (@prepare_entries_returns self A ind _ Hind Hidx []) as [out Hout].
  unfold ep_prepare_simulation. rewrite Hind, Hout. cbn [bind].
  eexists. split; [reflexivity | ].
  intros ohlcv f' d. unfold ep_check_entry_signal.
  cbn [with_sim sim _sim_ticker _sim_entries]. rewrite String.eqb_refl.
  f_equal.
  assert (Heq : (d_slow self + 20 + (length A - (d_slow self + 20)))%nat
                = length A) by lia.
  rewrite <- Heq.
  eapply prepare_entries_get; [exact Hnd | lia | | exact Hout].
  unfold cache_upto. cbn [dict_get].
  destruct (get_loc (index A) d) as [i | ]; [ | reflexivity].
  destruct (Nat.ltb_spec i (d_slow self + 20)); [reflexivity | ].
  replace (d_slow self + 20 <=? i)%nat with true
    by (symmetry; apply Nat.leb_le; lia).
  reflexivity.
Qed.

Lemma sorted_loc_upto_split (d : Timestamp) (A : DataFrame) :
  StronglySorted Z.lt (index A) ->
  exists T, A = loc_upto A d ++ T /\ Forall (fun b => (d < Date b)%Z) T.
Proof.
  unfold index, loc_upto.
  induction A as [ | a A IH]; intros Hs.
  - exists []. split; [reflexivity | constructor].
  - cbn [map] in Hs. apply StronglySorted_inv in Hs. destruct Hs as [Hs Ha].
    cbn [filter]. destruct (Z.leb_spec (Date a) d) as [Hle | Hgt].
    + destruct (IH Hs) as [T [HT Hlate]]. exists T.
      split; [cbn [app]; f_equal; exact HT | exact Hlate].
    + rewrite Forall_map in Ha.
      assert (Hlate : Forall (fun b => (d < Date b)%Z) A).
      { apply (Forall_impl _ (P := fun b => (Date a < Date b)%Z)); [ | exact Ha].
        intros b Hb. unfold Timestamp in *. lia. }
      exists (a :: A). split; [ | constructor; assumption].
      rewrite filter_none; [reflexivity | ].
      apply (Forall_impl _ (P := fun b => (d < Date b)%Z)); [ | exact Hlate].
      intros b Hb. apply Z.leb_gt. exact Hb.
Qed.

Lemma compute_indicators_enough (self : EntryPointScanner) (A : DataFrame) :
  ~ insufficient self A -> exists ind, _compute_indicators self A = Some ind.
Proof.
  unfold insufficient, _compute_indicators. intros Hsuff.
  destruct (Nat.ltb_spec (length A) (d_slow self + 20)); [tauto | ].
  destruct (Nat.ltb_spec (length (resample_ohlcv A)) (w_mid self + 2)); [tauto | ].
  eexists. reflexivity.
Qed.

(** The cache entry for date [d] is the same for two sorted series with
    enough history that agree on the bars dated up to [d]. *)
Lemma cache_no_lookahead (self : EntryPointScanner) (A B : DataFrame)
    (indA indB : Indicators) (d : Timestamp) :
  _compute_indicators self A = Some indA ->
  _compute_indicators self B = Some indB ->
  StronglySorted Z.lt (index A) -> StronglySorted Z.lt (index B) ->
  loc_upto A d = loc_upto B d ->
  cache_upto self A indA (length A) d = cache_upto self B indB (length B) d.
Proof.
  intros HiA HiB HsA HsB Hsame.
  destruct (@sorted_loc_upto_split d A HsA) as [TA [HA HlateA]].
  destruct (@sorted_loc_upto_split d B HsB) as [TB [HB HlateB]].
  rewrite <- Hsame in HB. set (P := loc_upto A d) in *.
  assert (Hloc : forall X T, X = P ++ T -> Forall (fun b => (d < Date b)%Z) T ->
                   get_loc (index X) d = get_loc (index P) d).
  { intros X T -> Hlate. unfold index. rewrite map_app.
    apply get_loc_app. rewrite Forall_map. exact Hlate. }
  unfold cache_upto.
  rewrite (Hloc A TA HA HlateA), (Hloc B TB HB HlateB).
  destruct (get_loc (index P) d) as [i | ] eqn:Hi; [ | reflexivity].
  assert (HiP : (i < length P)%nat).
  { apply get_loc_nth in Hi.
    assert (Hn : nth_error (index P) i <> None) by congruence.
    apply nth_error_Some in Hn. unfold index in Hn.
    rewrite length_map in Hn. exact Hn. }
  assert (HlA : (i < length A)%nat) by (rewrite HA, length_app; lia).
  assert (HlB : (i < length B)%nat) by (rewrite HB, length_app; lia).
  assert (Hp : same_prefix (S i) A B).
  { unfold same_prefix. rewrite HA, HB, !firstn_app.
    replace (S i - length P)%nat with 0%nat by lia.
    rewrite !firstn_O. reflexivity. }
  destruct (i <? d_slow self + 20)%nat; [reflexivity | ]. cbn [orb].
  replace (length A <=? i)%nat with false by (symmetry; apply Nat.leb_gt; lia).
  replace (length B <=? i)%nat with false by (symmetry; apply Nat.leb_gt; lia).
  unfold cached_entry.
  rewrite (@check_entry_at_ext self i A B indA indB Hp
             (@indicators_agree self i A B indA indB HiA HiB HsA HsB Hp HlA HlB)).
  rewrite (same_prefix_nth (k := i) Hp) by lia.
  reflexivity.
Qed.

(** X23. The default entry check does not look ahead: truncate-then-scan
    gives the same verdict on any two series with the same bars dated up
    to D, for every scan function, and so does the entry-point scanner
    before preparation. *)
Theorem entry_check_no_lookahead :
  (forall scan_fn tkr A B f D,
      loc_upto A D = loc_upto B D ->
      base_check_entry_signal scan_fn tkr A f D
      = base_check_entry_signal scan_fn tkr B f D)
  /\ (forall self tkr A B f D,
        sim self = None -> loc_upto A D = loc_upto B D ->
        ep_check_entry_signal self tkr A f D
        = ep_check_entry_signal self tkr B f D).
Proof.
  assert (Hbase : forall scan_fn tkr A B f D,
             loc_upto A D = loc_upto B D ->
             base_check_entry_signal scan_fn tkr A f D
             = base_check_entry_signal scan_fn tkr B f D).
  { intros scan_fn tkr A B f D Hsame. unfold base_check_entry_signal.
    rewrite Hsame. reflexivity. }
  split; [exact Hbase | ].
  intros self tkr A B f D Hsim Hsame. unfold ep_check_entry_signal.
  rewrite Hsim. apply Hbase. exact Hsame.
Qed.

Lemma entry_check_no_lookahead_witness :
  (exists e,
     ep_check_entry_signal EntryPointScanner_init "UP" (Sample.rising 121) []
       (Sample.day 120) = Ok (Some e))
  /\ ep_check_entry_signal EntryPointScanner_init "UP" (Sample.rising 121) []
       (Sample.day 120)
     = ep_check_entry_signal EntryPointScanner_init "UP" (Sample.rising 130) []
         (Sample.day 120).
Proof.
  split; [eexists; vm_compute; reflexivity | ].
  apply (proj2 entry_check_no_lookahead EntryPointScanner_init "UP"
           (Sample.rising 121) (Sample.rising 130) [] (Sample.day 120)).
  - reflexivity.
  - vm_compute. reflexivity.
Defined.

(** The verdict the prepared cache files under D is computed from the
    bars dated up to D: two series with strictly ascending dates that
    agree on those bars and that both have the history the indicator
    computation asks for (at least [d_slow + 20] daily and [w_mid + 2]
    weekly bars) get the same cached verdict for D, and preparation does
    not raise on them. *)
Lemma cached_verdict_reads_bars_up_to_date (self : EntryPointScanner)
    (tkr : string) (A B : DataFrame) (f : Series) (D : Timestamp) :
  StronglySorted Z.lt (index A) -> StronglySorted Z.lt (index B) ->
  loc_upto A D = loc_upto B D ->
  ~ insufficient self A -> ~ insufficient self B ->
  exists pA pB,
    ep_prepare_simulation self tkr A f = Ok pA
    /\ ep_prepare_simulation self tkr B f = Ok pB
    /\ ep_check_entry_signal pA tkr A f D
       = ep_check_entry_signal pB tkr B f D.
Proof.
  intros HsA HsB Hsame HeA HeB.
  destruct (compute_indicators_enough HeA) as [indA HiA].
  destruct (compute_indicators_enough HeB) as [indB HiB].
  destruct (@prepared_verdict self tkr A f indA HiA (sorted_NoDup HsA))
    as [pA [HpA HvA]].
  destruct (@prepared_verdict self tkr B f indB HiB (sorted_NoDup HsB))
    as [pB [HpB HvB]].
  exists pA, pB. split; [exact HpA | ]. split; [exact HpB | ].
  rewrite HvA, HvB. f_equal.
  apply cache_no_lookahead; assumption.
Qed.

(** C3. The prepared cache looks ahead.  The rising series cut after bar
    100 and the same series with five more bars have strictly ascending
    dates and agree on every bar dated up to day 100 (a Monday).
    Prepared on the short one (101 daily bars make 21 weekly bars, one
    short of the weekly guard) the scanner answers none for that day;
    prepared on the longer one (22 weekly bars) it answers with a signal:
    the verdict for the day depends on bars dated after it.  The sibling
    path, truncate-then-scan, looks at the 101 bars up to the day on
    either series and answers none on both. *)
Theorem prepared_cache_reads_later_bars :
  let A := Sample.rising 101 in
  let B := Sample.rising 106 in
  let D := Sample.day 100 in
  loc_upto A D = loc_upto B D
  /\ ascending (index A) = true /\ ascending (index B) = true
  /\ length (resample_ohlcv A) = 21%nat /\ length (resample_ohlcv B) = 22%nat
  /\ (exists pA pB e,
        ep_prepare_simulation EntryPointScanner_init "UP" A [] = Ok pA
        /\ ep_prepare_simulation EntryPointScanner_init "UP" B [] = Ok pB
        /\ ep_check_entry_signal pA "UP" A [] D = Ok None
        /\ ep_check_entry_signal pB "UP" B [] D = Ok (Some e)
        /\ es_date e = D /\ es_reason e = "STRONG_BUY")
  /\ ep_check_entry_signal EntryPointScanner_init "UP" A [] D = Ok None
  /\ ep_check_entry_signal EntryPointScanner_init "UP" B [] D = Ok None.
Proof.
  cbv zeta.
  split; [vm_compute; reflexivity | ].
  split; [vm_compute; reflexivity | ].
  split; [vm_compute; reflexivity | ].
  split; [vm_compute; reflexivity | ].
  split; [vm_compute; reflexivity | ].
  split.
  - eexists. eexists. eexists.
    split; [vm_compute; reflexivity | ].
    split; [vm_compute; reflexivity | ].
    split; [vm_compute; reflexivity | ].
    split; [vm_compute; reflexivity | ].
    split; vm_compute; reflexivity.
  - split; vm_compute; reflexivity.
Qed.

(* ------------------------------------------------------------------ *)
(** ** Insufficient data is no verdict (C7) *)

(** With one of the three gate MAs undefined at the row, the entry check
    answers none. *)
Lemma check_entry_at_undefined_ma (self : EntryPointScanner) (A : DataFrame)
    (ind : Indicators) (i : nat) :
  iloc (d_mxf ind) i = None \/ iloc (d_mf ind) i = None
  \/ iloc (d_mm ind) i = None ->
  (exists r, _check_entry_at self i A ind = Ok r) ->
  _check_entry_at self i A ind = Ok None.
Proof.
  intros Hundef [r Hr]. revert Hr. unfold _check_entry_at.
  destruct (i <? d_slow self + 20)%nat; [reflexivity | ].
  destruct (nth_error A i) as [bar | ]; [ | discriminate].
  destruct (isna (iloc (w_mm ind) i) || _); [reflexivity | ].
  assert (Hgate : isna (iloc (d_mxf ind) i)
                  || negb (ngt (iloc (d_mxf ind) i) (iloc (d_mf ind) i)
                           && ngt (iloc (d_mf ind) i) (iloc (d_mm ind) i))
                  = true).
  { destruct Hundef as [Hu | [Hu | Hu]]; rewrite Hu.
    - reflexivity.
    - destruct (iloc (d_mxf ind) i); reflexivity.
    - destruct (iloc (d_mxf ind) i), (iloc (d_mf ind) i); cbn;
        rewrite ?andb_false_r; reflexivity. }
  rewrite Hgate. reflexivity.
Qed.

Lemma iloc_rolling_mean_short (w : nat) (xs : list Q) (i : nat) :
  (i < length xs)%nat -> (S i < w)%nat -> iloc (rolling_mean w xs) i = None.
Proof.
  intros Hi Hw. rewrite iloc_rolling_mean by exact Hi. unfold window_mean.
  rewrite length_firstn.
  replace (Nat.min (S i) (length xs) <? w)%nat with true
    by (symmetry; apply Nat.ltb_lt; lia).
  rewrite orb_true_r. reflexivity.
Qed.

(** [scan] returns on every series. *)
Lemma ep_scan_returns (self : EntryPointScanner) (tkr : string) (A : DataFrame)
    (f : Series) :
  exists r, ep_scan self tkr A f = Ok r.
Proof.
  unfold ep_scan.
  destruct (_compute_indicators self A) as [ind | ] eqn:Hind;
    [ | eexists; reflexivity].
  assert (Hlen : (length A - 1 < length A)%nat).
  { unfold _compute_indicators in Hind.
    destruct (Nat.ltb_spec (length A) (d_slow self + 20)); [discriminate | lia]. }
  destruct (@check_entry_at_returns self A ind _ Hind Hlen) as [r Hr].
  rewrite Hr. cbn [bind]. destruct r; eexists; reflexivity.
Qed.

(** A series shorter than one of the three gate MA windows gets no
    verdict from [scan]. *)
Lemma ep_scan_short_window (self : EntryPointScanner) (tkr : string)
    (A : DataFrame) (f : Series) :
  (length A < d_xfast self \/ length A < d_fast self \/ length A < d_mid self)%nat ->
  ep_scan self tkr A f = Ok None.
Proof.
  intros Hshort. unfold ep_scan.
  destruct (_compute_indicators self A) as [ind | ] eqn:Hind; [ | reflexivity].
  assert (Hlen : (length A - 1 < length A)%nat).
  { unfold _compute_indicators in Hind.
    destruct (Nat.ltb_spec (length A) (d_slow self + 20)); [discriminate | lia]. }
  rewrite (@check_entry_at_undefined_ma self A ind (length A - 1));
    [reflexivity | | apply (@check_entry_at_returns self A ind _ Hind Hlen)].
  apply compute_indicators_inv in Hind. subst ind. cbn [d_mxf d_mf d_mm].
  destruct Hshort as [Hs | [Hs | Hs]]; [left | right; left | right; right];
    apply iloc_rolling_mean_short; rewrite ?length_map; lia.
Qed.

(** C7. Insufficient data is a "no verdict", never an error.  [scan]
    returns on every series.  On a series that fails the history guard
    (fewer than [d_slow + 20] daily bars, or fewer than [w_mid + 2] weekly
    bars) the indicator computation returns none and [scan] returns none;
    a scanner prepared on such a series answers none to every entry
    query, the default entry check answers none on every date whose
    truncated series is too short, and a flat single-ticker engine that
    gets this answer stays flat for the day (no trade, cash unchanged).
    A series shorter than one of the daily MA windows of the trend gate
    also gets none from [scan]. *)
Theorem insufficient_data_is_no_verdict
    (self : EntryPointScanner) (tkr : string) (ohlcv : DataFrame)
    (fundamentals : Series) :
  (exists r, ep_scan self tkr ohlcv fundamentals = Ok r)
  /\ ((length ohlcv < d_xfast self \/ length ohlcv < d_fast self
       \/ length ohlcv < d_mid self)%nat ->
      ep_scan self tkr ohlcv fundamentals = Ok None)
  /\ (insufficient self ohlcv ->
      _compute_indicators self ohlcv = None
      /\ ep_scan self tkr ohlcv fundamentals = Ok None
      /\ (forall full d,
            loc_upto full d = ohlcv -> (50 <= length ohlcv)%nat ->
            sim self = None ->
            ep_check_entry_signal self tkr full fundamentals d = Ok None)
      /\ (exists prepared,
            ep_prepare_simulation self tkr ohlcv fundamentals = Ok prepared
            /\ (forall d,
                  ep_check_entry_signal prepared tkr ohlcv fundamentals d
                  = Ok None)
            /\ (forall engine st bar,
                  position st = None ->
                  exists st',
                    day_step engine tkr ohlcv fundamentals prepared st bar
                    = Ok st'
                    /\ position st' = None
                    /\ trades st' = trades st
                    /\ cash st' = cash st))).
Proof.
  split; [apply ep_scan_returns | ].
  split; [apply ep_scan_short_window | ].
  intros Hins.
  pose proof (compute_indicators_insufficient Hins) as Hnone.
  assert (Hscan : ep_scan self tkr ohlcv fundamentals = Ok None).
  { unfold ep_scan. rewrite Hnone. reflexivity. }
  split; [exact Hnone | ]. split; [exact Hscan | ]. split.
  - intros full d Hslice Hlen Hsim.
    unfold ep_check_entry_signal. rewrite Hsim.
    unfold base_check_entry_signal. rewrite Hslice.
    apply Nat.ltb_ge in Hlen. rewrite Hlen, Hscan. reflexivity.
  - exists (with_sim self (mkSimCache tkr [] None)).
    assert (Hq : forall d,
               ep_check_entry_signal (with_sim self (mkSimCache tkr [] None))
                 tkr ohlcv fundamentals d = Ok None).
    { intros d. unfold ep_check_entry_signal. simpl.
      rewrite String.eqb_refl. reflexivity. }
    split; [ | split].
    + unfold ep_prepare_simulation. rewrite Hnone. reflexivity.
    + exact Hq.
    + intros engine st bar Hflat.
      unfold day_step. rewrite Hflat. simpl. rewrite Hq. simpl.
      eexists. split; [reflexivity | ]. simpl. auto.
Qed.

Lemma insufficient_data_is_no_verdict_witness :
  insufficient EntryPointScanner_init (Sample.rising 60)
  /\ ep_scan EntryPointScanner_init "UP" (Sample.rising 60) [] = Ok None.
Proof.
  assert (Hins : insufficient EntryPointScanner_init (Sample.rising 60)).
  { left. vm_compute. lia. }
  split; [exact Hins | ].
  exact (proj1 (proj2
           (proj2 (proj2 (insufficient_data_is_no_verdict
                            EntryPointScanner_init "UP" (Sample.rising 60) []))
              Hins))).
Defined.

(** 101 daily bars are enough for the daily lookback but span only 21
    weeks: the weekly guard answers none. *)
Example too_few_weeks :
  (length (Sample.rising 101) >= 70)%nat
  /\ length (resample_ohlcv (Sample.rising 101)) = 21%nat
  /\ ep_scan EntryPointScanner_init "UP" (Sample.rising 101) [] = Ok None.
Proof. repeat split; vm_compute; try reflexivity; lia. Qed.

(* ------------------------------------------------------------------ *)
(** ** Stop-loss scenario *)

Module StopLossSample.
(** Thirty flat days at 100, then a drop to 89. *)
Definition bar (i : nat) : Bar :=
  if (i <? 30)%nat then mkBar (Sample.day i) 100 100 100 100 1000
  else mkBar (Sample.day i) 89 89 89 89 1000.

Definition ohlcv : DataFrame := map bar (seq 0 31).

(** In position since the day before the drop, 1000 shares bought at 100. *)
Definition holding : SimState :=
  mkSimState [] (Some (mkEntrySignal (Sample.day 29) 100 "BUY" []))
             1000 0 [] [].
End StopLossSample.

(** A position whose price drops 11% below entry on the next day is closed
    with reason STOP_LOSS and a return of -11%. *)
Example stop_loss_scenario :
  exists st,
    day_step RunSample.engine "UP" StopLossSample.ohlcv []
      EntryPointScanner_init StopLossSample.holding (StopLossSample.bar 30)
    = Ok st
    /\ position st = None
    /\ map exit_reason (trades st) = ["STOP_LOSS"]
    /\ map return_pct (trades st) = [- (11)]
    /\ cash st == 89000.
Proof.
  eexists. split; [vm_compute; reflexivity | ].
  repeat split; vm_compute; reflexivity.
Qed.

(* ================================================================== *)
(** * Further properties of the code *)

(* ------------------------------------------------------------------ *)
(** ** Weekly resampling ([resample_ohlcv]) *)

Lemma fold_Qplus_acc (l : list Q) (a : Q) : fold_left Qplus l a == a + Qsum l.
Proof.
  unfold Qsum. revert a. induction l as [ | x l IH]; intros a; cbn [fold_left].
  - ring.
  - rewrite (IH (a + x)), (IH (0 + x)). ring.
Qed.

Lemma Qsum_cons (x : Q) (l : list Q) : Qsum (x :: l) == x + Qsum l.
Proof. unfold Qsum at 1. cbn [fold_left]. rewrite fold_Qplus_acc. ring. Qed.

Lemma Qmax2_l (a b : Q) : a <= Qmax2 a b.
Proof.
  unfold Qmax2. destruct (Qltb a b) eqn:E; [ | apply Qle_refl].
  apply Qlt_le_weak, Qltb_lt, E.
Qed.

Lemma Qmax2_r (a b : Q) : b <= Qmax2 a b.
Proof.
  unfold Qmax2. destruct (Qltb a b) eqn:E; [apply Qle_refl | ].
  apply Qltb_ge, E.
Qed.

Lemma Qmin2_l (a b : Q) : Qmin2 a b <= a.
Proof.
  unfold Qmin2. destruct (Qltb b a) eqn:E; [ | apply Qle_refl].
  apply Qlt_le_weak, Qltb_lt, E.
Qed.

Lemma Qmin2_r (a b : Q) : Qmin2 a b <= b.
Proof.
  unfold Qmin2. destruct (Qltb b a) eqn:E; [apply Qle_refl | ].
  apply Qltb_ge, E.
Qed.

Lemma weekday_week_label (d : Timestamp) : weekday (week_label d) = 6%Z.
Proof.
  rewrite week_label_div. unfold weekday.
  replace (7 * ((d + 3) / 7) + 3 + 3)%Z with (6 + ((d + 3) / 7) * 7)%Z by lia.
  rewrite Z.mod_add by discriminate. reflexivity.
Qed.

(** X1. Resampling to weeks conserves traded volume: the weekly volumes
    add up to the daily volumes, whatever the order of the bars. *)
Theorem resample_ohlcv_keeps_volume (daily_df : DataFrame) :
  Qsum (map Volume (resample_ohlcv daily_df)) == Qsum (map Volume daily_df).
Proof.
  induction daily_df as [ | b l IH]; [reflexivity | ].
  cbn [resample_ohlcv]. destruct (resample_ohlcv l) as [ | r rs].
  - cbn [map] in *. rewrite !Qsum_cons. rewrite <- IH. reflexivity.
  - destruct (_ =? _)%Z; cbn [map Volume] in *; rewrite !Qsum_cons in *;
      rewrite <- IH; ring.
Qed.

(** X2. On a frame whose dates ascend (repeated dates allowed) the weekly
    resample has strictly ascending labels, hence one row per week; every
    label is a Sunday, and there are no more weekly rows than daily bars. *)
Theorem resample_ohlcv_weeks (daily_df : DataFrame) :
  StronglySorted Z.le (index daily_df) ->
  StronglySorted Z.lt (index (resample_ohlcv daily_df))
  /\ Forall (fun r => weekday (Date r) = 6%Z) (resample_ohlcv daily_df)
  /\ (length (resample_ohlcv daily_df) <= length daily_df)%nat.
Proof.
  intros Hs. split; [ | split].
  - induction daily_df as [ | b l IH]; [constructor | ].
    cbn [index map] in Hs. apply StronglySorted_inv in Hs. destruct Hs as [Hs Hb].
    specialize (IH Hs). cbn [resample_ohlcv].
    destruct (resample_ohlcv l) as [ | r rs] eqn:Hr.
    + cbn. constructor; constructor.
    + assert (Hle : (week_label (Date b) <= Date r)%Z).
      { destruct l as [ | b0 l0]; [discriminate | ].
        rewrite (@resample_head _ _ _ _ Hr). apply week_label_mono.
        cbn [map] in Hb. apply Forall_cons_iff in Hb. tauto. }
      cbn [index map] in IH. apply StronglySorted_inv in IH.
      destruct IH as [Hrs Hhead].
      destruct (Z.eqb_spec (week_label (Date b)) (Date r)) as [Heq | Hne];
        cbn [index map Date].
      * constructor; assumption.
      * constructor; [constructor; assumption | ].
        constructor; [unfold Timestamp in *; lia | ].
        eapply Forall_impl; [ | exact Hhead]. cbv beta.
        unfold Timestamp in *. intros; lia.
  - apply (resample_labels (fun x => weekday x = 6%Z)).
    apply Forall_forall. intros b _. apply weekday_week_label.
  - clear Hs. induction daily_df as [ | b l IH]; [cbn; lia | ].
    cbn [resample_ohlcv]. destruct (resample_ohlcv l) as [ | r rs];
      [cbn; lia | ].
    destruct (_ =? _)%Z; cbn [length] in *; lia.
Qed.

Lemma resample_ohlcv_weeks_witness :
  StronglySorted Z.le (index (Sample.rising 7))
  /\ index (resample_ohlcv (Sample.rising 7)) = [10; 17]%Z
  /\ StronglySorted Z.lt (index (resample_ohlcv (Sample.rising 7))).
Proof.
  assert (Hs : StronglySorted Z.le (index (Sample.rising 7))).
  { vm_compute. repeat (constructor; [ | repeat constructor; discriminate]).
    constructor. }
  split; [exact Hs | split; [vm_compute; reflexivity | ]].
  apply (proj1 (resample_ohlcv_weeks (Sample.rising 7) Hs)).
Defined.

(** X3. Every daily bar lies inside the range of its weekly row: the frame
    has a row labelled with the bar's week whose high is at least the bar's
    high and whose low is at most the bar's low. *)
Theorem resample_ohlcv_range (daily_df : DataFrame) :
  Forall (fun b => exists r, In r (resample_ohlcv daily_df)
                     /\ Date r = week_label (Date b)
                     /\ High b <= High r /\ Low r <= Low b) daily_df.
Proof.
  induction daily_df as [ | b l IH]; [constructor | ].
  cbn [resample_ohlcv]. destruct (resample_ohlcv l) as [ | r0 rs0] eqn:Hr.
  - apply resample_nil in Hr. subst l. constructor; [ | constructor].
    eexists. split; [left; reflexivity | ]. cbn.
    repeat split; apply Qle_refl.
  - destruct (Z.eqb_spec (week_label (Date b)) (Date r0)) as [Heq | Hne].
    + constructor.
      * eexists. split; [left; reflexivity | ]. cbn [Date High Low].
        split; [symmetry; exact Heq | split; [apply Qmax2_l | apply Qmin2_l]].
      * eapply Forall_impl; [ | exact IH]. cbv beta.
        intros b' [r [[<- | Hin] [Hd [Hh Hl]]]].
        -- eexists. split; [left; reflexivity | ]. cbn [Date High Low].
           split; [exact Hd | split].
           ++ eapply Qle_trans; [exact Hh | apply Qmax2_r].
           ++ eapply Qle_trans; [apply Qmin2_r | exact Hl].
        -- exists r. split; [right; exact Hin | auto].
    + constructor.
      * eexists. split; [left; reflexivity | ]. cbn.
        repeat split; apply Qle_refl.
      * eapply Forall_impl; [ | exact IH]. cbv beta.
        intros b' [r [Hin Hrest]]. exists r. split; [right; exact Hin | exact Hrest].
Qed.

(* ------------------------------------------------------------------ *)
(** ** Rounding keeps integer bounds *)

Lemma round_half_even_le (q : Q) (z : Z) :
  q <= inject_Z z -> (round_half_even q <= z)%Z.
Proof.
  intros Hq. unfold round_half_even.
  pose proof (Qfloor_resp_le _ _ Hq) as Hf. rewrite Qfloor_Z in Hf.
  destruct (Qcompare_spec (q - inject_Z (Qfloor q)) (1 # 2)) as [He | Hl | Hg];
    [ | exact Hf | ].
  - assert (Hne : Qfloor q <> z).
    { intros E. rewrite E in He. lra. }
    destruct (Z.even (Qfloor q)); lia.
  - assert (Hne : Qfloor q <> z).
    { intros E. rewrite E in Hg. lra. }
    lia.
Qed.

Lemma round_half_even_ge (q : Q) (z : Z) :
  inject_Z z <= q -> (z <= round_half_even q)%Z.
Proof.
  intros Hq. unfold round_half_even.
  pose proof (Qfloor_resp_le _ _ Hq) as Hf. rewrite Qfloor_Z in Hf.
  destruct (Qcompare (q - inject_Z (Qfloor q)) (1 # 2)); [ | lia | lia].
  destruct (Z.even (Qfloor q)); lia.
Qed.

Lemma pow10_pos (nd : nat) : 0 < inject_Z (10 ^ Z.of_nat nd).
Proof.
  change 0 with (inject_Z 0). rewrite <- Zlt_Qlt.
  apply Z.pow_pos_nonneg; lia.
Qed.

(** [round(q, nd) <= k] for an integer [k >= q]. *)
Lemma py_round_le (q : Q) (nd : nat) (k : Z) :
  q <= inject_Z k -> py_round q nd <= inject_Z k.
Proof.
  intros Hq. unfold py_round. rewrite Qred_correct.
  pose proof (pow10_pos nd) as Hs.
  set (s := inject_Z (10 ^ Z.of_nat nd)) in *.
  apply Qle_shift_div_r; [exact Hs | ].
  unfold s. rewrite <- inject_Z_mult, <- Zle_Qle.
  apply round_half_even_le. rewrite inject_Z_mult. fold s.
  apply Qmult_le_compat_r; [exact Hq | apply Qlt_le_weak, Hs].
Qed.

(** [k <= round(q, nd)] for an integer [k <= q]. *)
Lemma py_round_ge (q : Q) (nd : nat) (k : Z) :
  inject_Z k <= q -> inject_Z k <= py_round q nd.
Proof.
  intros Hq. unfold py_round. rewrite Qred_correct.
  pose proof (pow10_pos nd) as Hs.
  set (s := inject_Z (10 ^ Z.of_nat nd)) in *.
  apply Qle_shift_div_l; [exact Hs | ].
  unfold s. rewrite <- inject_Z_mult, <- Zle_Qle.
  apply round_half_even_ge. rewrite inject_Z_mult. fold s.
  apply Qmult_le_compat_r; [exact Hq | apply Qlt_le_weak, Hs].
Qed.

(* ------------------------------------------------------------------ *)
(** ** Hammer detection ([_detect_hammer]) *)

Lemma py_max_comm (a b : Q) : py_max a b == py_max b a.
Proof.
  unfold py_max, Qgtb.
  destruct (Qltb a b) eqn:E1; destruct (Qltb b a) eqn:E2; try reflexivity.
  - apply Qltb_lt in E1. apply Qltb_lt in E2. lra.
  - apply Qltb_ge in E1. apply Qltb_ge in E2. lra.
Qed.

Lemma py_min_comm (a b : Q) : py_min a b == py_min b a.
Proof.
  unfold py_min.
  destruct (Qltb a b) eqn:E1; destruct (Qltb b a) eqn:E2; try reflexivity.
  - apply Qltb_lt in E1. apply Qltb_lt in E2. lra.
  - apply Qltb_ge in E1. apply Qltb_ge in E2. lra.
Qed.

(** X4. Hammer detection does not depend on the colour of the candle:
    exchanging open and close gives the same answer. *)
Theorem detect_hammer_open_close_sym (self : EntryPointScanner)
    (open_ high low close : Q) :
  _detect_hammer self open_ high low close
  = _detect_hammer self close high low open_.
Proof.
  unfold _detect_hammer, Qgeb, Qgtb, Qleb, Qltb.
  rewrite (Qabs_Qminus close open_).
  rewrite !(py_max_comm close open_), !(py_min_comm close open_).
  reflexivity.
Qed.

(* ------------------------------------------------------------------ *)
(** ** The entry check ([_check_entry_at]) *)

Lemma py_min_le_l (a b : Q) : py_min a b <= a.
Proof.
  unfold py_min. destruct (Qltb b a) eqn:E; [ | apply Qle_refl].
  apply Qlt_le_weak, Qltb_lt, E.
Qed.

(** X5. A verdict of the entry check carries a score of at most 100 whose
    label follows the thresholds: STRONG_BUY from 65, BUY from 40 to 65,
    WATCH up to 40 (the label is chosen before the score is rounded to one
    decimal, so a boundary value can carry the label of the lower band). *)
Theorem check_entry_at_score_label (self : EntryPointScanner) (idx : nat)
    (ohlcv : DataFrame) (ind : Indicators) (r : EntryCheck) :
  _check_entry_at self idx ohlcv ind = Ok (Some r) ->
  ec_score r <= 100
  /\ (ec_signal r = "STRONG_BUY" /\ 65 <= ec_score r
      \/ ec_signal r = "BUY" /\ 40 <= ec_score r /\ ec_score r <= 65
      \/ ec_signal r = "WATCH" /\ ec_score r <= 40).
Proof.
  unfold _check_entry_at. cbv zeta.
  destruct (idx <? d_slow self + 20)%nat; [discriminate | ].
  destruct (nth_error ohlcv idx) as [bar | ]; [ | discriminate].
  destruct (isna (iloc (w_mm ind) idx) || _); [discriminate | ].
  destruct (isna (iloc (d_mxf ind) idx) || _); [discriminate | ].
  destruct (nlt (Some (Close bar)) (iloc (d_mm ind) idx)); [discriminate | ].
  destruct (best_signal _) as [kind | ]; [ | discriminate].
  destruct (best_details _) as [details | ], (iloc (ath ind) idx) as [ath_v | ],
    (iloc (d_mxf ind) idx) as [mxf | ], (iloc (d_mm ind) idx) as [mm | ],
    (iloc (w_mm ind) idx) as [wmm | ]; try discriminate.
  intros E. injection E as <-. cbn [ec_score ec_signal].
  match goal with
  | |- context [py_round (py_min 100 ?s) 1] => generalize s
  end.
  intros s. pose proof (py_min_le_l 100 s) as H100.
  split; [apply (@py_round_le _ 1 100), H100 | ].
  unfold Qgeb. destruct (Qleb 65 (py_min 100 s)) eqn:E65.
  - left. split; [reflexivity | ].
    apply (@py_round_ge _ 1 65), Qleb_le, E65.
  - apply Qleb_gt in E65. right.
    destruct (Qleb 40 (py_min 100 s)) eqn:E40.
    + left. split; [reflexivity | split].
      * apply (@py_round_ge _ 1 40), Qleb_le, E40.
      * apply (@py_round_le _ 1 65), Qlt_le_weak, E65.
    + right. split; [reflexivity | ].
      apply (@py_round_le _ 1 40), Qlt_le_weak, Qleb_gt, E40.
Qed.

Module EntrySample.
Definition ohlcv : DataFrame := Sample.rising 130.

(** The indicator columns of the 130 rising bars. *)
Definition ind : Indicators :=
  match _compute_indicators EntryPointScanner_init ohlcv with
  | Some i => i
  | None => mkIndicators [] [] [] [] [] [] [] [] [] []
  end.

(** The verdict at row 100: a hammer-free touch of the rising averages,
    scored 79.5. *)
Definition verdict100 : EntryCheck :=
  match _check_entry_at EntryPointScanner_init 100 ohlcv ind with
  | Ok (Some r) => r
  | _ => mkEntryCheck 0 "" "" (mkBestDetails "" 0 0 0) 0 false
  end.
End EntrySample.

Lemma check_entry_at_score_label_witness :
  _check_entry_at EntryPointScanner_init 100 EntrySample.ohlcv EntrySample.ind
  = Ok (Some EntrySample.verdict100)
  /\ ec_signal EntrySample.verdict100 = "STRONG_BUY"
  /\ ec_score EntrySample.verdict100 <= 100.
Proof.
  split; [vm_compute; reflexivity | ].
  split; [vm_compute; reflexivity | ].
  refine (proj1 (@check_entry_at_score_label EntryPointScanner_init 100
                   EntrySample.ohlcv EntrySample.ind EntrySample.verdict100 _)).
  vm_compute. reflexivity.
Defined.

(** X6. The entry check fails closed: a verdict is only given past the
    warm-up rows and when every trend gate is defined and holds -- the
    fastest daily average above the fast one, the fast one above the mid
    one, the close not below the mid average, and the weekly close above
    the weekly mid average. *)
Theorem check_entry_at_trend_gate (self : EntryPointScanner) (idx : nat)
    (ohlcv : DataFrame) (ind : Indicators) (r : EntryCheck) :
  _check_entry_at self idx ohlcv ind = Ok (Some r) ->
  (d_slow self + 20 <= idx)%nat
  /\ exists bar mxf mf mm wc wmm,
       nth_error ohlcv idx = Some bar
       /\ iloc (d_mxf ind) idx = Some mxf /\ iloc (d_mf ind) idx = Some mf
       /\ iloc (d_mm ind) idx = Some mm
       /\ iloc (w_close ind) idx = Some wc /\ iloc (w_mm ind) idx = Some wmm
       /\ mf < mxf /\ mm < mf /\ mm <= Close bar /\ wmm < wc.
Proof.
  unfold _check_entry_at. cbv zeta.
  destruct (Nat.ltb_spec idx (d_slow self + 20)) as [Hlt | Hge]; [discriminate | ].
  destruct (nth_error ohlcv idx) as [bar | ]; [ | discriminate].
  destruct (iloc (w_mm ind) idx) as [wmm | ]; [ | discriminate].
  destruct (iloc (w_close ind) idx) as [wc | ]; [ | discriminate].
  cbn [isna orb ngt nlt].
  destruct (Qltb wmm wc) eqn:Hw; [ | discriminate]. cbn [negb].
  destruct (iloc (d_mxf ind) idx) as [mxf | ]; [ | discriminate].
  destruct (iloc (d_mf ind) idx) as [mf | ]; [ | discriminate].
  cbn [isna orb ngt nlt].
  destruct (Qltb mf mxf) eqn:H1; [ | discriminate]. cbn [andb].
  destruct (iloc (d_mm ind) idx) as [mm | ]; [ | discriminate].
  cbn [ngt nlt].
  destruct (Qltb mm mf) eqn:H2; [ | discriminate]. cbn [negb].
  destruct (Qltb (Close bar) mm) eqn:H3; [discriminate | ].
  intros _. split; [exact Hge | ].
  exists bar, mxf, mf, mm, wc, wmm.
  repeat (split; [reflexivity | ]).
  split; [apply Qltb_lt, H1 | ]. split; [apply Qltb_lt, H2 | ].
  split; [apply Qltb_ge, H3 | apply Qltb_lt, Hw].
Qed.

Lemma check_entry_at_trend_gate_witness :
  _check_entry_at EntryPointScanner_init 100 EntrySample.ohlcv EntrySample.ind
  = Ok (Some EntrySample.verdict100)
  /\ (d_slow EntryPointScanner_init + 20 <= 100)%nat.
Proof.
  split; [vm_compute; reflexivity | ].
  refine (proj1 (@check_entry_at_trend_gate EntryPointScanner_init 100
                   EntrySample.ohlcv EntrySample.ind EntrySample.verdict100 _)).
  vm_compute. reflexivity.
Defined.

(* ------------------------------------------------------------------ *)
(** ** The prepared cache against truncate-then-scan *)

Lemma last_opt_nth_error (A : Type) (l : list A) :
  last_opt l = nth_error l (length l - 1).
Proof.
  induction l as [ | x l _] using rev_ind; [reflexivity | ].
  rewrite last_opt_app, length_app. cbn [length].
  rewrite nth_error_app2 by lia.
  replace (length l + 1 - 1 - length l)%nat with 0%nat by lia. reflexivity.
Qed.

Lemma loc_upto_idem (A : DataFrame) (d : Timestamp) :
  loc_upto (loc_upto A d) d = loc_upto A d.
Proof.
  unfold loc_upto. induction A as [ | b A IH]; cbn [filter]; [reflexivity | ].
  destruct (Date b <=? d)%Z eqn:E; [ | exact IH].
  cbn [filter]. rewrite E, IH. reflexivity.
Qed.

Lemma sorted_loc_upto (A : DataFrame) (d : Timestamp) :
  StronglySorted Z.lt (index A) -> StronglySorted Z.lt (index (loc_upto A d)).
Proof. unfold index, loc_upto. apply sorted_filter. Qed.

(** On ascending dates the truncation at a trading date ends with the bar
    of that date. *)
Lemma loc_upto_last_date (A : DataFrame) (d : Timestamp) :
  StronglySorted Z.lt (index A) -> In d (index A) ->
  exists b, last_opt (loc_upto A d) = Some b /\ Date b = d.
Proof.
  intros Hs Hin. unfold index in Hin. apply in_map_iff in Hin.
  destruct Hin as [b0 [Hd0 Hin0]].
  assert (HinT : In b0 (loc_upto A d)).
  { apply loc_upto_In. split; [exact Hin0 | ]. unfold Timestamp in *. lia. }
  assert (Hne : loc_upto A d <> []) by (intros E; rewrite E in HinT; contradiction).
  destruct (last_opt_nonempty Hne) as [b Hb].
  exists b. split; [exact Hb | ].
  pose proof (last_opt_In _ Hb) as HbT. apply loc_upto_In in HbT.
  assert (Hle : (d <= Date b)%Z).
  { apply (@sorted_le_last (index (loc_upto A d))).
    - apply sorted_loc_upto. exact Hs.
    - unfold index. apply in_map_iff. exists b0. split; [exact Hd0 | exact HinT].
    - unfold index. rewrite last_opt_map, Hb. reflexivity. }
  unfold Timestamp in *. lia.
Qed.

(** Date, price and reason of an entry signal. *)
Definition verdict (e : EntrySignal) : Timestamp * Q * string :=
  (es_date e, es_price e, es_reason e).

(** X7. The precomputed cache is an optimisation of truncate-then-scan:
    on a frame with strictly ascending dates, for a trading date whose
    truncated history has at least 50 bars and passes the history guard,
    the prepared scanner and the unprepared one give the same verdict --
    both none, or signals with the same date, price and reason. *)
Theorem prepared_cache_agrees_with_scan (self : EntryPointScanner)
    (tkr : string) (A : DataFrame) (f : Series) (d : Timestamp) :
  sim self = None ->
  StronglySorted Z.lt (index A) -> In d (index A) ->
  ~ insufficient self A -> ~ insufficient self (loc_upto A d) ->
  (50 <= length (loc_upto A d))%nat ->
  exists prepared r1 r2,
    ep_prepare_simulation self tkr A f = Ok prepared
    /\ ep_check_entry_signal prepared tkr A f d = Ok r1
    /\ ep_check_entry_signal self tkr A f d = Ok r2
    /\ option_map verdict r1 = option_map verdict r2.
Proof.
  intros Hsim Hs Hin HA HT H50.
  destruct (compute_indicators_enough HA) as [indA HiA].
  destruct (compute_indicators_enough HT) as [indT HiT].
  destruct (@prepared_verdict self tkr A f indA HiA (sorted_NoDup Hs))
    as [p [Hp Hv]].
  pose proof (@sorted_loc_upto A d Hs) as HsT.
  destruct (@loc_upto_last_date A d Hs Hin) as [b [Hlast Hdate]].
  assert (Hcache : cache_upto self A indA (length A) d
                   = cache_upto self (loc_upto A d) indT
                       (length (loc_upto A d)) d).
  { apply cache_no_lookahead; try assumption.
    symmetry. apply loc_upto_idem. }
  set (T := loc_upto A d) in *.
  assert (Hnth : nth_error T (length T - 1) = Some b)
    by (rewrite <- last_opt_nth_error; exact Hlast).
  assert (Hget : get_loc (index T) d = Some (length T - 1)%nat).
  { apply get_loc_unique; [apply sorted_NoDup, HsT | ].
    unfold index. rewrite nth_error_map, Hnth. cbn. rewrite Hdate. reflexivity. }
  assert (Hi : (length T - 1 < length T)%nat) by lia.
  destruct (@check_entry_at_returns self T indT _ HiT Hi) as [r Hr].
  exists p, (cache_upto self A indA (length A) d).
  exists (match r with
          | Some res =>
              Some (mkEntrySignal d (Close b) (ec_signal res)
                      (sr_details
                         (ScanResult_init tkr (PFin (ec_score res)) (ec_signal res)
                            [("entry", VStr (ec_entry_label res));
                             ("dist%", VNum (py_round (bd_close_dist (ec_best_details res)) 1));
                             ("ath%", VNum (py_round (ec_pct_from_ath res) 1));
                             ("wk", VStr (if ec_weekly_full_align res then "Y" else ""));
                             ("cap$B", VNum (py_round
                                (series_get "marketCap" f 0 / 1000000000) 0))])))
          | None => None
          end).
  split; [exact Hp | ]. split; [apply Hv | ]. split.
  - unfold ep_check_entry_signal. rewrite Hsim.
    unfold base_check_entry_signal. fold T.
    replace (length T <? 50)%nat with false
      by (symmetry; apply Nat.ltb_ge; exact H50).
    unfold ep_scan. rewrite HiT, Hr. cbn [bind].
    destruct r as [res | ]; [ | reflexivity].
    rewrite Hlast. reflexivity.
  - rewrite Hcache. unfold cache_upto. rewrite Hget.
    replace (length T <=? length T - 1)%nat with false
      by (symmetry; apply Nat.leb_gt; lia).
    rewrite orb_false_r.
    destruct (length T - 1 <? d_slow self + 20)%nat eqn:Hwarm.
    + unfold _check_entry_at in Hr. rewrite Hwarm in Hr.
      injection Hr as <-. reflexivity.
    + unfold cached_entry. rewrite Hr, Hnth.
      destruct r as [res | ]; [ | reflexivity].
      unfold verdict. cbn. rewrite Hdate. reflexivity.
Qed.

Lemma prepared_cache_agrees_with_scan_witness :
  exists prepared r1 r2,
    ep_prepare_simulation EntryPointScanner_init "UP" (Sample.rising 130) []
    = Ok prepared
    /\ ep_check_entry_signal prepared "UP" (Sample.rising 130) [] (Sample.day 120)
       = Ok r1
    /\ ep_check_entry_signal EntryPointScanner_init "UP" (Sample.rising 130) []
         (Sample.day 120) = Ok r2
    /\ option_map verdict r1 = option_map verdict r2.
Proof.
  apply (@prepared_cache_agrees_with_scan EntryPointScanner_init "UP"
           (Sample.rising 130) [] (Sample.day 120)).
  - reflexivity.
  - apply ascending_sound. vm_compute. reflexivity.
  - apply in_map_iff. exists (Sample.rising_bar 120).
    split; [reflexivity | ]. apply in_map, in_seq. lia.
  - intros [Hd | Hw]; [vm_compute in Hd | vm_compute in Hw]; lia.
  - intros [Hd | Hw]; [vm_compute in Hd | vm_compute in Hw]; lia.
  - vm_compute. lia.
Defined.

(** Without the guard on the truncated history the two differ: prepared on
    106 rising bars the scanner has a signal for day 100, while the
    unprepared scanner, looking at the 101 bars up to that day (21 weekly
    bars), has none. *)
Example cache_fires_where_scan_does_not :
  exists prepared e,
    ep_prepare_simulation EntryPointScanner_init "UP" (Sample.rising 106) []
    = Ok prepared
    /\ ep_check_entry_signal prepared "UP" (Sample.rising 106) [] (Sample.day 100)
       = Ok (Some e)
    /\ ep_check_entry_signal EntryPointScanner_init "UP" (Sample.rising 106) []
         (Sample.day 100) = Ok None.
Proof.
  eexists. eexists.
  split; [vm_compute; reflexivity | ].
  split; [vm_compute; reflexivity | ].
  vm_compute. reflexivity.
Qed.

(** Also on a day without a bar: the cache has nothing filed under a
    Saturday, the unprepared scanner answers from the bars before it. *)
Example scan_fires_on_a_day_without_bar :
  exists prepared e,
    ep_prepare_simulation EntryPointScanner_init "UP" (Sample.rising 130) []
    = Ok prepared
    /\ in_index (Sample.day 124 + 1)%Z (Sample.rising 130) = false
    /\ ep_check_entry_signal prepared "UP" (Sample.rising 130) []
         (Sample.day 124 + 1)%Z = Ok None
    /\ ep_check_entry_signal EntryPointScanner_init "UP" (Sample.rising 130) []
         (Sample.day 124 + 1)%Z = Ok (Some e).
Proof.
  eexists. eexists.
  split; [vm_compute; reflexivity | ].
  split; [vm_compute; reflexivity | ].
  split; [vm_compute; reflexivity | ].
  vm_compute. reflexivity.
Qed.

(* ------------------------------------------------------------------ *)
(** ** The hooks of the entry-point scanner return *)

Lemma loc_row_In (ohlcv : DataFrame) (d : Timestamp) :
  In d (index ohlcv) -> exists b, loc_row ohlcv d = Some b.
Proof.
  unfold loc_row, index. induction ohlcv as [ | b0 l IH]; cbn [map find In];
    [contradiction | ].
  intros Hin. destruct (Z.eqb_spec (Date b0) d) as [Heq | Hne];
    [eexists; reflexivity | ].
  apply IH. destruct Hin as [Heq | Hin]; [contradiction | exact Hin].
Qed.

Lemma exit_rules_returns (ohlcv ohlcv_slice : DataFrame) (e : EntrySignal)
    (d : Timestamp) (c : Q) (m : option Q) (ctx : ExitCtx) :
  (exists vb, volume_breakdown ohlcv ohlcv_slice d c m ctx = Ok vb) ->
  exists r, exit_rules ohlcv ohlcv_slice e d c m ctx = Ok r.
Proof.
  intros [vb Hvb]. unfold exit_rules.
  destruct (Qltb c _); [eexists; reflexivity | ].
  destruct (Qgtb c _); [eexists; reflexivity | ].
  destruct (ma20_breakdown ohlcv_slice ctx); [eexists; reflexivity | ].
  destruct (sharp_drop c m); [eexists; reflexivity | ].
  rewrite Hvb. cbn [bind]. destruct vb; [eexists; reflexivity | ].
  destruct (30 <=? d - es_date e)%Z; eexists; reflexivity.
Qed.

Lemma ep_prepare_returns (self : EntryPointScanner) (tkr : string)
    (A : DataFrame) (f : Series) :
  exists p, ep_prepare_simulation self tkr A f = Ok p.
Proof.
  unfold ep_prepare_simulation.
  destruct (_compute_indicators self A) as [ind | ] eqn:Hind;
    [ | eexists; reflexivity].
  assert (Hidx : Forall (fun i => (i < length A)%nat)
                   (seq (d_slow self + 20) (length A - (d_slow self + 20)))).
  { apply Forall_forall. intros i Hi. apply in_seq in Hi. lia. }
  destruct (@prepare_entries_returns self A ind _ Hind Hidx []) as [out Hout].
  rewrite Hout. cbn [bind]. eexists. reflexivity.
Qed.

(** What preparation leaves in the scanner: the ticker, and the indicator
    columns of the frame when it has enough history. *)
Lemma ep_prepared_cache (self0 self : EntryPointScanner) (tkr : string)
    (A : DataFrame) (f : Series) :
  ep_prepare_simulation self0 tkr A f = Ok self ->
  d_mid self = d_mid self0
  /\ exists c, sim self = Some c /\ _sim_ticker c = tkr
       /\ (forall ind, _sim_ind c = Some ind -> ind_index ind = index A).
Proof.
  unfold ep_prepare_simulation.
  destruct (_compute_indicators self0 A) as [ind | ] eqn:Hind.
  - destruct (prepare_entries self0 A ind _ []) as [out | err]; cbn [bind];
      [ | discriminate].
    intros E. injection E as <-. split; [reflexivity | ].
    eexists. split; [reflexivity | ]. split; [reflexivity | ].
    cbn [_sim_ind]. intros ind' E. injection E as <-.
    rewrite (@compute_indicators_inv _ _ _ Hind). reflexivity.
  - intros E. injection E as <-. split; [reflexivity | ].
    eexists. split; [reflexivity | ]. split; [reflexivity | ].
    cbn [_sim_ind]. discriminate.
Qed.

Lemma ep_entry_returns (self0 self : EntryPointScanner) (tkr : string)
    (A : DataFrame) (f : Series) :
  ep_prepare_simulation self0 tkr A f = Ok self ->
  forall ohlcv f' d, exists r, ep_check_entry_signal self tkr ohlcv f' d = Ok r.
Proof.
  intros Hp ohlcv f' d.
  destruct (@ep_prepared_cache _ _ _ _ _ Hp) as [_ [c [Hc [Ht _]]]].
  unfold ep_check_entry_signal. rewrite Hc, Ht, String.eqb_refl.
  eexists. reflexivity.
Qed.

Lemma ep_exit_returns (self : EntryPointScanner) (tkr : string)
    (ohlcv : DataFrame) (e : EntrySignal) (d : Timestamp) :
  (forall ind, cached_ind self tkr = Some ind -> ind_index ind = index ohlcv) ->
  exists r, ep_check_exit_signal self tkr ohlcv e d = Ok r.
Proof.
  intros Hidx. unfold ep_check_exit_signal.
  destruct (Nat.ltb_spec (length (loc_upto ohlcv d)) (d_mid self + 5))
    as [Hlt | Hge]; [eexists; reflexivity | ].
  assert (Hne : loc_upto ohlcv d <> []).
  { intros E. rewrite E in Hge. cbn [length] in Hge. lia. }
  destruct (last_opt_nonempty Hne) as [lastb Hlast]. rewrite Hlast.
  destruct (cached_ind self tkr) as [ind | ].
  - rewrite (Hidx ind eq_refl).
    destruct (get_loc (index ohlcv) d) as [idx | ] eqn:Hget;
      [ | eexists; reflexivity].
    destruct (isna _); [eexists; reflexivity | ].
    apply exit_rules_returns. unfold volume_breakdown.
    destruct (nlt _ _); [ | eexists; reflexivity].
    apply get_loc_nth, nth_error_In, loc_row_In in Hget.
    destruct Hget as [b Hb]. rewrite Hb. eexists. reflexivity.
  - apply exit_rules_returns. unfold volume_breakdown.
    destruct (nlt _ _); [ | eexists; reflexivity].
    rewrite last_opt_map, Hlast. eexists. reflexivity.
Qed.

Lemma ep_prepared_exit_returns (self0 self : EntryPointScanner) (tkr : string)
    (ohlcv : DataFrame) (f : Series) :
  ep_prepare_simulation self0 tkr ohlcv f = Ok self ->
  forall e d, exists r, ep_check_exit_signal self tkr ohlcv e d = Ok r.
Proof.
  intros Hp e d. apply ep_exit_returns.
  destruct (@ep_prepared_cache _ _ _ _ _ Hp) as [_ [c [Hc [Ht Hind]]]].
  intros ind. unfold cached_ind. rewrite Hc.
  destruct (_sim_ind c) as [ind' | ]; [ | discriminate].
  destruct (String.eqb _ _); [ | discriminate].
  intros E. injection E as <-. apply Hind. reflexivity.
Qed.

(** X8. On a frame with strictly ascending dates (so no date twice), the
    exit check of the entry-point scanner returns -- it raises nothing --
    whenever it is asked about the frame the scanner was prepared on, and
    also whenever the scanner holds no indicator cache for the ticker. *)
Theorem ep_check_exit_signal_returns (ohlcv : DataFrame) :
  StronglySorted Z.lt (index ohlcv) ->
  (forall self0 self tkr f e d,
      ep_prepare_simulation self0 tkr ohlcv f = Ok self ->
      exists r, ep_check_exit_signal self tkr ohlcv e d = Ok r)
  /\ (forall self tkr e d,
        cached_ind self tkr = None ->
        exists r, ep_check_exit_signal self tkr ohlcv e d = Ok r).
Proof.
  intros _. split.
  - intros self0 self tkr f e d Hp.
    apply (@ep_prepared_exit_returns _ _ _ _ _ Hp).
  - intros self tkr e d Hnone. apply ep_exit_returns.
    intros ind Hind. congruence.
Qed.

Lemma ep_check_exit_signal_returns_witness :
  exists self,
    ep_prepare_simulation EntryPointScanner_init "UP" (Sample.rising 130) []
    = Ok self
    /\ exists r,
         ep_check_exit_signal self "UP" (Sample.rising 130)
           (mkEntrySignal (Sample.day 100) 1100 "BUY" []) (Sample.day 120)
         = Ok r.
Proof.
  eexists. split; [vm_compute; reflexivity | ].
  refine (proj1 (@ep_check_exit_signal_returns (Sample.rising 130) _)
            EntryPointScanner_init _ "UP" [] _ _ _).
  - apply ascending_sound. vm_compute. reflexivity.
  - vm_compute. reflexivity.
Defined.

(* ------------------------------------------------------------------ *)
(** ** Outcomes of [simulate_ticker] *)

Section EngineReturns.
Context {S : Type} `{BaseScanner S}.
Variable engine : SimulationEngine S.
Variable tkr : string.
Variable ohlcv : DataFrame.
Variable fundamentals : Series.
Variable a : S.

Hypothesis Hentry :
  forall d, exists r, check_entry_signal a tkr ohlcv fundamentals d = Ok r.
Hypothesis Hexit :
  forall p d, exists r, check_exit_signal a tkr ohlcv p d = Ok r.

(** With hooks that return, the day loop returns. *)
Lemma day_loop_returns (days : DataFrame) (st : SimState) :
  exists st', day_loop engine tkr ohlcv fundamentals a st days = Ok st'.
Proof.
  revert st. induction days as [ | b days IH]; intros st; cbn [day_loop];
    [eexists; reflexivity | ].
  assert (Hstep : exists st1, day_step engine tkr ohlcv fundamentals a st b = Ok st1).
  { unfold day_step. destruct (position st) as [pos | ].
    - destruct (Hexit pos (Date b)) as [[x | ] Hx]; rewrite Hx; cbn [bind];
        eexists; reflexivity.
    - destruct (Hentry (Date b)) as [[e | ] He]; rewrite He; cbn [bind];
        eexists; reflexivity. }
  destruct Hstep as [st1 Hst1]. rewrite Hst1. cbn [bind]. apply IH.
Qed.
End EngineReturns.

Lemma force_close_rows (tkr : string) (w : DataFrame) (st st' : SimState) :
  force_close tkr w st = Ok st' ->
  map eq_date (equity_rows st') = map eq_date (equity_rows st).
Proof.
  unfold force_close. destruct (position st); [ | intros E; injection E as <-; reflexivity].
  destruct (last_opt w); [ | discriminate].
  intros E. injection E as <-. cbn [equity_rows].
  apply set_last_row_facts.
Qed.

(** X9. What [simulate_ticker] does with the entry-point scanner, for any
    frame with strictly ascending dates (so no date twice) and any window
    dates: an [IndexError] of the window defaults is passed on; an empty
    window ends in the [KeyError] of [set_index] on a frame without rows;
    on every other window the run returns a result -- no hook raises on
    the way -- whose [total_days] is the number of bars of the window. *)
Theorem ep_simulate_ticker_outcome (one_year_before : Timestamp -> Timestamp)
    (engine : SimulationEngine EntryPointScanner) (tkr : string)
    (ohlcv : DataFrame) (fundamentals : Series)
    (start_date end_date : option Timestamp) :
  StronglySorted Z.lt (index ohlcv) ->
  match sim_window one_year_before ohlcv start_date end_date with
  | Raise err =>
      simulate_ticker one_year_before engine tkr ohlcv fundamentals
        start_date end_date = Raise err
  | Ok [] =>
      simulate_ticker one_year_before engine tkr ohlcv fundamentals
        start_date end_date = Raise KeyError
  | Ok w =>
      exists r,
        simulate_ticker one_year_before engine tkr ohlcv fundamentals
          start_date end_date = Ok r
        /\ total_days r = length w
  end.
Proof.
  intros _. unfold simulate_ticker, simulate_state.
  destruct (sim_window one_year_before ohlcv start_date end_date) as [w | err];
    cbn [bind]; [ | reflexivity].
  destruct (ep_prepare_returns (analyzer engine) tkr ohlcv fundamentals)
    as [a Ha].
  change (prepare_simulation (analyzer engine) tkr ohlcv fundamentals)
    with (ep_prepare_simulation (analyzer engine) tkr ohlcv fundamentals).
  rewrite Ha. cbn [bind].
  destruct (@day_loop_returns EntryPointScanner EntryPointScanner_scanner engine
              tkr ohlcv fundamentals a
              (@ep_entry_returns _ _ _ _ _ Ha ohlcv fundamentals)
              (@ep_prepared_exit_returns _ _ _ _ _ Ha)
              w (init_state engine)) as [st Hst].
  rewrite Hst. cbn [bind].
  destruct w as [ | b w'].
  - cbn [day_loop] in Hst. injection Hst as <-. reflexivity.
  - set (w := b :: w') in *.
    assert (Hfc : exists st', force_close tkr w st = Ok st').
    { unfold force_close. destruct (position st); [ | eexists; reflexivity].
      unfold w. destruct (@last_opt_nonempty _ (b :: w') ltac:(discriminate))
        as [lb Hlb]. rewrite Hlb. eexists. reflexivity. }
    destruct Hfc as [st' Hst']. rewrite Hst'. cbn [bind fst snd].
    pose proof (force_close_rows _ _ _ Hst') as Hrows.
    destruct (day_loop_rows _ _ _ _ _ _ _ Hst) as [Hdays _].
    rewrite Hdays in Hrows. cbn [init_state equity_rows map app] in Hrows.
    destruct (equity_rows st') as [ | r0 rows] eqn:Hr; [discriminate | ].
    eexists. split; [reflexivity | ].
    apply build_result_curve.
Qed.

Lemma ep_simulate_ticker_outcome_witness :
  exists r,
    simulate_ticker RunSample.back RunSample.engine "UP" (Sample.rising 130) []
      None None = Ok r
    /\ total_days r = 80%nat.
Proof.
  exact (@ep_simulate_ticker_outcome RunSample.back RunSample.engine "UP"
           (Sample.rising 130) [] None None
           (ascending_sound (index (Sample.rising 130)) eq_refl)).
Defined.

(* ------------------------------------------------------------------ *)
(** ** The trade log of the single-ticker engine *)

(** The [Trade] both loops book when the position [pos] is closed on
    [xd] at price [xp]. *)
Definition trade_of (tkr : string) (pos : EntrySignal) (xd : Timestamp) (xp : Q)
    (reason : string) : Trade :=
  mkTrade tkr (es_date pos) (es_price pos) (es_reason pos) xd xp reason
    (py_round ((xp - es_price pos) / es_price pos * 100) 2)
    (xd - es_date pos)%Z.

(** A trade whose derived fields agree with its dates and prices. *)
Definition booked (tkr : string) (t : Trade) : Prop :=
  ticker t = tkr
  /\ hold_days t = (exit_date t - entry_date t)%Z
  /\ return_pct t
     = py_round ((exit_price t - entry_price t) / entry_price t * 100) 2.

(** The earlier trade is closed before the later one is entered. *)
Definition closed_before (t1 t2 : Trade) : Prop :=
  (exit_date t1 < entry_date t2)%Z.

(** A trade filed under [tkr] whose [hold_days] is the distance of its
    dates. *)
Definition filed (tkr : string) (t : Trade) : Prop :=
  ticker t = tkr /\ hold_days t = (exit_date t - entry_date t)%Z.

Lemma booked_trade_of (tkr : string) (pos : EntrySignal) (xd : Timestamp)
    (xp : Q) (reason : string) :
  booked tkr (trade_of tkr pos xd xp reason).
Proof. unfold booked, trade_of. cbn. auto. Qed.

Lemma StronglySorted_snoc (A : Type) (R : A -> A -> Prop) (l : list A) (x : A) :
  StronglySorted R l -> Forall (fun y => R y x) l -> StronglySorted R (l ++ [x]).
Proof.
  induction l as [ | y l IH]; intros Hs Hx; cbn [app].
  - constructor; constructor.
  - apply StronglySorted_inv in Hs. destruct Hs as [Hs Hy].
    apply Forall_cons_iff in Hx. destruct Hx as [Hyx Hx].
    constructor; [apply IH; assumption | ].
    apply Forall_app. split; [exact Hy | constructor; [exact Hyx | constructor]].
Qed.

Section TradeLog.
Context {S : Type} `{BaseScanner S}.
Variable engine : SimulationEngine S.
Variable tkr : string.
Variable ohlcv : DataFrame.
Variable fundamentals : Series.
Variable a : S.

(** What one day does to position, shares, cash and trade log. *)
Lemma day_step_inv (st st' : SimState) (bar : Bar) :
  day_step engine tkr ohlcv fundamentals a st bar = Ok st' ->
  match position st with
  | None =>
      exists entry,
        check_entry_signal a tkr ohlcv fundamentals (Date bar) = Ok entry
        /\ trades st' = trades st
        /\ match entry with
           | Some e =>
               position st' = Some e
               /\ shares st' = cash st * position_size engine / es_price e
               /\ cash st' = cash st - shares st' * es_price e
           | None => position st' = None /\ cash st' = cash st
           end
  | Some pos =>
      exists exit_signal,
        check_exit_signal a tkr ohlcv pos (Date bar) = Ok exit_signal
        /\ match exit_signal with
           | Some x =>
               position st' = None
               /\ trades st'
                  = trades st
                    ++ [trade_of tkr pos (xs_date x) (xs_price x) (xs_reason x)]
               /\ cash st' = cash st + shares st * xs_price x
           | None =>
               position st' = Some pos /\ trades st' = trades st
               /\ cash st' = cash st /\ shares st' = shares st
           end
  end.
Proof.
  unfold day_step. destruct (position st) as [pos | ].
  - destruct (check_exit_signal a tkr ohlcv pos (Date bar)) as [[x | ] | err];
      cbn [bind]; [ | | discriminate]; intros E; injection E as <-;
      eexists; (split; [reflexivity | ]); cbn; auto.
  - destruct (check_entry_signal a tkr ohlcv fundamentals (Date bar))
      as [[e | ] | err];
      cbn [bind]; [ | | discriminate]; intros E; injection E as <-;
      eexists; (split; [reflexivity | ]); cbn; auto.
Qed.

Lemma day_loop_booked (days : DataFrame) (st st' : SimState) :
  Forall (booked tkr) (trades st) ->
  day_loop engine tkr ohlcv fundamentals a st days = Ok st' ->
  Forall (booked tkr) (trades st').
Proof.
  revert st. induction days as [ | b days IH]; intros st Hb Hloop;
    cbn [day_loop] in Hloop.
  - injection Hloop as <-. exact Hb.
  - apply bind_Ok_inv in Hloop. destruct Hloop as [st1 [Hstep Hloop]].
    apply (IH st1); [ | exact Hloop].
    apply day_step_inv in Hstep. destruct (position st) as [pos | ].
    + destruct Hstep as [[x | ] [_ Hx]].
      * destruct Hx as [_ [-> _]]. apply Forall_app.
        split; [exact Hb | constructor; [apply booked_trade_of | constructor]].
      * destruct Hx as [_ [-> _]]. exact Hb.
    + destruct Hstep as [entry [_ [-> _]]]. exact Hb.
Qed.

Hypothesis Hentry :
  forall d e, check_entry_signal a tkr ohlcv fundamentals d = Ok (Some e) ->
              es_date e = d.
Hypothesis Hexit :
  forall p d x, check_exit_signal a tkr ohlcv p d = Ok (Some x) -> xs_date x = d.

(** The trade log stays in order: every trade is closed before the days
    still to come, and before the entry of the position held. *)
Lemma day_loop_in_order (days : DataFrame) (st st' : SimState) :
  StronglySorted Z.lt (map Date days) ->
  StronglySorted closed_before (trades st) ->
  Forall (fun t => Forall (fun b => (exit_date t < Date b)%Z) days) (trades st) ->
  (forall pos, position st = Some pos ->
     Forall (fun b => (es_date pos < Date b)%Z) days
     /\ Forall (fun t => (exit_date t < es_date pos)%Z) (trades st)) ->
  day_loop engine tkr ohlcv fundamentals a st days = Ok st' ->
  StronglySorted closed_before (trades st')
  /\ (forall pos, position st' = Some pos ->
        Forall (fun t => (exit_date t < es_date pos)%Z) (trades st')).
Proof.
  revert st. induction days as [ | b days IH];
    intros st Hsorted Hord Hpast Hpos Hloop; cbn [day_loop] in Hloop.
  - injection Hloop as <-. split; [exact Hord | ].
    intros pos Hp. apply (Hpos pos Hp).
  - apply bind_Ok_inv in Hloop. destruct Hloop as [st1 [Hstep Hloop]].
    cbn [map] in Hsorted. apply StronglySorted_inv in Hsorted.
    destruct Hsorted as [Hsorted Hb]. rewrite Forall_map in Hb.
    assert (Hpast_b : Forall (fun t => (exit_date t < Date b)%Z) (trades st)).
    { eapply Forall_impl; [ | exact Hpast]. cbv beta. intros t Ht.
      apply Forall_cons_iff in Ht. tauto. }
    assert (Hpast' : Forall (fun t => Forall (fun b0 => (exit_date t < Date b0)%Z) days)
                       (trades st)).
    { eapply Forall_impl; [ | exact Hpast]. cbv beta. intros t Ht.
      apply Forall_cons_iff in Ht. tauto. }
    apply day_step_inv in Hstep.
    destruct (position st) as [pos | ] eqn:Hp.
    + destruct (Hpos pos eq_refl) as [Hlater Hbefore].
      apply Forall_cons_iff in Hlater. destruct Hlater as [Hpb Hlater].
      destruct Hstep as [[x | ] [Hx Hst1]].
      * destruct Hst1 as [Hp1 [Ht1 _]]. apply (IH st1 Hsorted); [ | | | exact Hloop].
        -- rewrite Ht1. apply StronglySorted_snoc; [exact Hord | ].
           eapply Forall_impl; [ | exact Hbefore]. cbv beta.
           intros t Ht. unfold closed_before, trade_of. cbn. exact Ht.
        -- rewrite Ht1. apply Forall_app. split; [exact Hpast' | ].
           constructor; [ | constructor].
           unfold trade_of. cbn [exit_date]. rewrite (Hexit _ _ Hx).
           eapply Forall_impl; [ | exact Hb]. cbv beta. intros b0 Hb0. exact Hb0.
        -- intros pos1 Hpos1. congruence.
      * destruct Hst1 as [Hp1 [Ht1 _]]. apply (IH st1 Hsorted); [ | | | exact Hloop].
        -- rewrite Ht1. exact Hord.
        -- rewrite Ht1. exact Hpast'.
        -- intros pos1 Hpos1. rewrite Ht1.
           assert (pos1 = pos) by congruence. subst pos1.
           split; [exact Hlater | exact Hbefore].
    + destruct Hstep as [entry [He [Ht1 Hst1]]].
      apply (IH st1 Hsorted); [ | | | exact Hloop].
      * rewrite Ht1. exact Hord.
      * rewrite Ht1. exact Hpast'.
      * intros pos1 Hpos1. rewrite Ht1. destruct entry as [e | ].
        -- destruct Hst1 as [Hp1 _]. assert (pos1 = e) by congruence. subst pos1.
           rewrite (Hentry _ He). split; [exact Hb | exact Hpast_b].
        -- destruct Hst1 as [Hp1 _]. congruence.
Qed.
End TradeLog.

Lemma force_close_inv (tkr : string) (w : DataFrame) (st st' : SimState) :
  force_close tkr w st = Ok st' ->
  match position st with
  | None => st' = st
  | Some pos =>
      exists lastb,
        last_opt w = Some lastb
        /\ trades st'
           = trades st
             ++ [trade_of tkr pos (Date lastb) (Close lastb) "END_OF_DATA"]
        /\ cash st' = cash st + shares st * Close lastb
  end.
Proof.
  unfold force_close. destruct (position st) as [pos | ].
  - destruct (last_opt w) as [lastb | ]; [ | discriminate].
    intros E. injection E as <-. exists lastb. cbn. auto.
  - intros E. injection E as <-. reflexivity.
Qed.

(** Every trade of a run is booked under the simulated ticker with
    derived fields that agree with its dates and prices. *)
Lemma simulate_state_booked (S : Type) (H : BaseScanner S) one_year_before
    (engine : SimulationEngine S) tkr ohlcv fundamentals start_date end_date w st :
  simulate_state one_year_before engine tkr ohlcv fundamentals start_date end_date
  = Ok (w, st) ->
  Forall (booked tkr) (trades st).
Proof.
  intros Hrun. apply simulate_state_inv in Hrun.
  destruct Hrun as [a [st1 [_ [_ [Hloop Hfc]]]]].
  assert (Hb1 : Forall (booked tkr) (trades st1)).
  { eapply day_loop_booked; [ | exact Hloop]. constructor. }
  apply force_close_inv in Hfc. destruct (position st1) as [pos | ].
  - destruct Hfc as [lastb [_ [-> _]]]. apply Forall_app.
    split; [exact Hb1 | constructor; [apply booked_trade_of | constructor]].
  - subst st. exact Hb1.
Qed.

(** X10. The trade log of a single-ticker run is in order and without
    overlap: on a frame with strictly ascending dates and a scanner that
    dates its signals, every trade is closed before the next one is
    entered; every trade is filed under the simulated ticker, and its
    [hold_days] is its exit date minus its entry date and is never
    negative. *)
Theorem trade_log_in_order
    (S : Type) (H : BaseScanner S) (HD : DatedScanner S)
    (one_year_before : Timestamp -> Timestamp) (engine : SimulationEngine S)
    (tkr : string) (ohlcv : DataFrame) (fundamentals : Series)
    (start_date end_date : option Timestamp) (w : DataFrame) (st : SimState) :
  StronglySorted Z.lt (index ohlcv) ->
  simulate_state one_year_before engine tkr ohlcv fundamentals start_date end_date
  = Ok (w, st) ->
  StronglySorted closed_before (trades st)
  /\ Forall (filed tkr) (trades st)
  /\ Forall (fun t => (0 <= hold_days t)%Z) (trades st).
Proof.
  intros Hsorted Hrun.
  assert (Hbooked : Forall (filed tkr) (trades st)).
  { eapply Forall_impl;
      [ | exact (@simulate_state_booked _ _ _ _ _ _ _ _ _ _ _ Hrun)].
    intros t [Ht [Hh _]]. split; assumption. }
  apply simulate_state_inv in Hrun.
  destruct Hrun as [a [st1 [Hw [Ha [Hloop Hfc]]]]].
  destruct (sim_window_inv _ _ _ _ Hw) as [s [e ->]].
  assert (Hws : StronglySorted Z.lt (map Date (loc_between ohlcv s e)))
    by (apply sorted_filter; exact Hsorted).
  set (w := loc_between ohlcv s e) in *.
  assert (Hen : forall d x, check_entry_signal a tkr ohlcv fundamentals d = Ok (Some x) ->
                            es_date x = d).
  { intros d x Hx. eapply entry_dated; [exact Ha | exact Hx]. }
  assert (Hex : forall p d x, check_exit_signal a tkr ohlcv p d = Ok (Some x) ->
                              xs_date x = d).
  { intros p d x Hx. eapply exit_dated; exact Hx. }
  assert (Hord : StronglySorted closed_before (trades st1)
                 /\ (forall pos, position st1 = Some pos ->
                       Forall (fun t => (exit_date t < es_date pos)%Z) (trades st1))).
  { eapply (@day_loop_in_order S H engine tkr ohlcv fundamentals a Hen Hex)
      with (days := w) (st := init_state engine).
    - exact Hws.
    - constructor.
    - constructor.
    - intros pos Hpos. discriminate.
    - exact Hloop. }
  destruct Hord as [Hord Hbefore].
  assert (Hclosed : Forall closes_later (trades st1)).
  { eapply (@day_loop_trades S H engine tkr ohlcv fundamentals a Hen Hex)
      with (days := w) (st := init_state engine).
    - exact Hws.
    - constructor.
    - intros pos Hpos. discriminate.
    - exact Hloop. }
  assert (Hlater : Forall (fun t => (entry_date t <= exit_date t)%Z) (trades st)
                   /\ StronglySorted closed_before (trades st)).
  { apply force_close_inv in Hfc. destruct (position st1) as [pos | ] eqn:Hpos.
    - destruct Hfc as [lastb [Hlast [Ht _]]]. rewrite Ht. split.
      + apply Forall_app. split.
        * eapply Forall_impl; [ | exact Hclosed]. unfold closes_later.
          intros t Ht0. lia.
        * constructor; [ | constructor]. unfold trade_of. cbn [entry_date exit_date].
          apply (sorted_le_last (l := map Date w)); [exact Hws | | ].
          -- eapply (@day_loop_entered S H engine tkr ohlcv fundamentals a Hen)
               with (st' := st1); [exact Hloop | exact Hpos].
          -- rewrite last_opt_map, Hlast. reflexivity.
      + apply StronglySorted_snoc; [exact Hord | ].
        eapply Forall_impl; [ | exact (Hbefore pos eq_refl)]. cbv beta.
        intros t Ht0. unfold closed_before, trade_of. cbn. exact Ht0.
    - subst st. split; [ | exact Hord].
      eapply Forall_impl; [ | exact Hclosed]. unfold closes_later.
      intros t Ht0. lia. }
  destruct Hlater as [Hlater Hfinal].
  split; [exact Hfinal | ]. split; [exact Hbooked | ].
  rewrite Forall_forall in *. intros t Ht.
  destruct (Hbooked t Ht) as [_ Hhold]. specialize (Hlater t Ht).
  rewrite Hhold. unfold Timestamp in *. lia.
Qed.

Lemma trade_log_in_order_witness :
  exists w st,
    RunSample.run = Ok (w, st)
    /\ map entry_date (trades st) = [144; 175]%Z
    /\ map exit_date (trades st) = [174; 183]%Z
    /\ StronglySorted closed_before (trades st).
Proof.
  eexists. eexists. split; [vm_compute; reflexivity | ].
  split; [vm_compute; reflexivity | ].
  split; [vm_compute; reflexivity | ].
  refine (proj1 (@trade_log_in_order _ _ EntryPointScanner_dated
                   RunSample.back RunSample.engine "UP" (Sample.rising 130) []
                   None None _ _ _ _)).
  - apply ascending_sound. vm_compute. reflexivity.
  - vm_compute. reflexivity.
Defined.

Lemma booked_win (tkr : string) (t : Trade) :
  booked tkr t -> 0 < entry_price t -> is_win t = true ->
  entry_price t < exit_price t.
Proof.
  intros [_ [_ Hret]] Hpos Hwin.
  unfold is_win, Qgtb in Hwin. apply Qltb_lt in Hwin. rewrite Hret in Hwin.
  apply Qnot_le_lt. intros Hle.
  assert (Hneg : (exit_price t - entry_price t) / entry_price t * 100 <= inject_Z 0).
  { change (inject_Z 0) with 0.
    assert (Hdiv : (exit_price t - entry_price t) / entry_price t <= 0).
    { apply Qle_shift_div_r; [exact Hpos | ]. lra. }
    lra. }
  pose proof (py_round_le 2 Hneg) as Hround.
  change (inject_Z 0) with 0 in Hround. lra.
Qed.

(** X11. A winning trade of a single-ticker run made money: when the
    entry price is positive, [is_win] implies an exit price above the
    entry price.  (The converse fails: a gain that rounds to 0.00 percent
    is no win.) *)
Theorem win_means_higher_exit
    (S : Type) (H : BaseScanner S)
    (one_year_before : Timestamp -> Timestamp) (engine : SimulationEngine S)
    (tkr : string) (ohlcv : DataFrame) (fundamentals : Series)
    (start_date end_date : option Timestamp) (w : DataFrame) (st : SimState) :
  simulate_state one_year_before engine tkr ohlcv fundamentals start_date end_date
  = Ok (w, st) ->
  Forall (fun t => 0 < entry_price t -> is_win t = true ->
                   entry_price t < exit_price t) (trades st).
Proof.
  intros Hrun.
  eapply Forall_impl; [ | exact (@simulate_state_booked _ _ _ _ _ _ _ _ _ _ _ Hrun)].
  intros t Ht. apply (booked_win Ht).
Qed.

Lemma win_means_higher_exit_witness :
  exists w st,
    RunSample.run = Ok (w, st)
    /\ map is_win (trades st) = [true; true]
    /\ Forall (fun t => 0 < entry_price t -> is_win t = true ->
                        entry_price t < exit_price t) (trades st).
Proof.
  eexists. eexists. split; [vm_compute; reflexivity | ].
  split; [vm_compute; reflexivity | ].
  refine (@win_means_higher_exit _ _ RunSample.back RunSample.engine "UP"
            (Sample.rising 130) [] None None _ _ _).
  vm_compute. reflexivity.
Defined.

(** A position entered at 100000 and closed at 100001 gained 0.001
    percent, booked as 0.00: the trade is no win. *)
Example tiny_gain_is_no_win :
  let t := trade_of "UP" (mkEntrySignal 0%Z 100000 "BUY" []) 1%Z 100001 "TIME_EXIT" in
  entry_price t < exit_price t /\ return_pct t == 0 /\ is_win t = false.
Proof. cbv zeta. split; [reflexivity | split; [reflexivity | reflexivity]]. Qed.

(* ------------------------------------------------------------------ *)
(** ** Cash of the single-ticker engine *)

(** Factor by which a trade changes the capital when the fraction [ps] of
    it is invested. *)
Definition growth (ps : Q) (t : Trade) : Q :=
  1 + ps * ((exit_price t - entry_price t) / entry_price t).

(** The trades' factors compounded. *)
Definition compound (ps : Q) (ts : list Trade) : Q :=
  fold_left (fun acc t => acc * growth ps t) ts 1.

Lemma compound_snoc (ps : Q) (ts : list Trade) (t : Trade) :
  compound ps (ts ++ [t]) = compound ps ts * growth ps t.
Proof. unfold compound. rewrite fold_left_app. reflexivity. Qed.

(** Cash and shares in terms of the trade log, as long as no entry price
    is zero. *)
Definition cash_inv (S : Type) (engine : SimulationEngine S) (st : SimState)
    : Prop :=
  Forall (fun t => ~ entry_price t == 0) (trades st) ->
  let cb := initial_capital engine * compound (position_size engine) (trades st) in
  match position st with
  | None => cash st == cb
  | Some pos =>
      ~ es_price pos == 0 ->
      cash st == cb * (1 - position_size engine)
      /\ shares st == cb * position_size engine / es_price pos
  end.

Section Cash.
Context {S : Type} `{BaseScanner S}.
Variable engine : SimulationEngine S.
Variable tkr : string.
Variable ohlcv : DataFrame.
Variable fundamentals : Series.
Variable a : S.

Lemma day_step_cash (st st' : SimState) (bar : Bar) :
  day_step engine tkr ohlcv fundamentals a st bar = Ok st' ->
  cash_inv engine st -> cash_inv engine st'.
Proof.
  intros Hstep Hinv. apply day_step_inv in Hstep.
  unfold cash_inv in *. destruct (position st) as [pos | ].
  - destruct Hstep as [[x | ] [_ Hst']].
    + destruct Hst' as [-> [Ht Hc]]. rewrite Ht. intros Hnz.
      apply Forall_app in Hnz. destruct Hnz as [Hnz Hnzt].
      apply Forall_cons_iff in Hnzt. destruct Hnzt as [Hnzt _].
      unfold trade_of in Hnzt. cbn [entry_price] in Hnzt.
      destruct (Hinv Hnz Hnzt) as [Hcash Hshares].
      cbv zeta. rewrite Hc, compound_snoc, Hcash, Hshares.
      unfold growth, trade_of. cbn [entry_price exit_price].
      field. exact Hnzt.
    + destruct Hst' as [-> [-> [-> ->]]]. exact Hinv.
  - destruct Hstep as [[e | ] [_ [-> Hst']]].
    + destruct Hst' as [-> [Hsh Hc]]. intros Hnz Hnze.
      specialize (Hinv Hnz). cbv zeta in Hinv.
      rewrite Hc, Hsh, Hinv. split; [field; exact Hnze | reflexivity].
    + destruct Hst' as [-> ->]. exact Hinv.
Qed.

Lemma day_loop_cash (days : DataFrame) (st st' : SimState) :
  day_loop engine tkr ohlcv fundamentals a st days = Ok st' ->
  cash_inv engine st -> cash_inv engine st'.
Proof.
  revert st. induction days as [ | b days IH]; intros st Hloop Hinv;
    cbn [day_loop] in Hloop.
  - injection Hloop as <-. exact Hinv.
  - apply bind_Ok_inv in Hloop. destruct Hloop as [st1 [Hstep Hloop]].
    apply (IH st1 Hloop). exact (@day_step_cash st st1 b Hstep Hinv).
Qed.
End Cash.

(** X12. The final cash of a single-ticker run is the initial capital
    compounded by its trades (exact arithmetic): each trade multiplies the
    capital by one plus the invested fraction times its price return,
    provided no trade has entry price zero.  The engine charges no cost and
    loses no money between trades. *)
Theorem final_cash_compounds
    (S : Type) (H : BaseScanner S)
    (one_year_before : Timestamp -> Timestamp) (engine : SimulationEngine S)
    (tkr : string) (ohlcv : DataFrame) (fundamentals : Series)
    (start_date end_date : option Timestamp) (w : DataFrame) (st : SimState) :
  simulate_state one_year_before engine tkr ohlcv fundamentals start_date end_date
  = Ok (w, st) ->
  Forall (fun t => ~ entry_price t == 0) (trades st) ->
  cash st == initial_capital engine * compound (position_size engine) (trades st).
Proof.
  intros Hrun Hnz. apply simulate_state_inv in Hrun.
  destruct Hrun as [a [st1 [_ [_ [Hloop Hfc]]]]].
  assert (Hinv : cash_inv engine st1).
  { apply (@day_loop_cash _ _ engine tkr ohlcv fundamentals a _ _ _ Hloop).
    unfold cash_inv. cbn. intros _. ring. }
  apply force_close_inv in Hfc. unfold cash_inv in Hinv.
  destruct (position st1) as [pos | ].
  - destruct Hfc as [lastb [_ [Ht Hc]]]. rewrite Ht in Hnz |- *.
    apply Forall_app in Hnz. destruct Hnz as [Hnz Hnzt].
    apply Forall_cons_iff in Hnzt. destruct Hnzt as [Hnzt _].
    unfold trade_of in Hnzt. cbn [entry_price] in Hnzt.
    destruct (Hinv Hnz Hnzt) as [Hcash Hshares].
    rewrite Hc, compound_snoc, Hcash, Hshares.
    unfold growth, trade_of. cbn [entry_price exit_price].
    field. exact Hnzt.
  - subst st. apply Hinv. exact Hnz.
Qed.

Lemma final_cash_compounds_witness :
  exists w st,
    RunSample.run = Ok (w, st)
    /\ map entry_price (trades st) = [1100; 1123]
    /\ map exit_price (trades st) = [1122; 1129]
    /\ cash st == 100000 * ((1122 # 1100) * (1129 # 1123))
    /\ cash st
       == initial_capital RunSample.engine
          * compound (position_size RunSample.engine) (trades st).
Proof.
  eexists. eexists. split; [vm_compute; reflexivity | ].
  split; [vm_compute; reflexivity | ].
  split; [vm_compute; reflexivity | ].
  split; [vm_compute; reflexivity | ].
  refine (@final_cash_compounds _ _ RunSample.back RunSample.engine "UP"
            (Sample.rising 130) [] None None _ _ _ _).
  - vm_compute. reflexivity.
  - repeat (constructor; [intros Hq; vm_compute in Hq; discriminate | ]).
    constructor.
Defined.

(* ------------------------------------------------------------------ *)
(** ** Summary statistics ([SimulationEngine._build_result]) *)

Section DictLookup.
Variables K V : Type.
Variable eqb : K -> K -> bool.
Hypothesis eqb_spec : forall x y, reflect (x = y) (eqb x y).

Lemma dict_get_set (k k0 : K) (v : V) (d : list (K * V)) :
  dict_get eqb k (dict_set eqb k0 v d)
  = if eqb k k0 then Some v else dict_get eqb k d.
Proof.
  induction d as [ | [k' v'] d IH]; cbn [dict_set dict_get]; [reflexivity | ].
  destruct (eqb_spec k0 k') as [<- | Hne]; cbn [dict_get].
  - destruct (eqb k k0); reflexivity.
  - rewrite IH. destruct (eqb_spec k k') as [<- | Hne'];
      [ | reflexivity].
    destruct (eqb_spec k k0) as [Heq | _]; [congruence | reflexivity].
Qed.
End DictLookup.

(** [d.get(k, 0)] *)
Definition get0 (k : string) (d : list (string * nat)) : nat :=
  match dict_get String.eqb k d with Some n => n | None => 0 end.

(** Number of trades closed for [reason]. *)
Definition count_reason (reason : string) (ts : list Trade) : nat :=
  length (filter (fun t => String.eqb reason (exit_reason t)) ts).

Definition total (d : list (string * nat)) : nat :=
  fold_right (fun kv acc => (snd kv + acc)%nat) 0%nat d.

Lemma get0_count_exit (reason : string) (acc : list (string * nat)) (t : Trade) :
  get0 reason (count_exit acc t)
  = (get0 reason acc + if String.eqb reason (exit_reason t) then 1 else 0)%nat.
Proof.
  unfold count_exit, get0.
  rewrite (@dict_get_set _ _ String.eqb string_eqb_reflect).
  destruct (String.eqb_spec reason (exit_reason t)) as [-> | Hne]; [reflexivity | lia].
Qed.

Lemma get0_fold_count_exit (reason : string) (ts : list Trade)
    (acc : list (string * nat)) :
  get0 reason (fold_left count_exit ts acc)
  = (get0 reason acc + count_reason reason ts)%nat.
Proof.
  unfold count_reason. revert acc.
  induction ts as [ | t ts IH]; intros acc; cbn [fold_left filter length]; [lia | ].
  rewrite IH, get0_count_exit.
  destruct (String.eqb reason (exit_reason t)); cbn [length]; lia.
Qed.

Lemma total_dict_set (k : string) (d : list (string * nat)) :
  total (dict_set String.eqb k (get0 k d + 1)%nat d) = (total d + 1)%nat.
Proof.
  unfold get0. induction d as [ | [k' v'] d IH]; cbn [dict_set dict_get total fold_right snd].
  - lia.
  - destruct (String.eqb k k'); cbn [total fold_right snd].
    + lia.
    + fold (total d). fold (total (dict_set String.eqb k
        (match dict_get String.eqb k d with Some n => n | None => 0 end + 1)%nat d)).
      rewrite IH. lia.
Qed.

Lemma total_fold_count_exit (ts : list Trade) (acc : list (string * nat)) :
  total (fold_left count_exit ts acc) = (total acc + length ts)%nat.
Proof.
  revert acc. induction ts as [ | t ts IH]; intros acc; cbn [fold_left length]; [lia | ].
  rewrite IH. unfold count_exit.
  pose proof (total_dict_set (exit_reason t) acc) as Ht. unfold get0 in Ht.
  rewrite Ht. lia.
Qed.

Lemma count_exit_NoDup (ts : list Trade) (acc : list (string * nat)) :
  NoDup (dict_keys acc) -> NoDup (dict_keys (fold_left count_exit ts acc)).
Proof.
  revert acc. induction ts as [ | t ts IH]; intros acc Hnd; cbn [fold_left];
    [exact Hnd | ].
  apply IH. unfold count_exit. apply dict_set_NoDup; auto using string_eqb_reflect.
Qed.

(** X13. The exit breakdown of a result counts the trade log: each reason
    is listed once with the number of trades closed for it, a reason
    without trades is absent, and the counts add up to [num_trades], the
    number of trades. *)
Theorem build_result_exit_breakdown (tkr : string) (ts : list Trade)
    (rows : list EquityRow) (n : nat) :
  let r := _build_result tkr ts rows n in
  num_trades r = length ts
  /\ NoDup (dict_keys (exit_breakdown r))
  /\ (forall reason,
        dict_get String.eqb reason (exit_breakdown r)
        = match count_reason reason ts with
          | O => None
          | k => Some k
          end)
  /\ total (exit_breakdown r) = num_trades r.
Proof.
  cbv zeta.
  assert (Hshape : exit_breakdown (_build_result tkr ts rows n)
                   = fold_left count_exit ts []
                   /\ num_trades (_build_result tkr ts rows n) = length ts).
  { unfold _build_result. destruct ts; split; reflexivity. }
  destruct Hshape as [-> ->].
  split; [reflexivity | ]. split; [apply count_exit_NoDup; constructor | ].
  split; [ | apply (total_fold_count_exit ts [])].
  intros reason.
  pose proof (get0_fold_count_exit reason ts []) as Hget.
  unfold get0 in Hget at 2. cbn [dict_get] in Hget. cbn [Nat.add] in Hget.
  assert (Hpos : forall k, dict_get String.eqb reason (fold_left count_exit ts [])
                           = Some k -> (0 < k)%nat).
  { clear Hget. intros k.
    assert (Hgen : forall acc,
               Forall (fun kv => (0 < snd kv)%nat) acc ->
               Forall (fun kv => (0 < snd kv)%nat) (fold_left count_exit ts acc)).
    { induction ts as [ | t ts' IH]; intros acc Hacc; cbn [fold_left]; [exact Hacc | ].
      apply IH. unfold count_exit.
      generalize (match dict_get String.eqb (exit_reason t) acc with
                  | Some n0 => n0 | None => 0%nat end).
      intros m. induction acc as [ | [k' v'] acc IHacc]; cbn [dict_set].
      - constructor; [cbn; lia | constructor].
      - apply Forall_cons_iff in Hacc. destruct Hacc as [Hk Hacc].
        destruct (String.eqb (exit_reason t) k').
        + constructor; [cbn; lia | exact Hacc].
        + constructor; [exact Hk | apply IHacc; exact Hacc]. }
    specialize (Hgen [] (Forall_nil _)).
    generalize dependent (fold_left count_exit ts []). intros d Hd.
    induction d as [ | [k' v'] d IHd]; cbn [dict_get]; [discriminate | ].
    apply Forall_cons_iff in Hd. destruct Hd as [Hk Hd].
    destruct (String.eqb reason k'); [ | apply IHd; exact Hd].
    intros E. injection E as <-. exact Hk. }
  unfold get0 in Hget.
  destruct (dict_get String.eqb reason (fold_left count_exit ts [])) as [k | ] eqn:Hk.
  - specialize (Hpos k eq_refl). rewrite <- Hget.
    destruct k; [lia | reflexivity].
  - rewrite <- Hget. reflexivity.
Qed.

Lemma fold_Qmax2_ge (r : list Q) (x : Q) :
  x <= fold_left Qmax2 r x /\ Forall (fun y => y <= fold_left Qmax2 r x) r.
Proof.
  revert x. induction r as [ | y r IH]; intros x; cbn [fold_left].
  - split; [apply Qle_refl | constructor].
  - destruct (IH (Qmax2 x y)) as [H1 H2]. split.
    + eapply Qle_trans; [apply Qmax2_l | exact H1].
    + constructor; [eapply Qle_trans; [apply Qmax2_r | exact H1] | exact H2].
Qed.

Lemma list_max_ge (l : list Q) (m x : Q) :
  list_max l = Some m -> In x l -> x <= m.
Proof.
  destruct l as [ | y r]; [discriminate | ]. cbn [list_max].
  intros E. injection E as <-.
  destruct (fold_Qmax2_ge r y) as [H1 H2]. intros [<- | Hin]; [exact H1 | ].
  rewrite Forall_forall in H2. apply H2, Hin.
Qed.

Lemma fold_Qmin2_bounds (lo : Q) (r : list Q) (x : Q) :
  lo <= x -> Forall (fun y => lo <= y) r ->
  lo <= fold_left Qmin2 r x /\ fold_left Qmin2 r x <= x.
Proof.
  revert x. induction r as [ | y r IH]; intros x Hx Hr; cbn [fold_left].
  - split; [exact Hx | apply Qle_refl].
  - apply Forall_cons_iff in Hr. destruct Hr as [Hy Hr].
    assert (Hm : lo <= Qmin2 x y)
      by (unfold Qmin2; destruct (Qltb y x); assumption).
    destruct (IH (Qmin2 x y) Hm Hr) as [H1 H2]. split; [exact H1 | ].
    eapply Qle_trans; [exact H2 | apply Qmin2_l].
Qed.

(** Each value of a positive column is paired with a running maximum that
    is defined and at least the value. *)
Lemma expanding_max_pairs (xs : list Q) :
  Forall (fun x => 0 < x) xs ->
  Forall (fun p => exists m, snd p = Some m /\ fst p <= m /\ 0 < fst p)
         (combine xs (expanding_max xs)).
Proof.
  intros Hpos. apply Forall_forall. intros [x o] Hin.
  destruct (In_nth _ _ ((0, None) : Q * option Q) Hin) as [i [Hi Hnth]].
  assert (Hlen : length (expanding_max xs) = length xs)
    by (unfold expanding_max; rewrite length_map, length_seq; reflexivity).
  rewrite length_combine, Hlen, Nat.min_id in Hi.
  rewrite combine_nth in Hnth by (symmetry; exact Hlen).
  injection Hnth as Hx Ho.
  change (iloc (expanding_max xs) i = o) in Ho.
  rewrite iloc_expanding_max in Ho by exact Hi.
  assert (Hin_x : In x (firstn (S i) xs)).
  { assert (E : nth i (firstn (S i) xs) 0 = nth i xs 0).
    { rewrite nth_firstn.
      replace (i <? S i)%nat with true by (symmetry; apply Nat.ltb_lt; lia).
      reflexivity. }
    rewrite <- Hx, <- E. apply nth_In. rewrite length_firstn. lia. }
  destruct (list_max (firstn (S i) xs)) as [m | ] eqn:Hm.
  - subst o. exists m. cbn [fst snd]. split; [reflexivity | ].
    split; [apply (@list_max_ge _ _ _ Hm Hin_x) | ].
    rewrite Forall_forall in Hpos. apply Hpos. rewrite <- Hx.
    apply nth_In. exact Hi.
  - destruct (firstn (S i) xs); [contradiction | discriminate].
Qed.

Lemma max_drawdown_range (equity : list Q) :
  equity <> [] -> Forall (fun x => 0 < x) equity ->
  - (100) <= max_drawdown equity /\ max_drawdown equity <= 0.
Proof.
  intros Hne Hpos. unfold max_drawdown.
  set (g := fun p : Q * option Q =>
              match snd p with
              | Some m => (fst p - m) / m * 100
              | None => 0
              end).
  assert (Hall : Forall (fun v => - (100) <= v /\ v <= 0)
                   (map g (combine equity (expanding_max equity)))).
  { apply Forall_map. eapply Forall_impl; [ | apply expanding_max_pairs, Hpos].
    intros [x o] [m [Ho [Hle Hx]]]. cbn [fst snd] in *. subst o.
    unfold g. cbn [fst snd].
    assert (Hm : 0 < m) by lra.
    assert (H1 : - (1) <= (x - m) / m)
      by (apply Qle_shift_div_l; [exact Hm | lra]).
    assert (H2 : (x - m) / m <= 0)
      by (apply Qle_shift_div_r; [exact Hm | lra]).
    lra. }
  assert (Hlen : length (map g (combine equity (expanding_max equity)))
                 = length equity).
  { rewrite length_map, length_combine. unfold expanding_max.
    rewrite length_map, length_seq. apply Nat.min_id. }
  destruct (map g (combine equity (expanding_max equity))) as [ | v r].
  - destruct equity; [contradiction | discriminate].
  - apply Forall_cons_iff in Hall. destruct Hall as [[Hv1 Hv2] Hr].
    cbn [list_min_or].
    assert (Hr' : Forall (fun y => - (100) <= y) r)
      by (eapply Forall_impl; [ | exact Hr]; cbv beta; tauto).
    destruct (@fold_Qmin2_bounds _ r v Hv1 Hr') as [H1 H2].
    split; [exact H1 | lra].
Qed.

Lemma Qnat_pos (n : nat) : (0 < n)%nat -> 0 < Qnat n.
Proof.
  intros Hn. unfold Qnat. change 0 with (inject_Z 0). rewrite <- Zlt_Qlt. lia.
Qed.

Lemma Qnat_le (n m : nat) : (n <= m)%nat -> Qnat n <= Qnat m.
Proof. intros Hn. unfold Qnat. rewrite <- Zle_Qle. lia. Qed.

(** X14. The percentages of a result stay in range: the win rate lies
    between 0 and 100, and on an equity curve with positive equity the
    maximum drawdown lies between -100 and 0.  Rounding does not take
    them out of range. *)
Theorem build_result_stats_in_range (tkr : string) (ts : list Trade)
    (rows : list EquityRow) (n : nat) :
  rows <> [] -> Forall (fun r => 0 < eq_equity r) rows ->
  let r := _build_result tkr ts rows n in
  0 <= win_rate r /\ win_rate r <= 100
  /\ - (100) <= max_drawdown_pct r /\ max_drawdown_pct r <= 0.
Proof.
  intros Hne Hpos. cbv zeta. unfold _build_result.
  destruct ts as [ | t ts'].
  - cbn. repeat split; discriminate.
  - set (ts := t :: ts'). cbn [win_rate max_drawdown_pct].
    assert (Hn : 0 < Qnat (length ts)) by (apply Qnat_pos; cbn; lia).
    assert (Hw0 : 0 <= Qnat (length (filter is_win ts)))
      by (apply (Qnat_le (n := 0)); lia).
    assert (Hw1 : Qnat (length (filter is_win ts)) <= Qnat (length ts))
      by (apply Qnat_le, filter_length_le).
    assert (Hq0 : 0 <= Qnat (length (filter is_win ts)) / Qnat (length ts))
      by (apply Qle_shift_div_l; [exact Hn | lra]).
    assert (Hq1 : Qnat (length (filter is_win ts)) / Qnat (length ts) <= 1)
      by (apply Qle_shift_div_r; [exact Hn | lra]).
    assert (Heq : map eq_equity rows <> []).
    { intros E. apply map_eq_nil in E. contradiction. }
    assert (Hpe : Forall (fun x => 0 < x) (map eq_equity rows))
      by (apply Forall_map; exact Hpos).
    destruct (@max_drawdown_range _ Heq Hpe) as [Hd1 Hd2].
    split; [apply (@py_round_ge _ 1 0); change (inject_Z 0) with 0; lra | ].
    split; [apply (@py_round_le _ 1 100); change (inject_Z 100) with 100; lra | ].
    split.
    + change (- (100)) with (inject_Z (-100)).
      apply (@py_round_ge _ 2 (-100)). exact Hd1.
    + apply (@py_round_le _ 2 0). exact Hd2.
Qed.

Module StatsSample.
(** A losing and a winning trade. *)
Definition log : list Trade :=
  [trade_of "UP" (mkEntrySignal 0%Z 100 "BUY" []) 5%Z 90 "STOP_LOSS";
   trade_of "UP" (mkEntrySignal 6%Z 90 "BUY" []) 9%Z 99 "TIME_EXIT"].

(** Equity 1000, down to 900, back up to 990. *)
Definition curve : list EquityRow :=
  [mkEquityRow 0%Z 1000 1000 0; mkEquityRow 5%Z 900 0 900;
   mkEquityRow 9%Z 990 0 990].
End StatsSample.

Lemma build_result_stats_in_range_witness :
  let r := _build_result "UP" StatsSample.log StatsSample.curve 3 in
  win_rate r == 50 /\ max_drawdown_pct r == - (10)
  /\ 0 <= win_rate r /\ win_rate r <= 100
  /\ - (100) <= max_drawdown_pct r /\ max_drawdown_pct r <= 0.
Proof.
  cbv zeta. split; [vm_compute; reflexivity | ].
  split; [vm_compute; reflexivity | ].
  refine (@build_result_stats_in_range "UP" StatsSample.log StatsSample.curve 3 _ _).
  - discriminate.
  - repeat (constructor; [reflexivity | ]). constructor.
Defined.

(* ------------------------------------------------------------------ *)
(** ** The position limit of the portfolio engine *)

Lemma dict_set_length_le (K V : Type) (eqb : K -> K -> bool) (k : K) (v : V)
    (d : list (K * V)) :
  (length (dict_set eqb k v d) <= S (length d))%nat.
Proof.
  induction d as [ | [k' v'] d IH]; cbn [dict_set length]; [lia | ].
  destruct (eqb k k'); cbn [length]; lia.
Qed.

(** The book holds at most [max_positions] positions (none when the limit
    is negative). *)
Definition within_limit (S : Type) (engine : Portfolio.PortfolioEngine S)
    (n : nat) : Prop :=
  (Z.of_nat n <= Z.max 0 (Portfolio.max_positions engine))%Z.

Section PositionLimit.
Context {S : Type} `{BaseScanner S}.
Variable engine : Portfolio.PortfolioEngine S.
Variable ohlcv_data : list (string * DataFrame).
Variable fundamentals_data : list (string * Series).
Variable scanner_per_ticker : list (string * S).
Variable valid_tickers : list string.

Lemma open_loop_length (cands : list Portfolio.Candidate) (c : Q)
    (open_positions : list (string * Portfolio.OpenPosition)) :
  (length (snd (Portfolio.open_loop engine cands c open_positions))
   <= length open_positions + length cands)%nat.
Proof.
  revert c open_positions.
  induction cands as [ | x cands IH]; intros c d; cbn [Portfolio.open_loop length snd];
    [lia | ].
  destruct (Qltb _ _); cbn [snd]; [lia | ].
  eapply Nat.le_trans; [apply IH | ].
  pose proof (dict_set_length_le String.eqb (Portfolio.cand_ticker x)
                (Portfolio.mkOpenPosition (Portfolio.cand_ticker x)
                   (Portfolio.cand_entry x)
                   (py_min (Portfolio.position_dollar_size engine) c
                    / es_price (Portfolio.cand_entry x))
                   (py_min (Portfolio.position_dollar_size engine) c
                    / es_price (Portfolio.cand_entry x)
                    * es_price (Portfolio.cand_entry x))) d).
  lia.
Qed.

Lemma close_all_length (ks : list string)
    (open_positions : list (string * Portfolio.OpenPosition)) :
  (length (Portfolio.close_all ks open_positions) <= length open_positions)%nat.
Proof.
  unfold Portfolio.close_all. revert open_positions.
  induction ks as [ | k ks IH]; intros d; cbn [fold_left]; [lia | ].
  eapply Nat.le_trans; [apply IH | apply dict_del_length].
Qed.

Lemma entries_step_limit (d : Timestamp) (c : Q)
    (open_positions : list (string * Portfolio.OpenPosition))
    (c' : Q) (open' : list (string * Portfolio.OpenPosition)) (asked : list string) :
  Portfolio.entries_step engine ohlcv_data fundamentals_data scanner_per_ticker
    valid_tickers d c open_positions = Ok (c', open', asked) ->
  within_limit engine (length open_positions) ->
  within_limit engine (length open').
Proof.
  unfold Portfolio.entries_step, within_limit. intros Hstep Hlim.
  destruct (Z.ltb_spec 0 (Portfolio.max_positions engine
                          - Z.of_nat (length open_positions))) as [Hslots | Hfull];
    cbn [andb] in Hstep.
  - destruct (Qgeb c _).
    + apply bind_Ok_inv in Hstep. destruct Hstep as [[cands asked0] [_ Hstep]].
      injection Hstep as _ <- _. cbn [fst].
      pose proof (open_loop_length
                    (firstn (Z.to_nat (Portfolio.max_positions engine
                                       - Z.of_nat (length open_positions)))
                            (Portfolio.sort_desc cands)) c open_positions) as Hlen.
      rewrite length_firstn in Hlen. lia.
    + injection Hstep as _ <- _. exact Hlim.
  - injection Hstep as _ <- _. exact Hlim.
Qed.

Lemma pf_day_step_limit (st st' : Portfolio.State) (d : Timestamp) :
  Portfolio.day_step engine ohlcv_data fundamentals_data scanner_per_ticker
    valid_tickers st d = Ok st' ->
  within_limit engine (length (Portfolio.open_positions st)) ->
  within_limit engine (length (Portfolio.open_positions st'))
  /\ exists r,
       Portfolio.equity_rows st' = Portfolio.equity_rows st ++ [r]
       /\ Portfolio.row_num_positions r = length (Portfolio.open_positions st').
Proof.
  unfold Portfolio.day_step. intros Hstep Hlim.
  apply bind_Ok_inv in Hstep. destruct Hstep as [[[c1 t1] ks] [_ Hstep]].
  apply bind_Ok_inv in Hstep. destruct Hstep as [[[c2 o2] asked] [Hent Hstep]].
  apply bind_Ok_inv in Hstep. destruct Hstep as [pv [_ Hstep]].
  injection Hstep as <-. cbn [Portfolio.open_positions Portfolio.equity_rows fst snd] in *.
  split.
  - apply (entries_step_limit _ _ _ Hent). unfold within_limit in *.
    pose proof (close_all_length ks (Portfolio.open_positions st)). lia.
  - eexists. split; reflexivity.
Qed.

Lemma pf_day_loop_limit (days : list Timestamp) (st st' : Portfolio.State) :
  Portfolio.day_loop engine ohlcv_data fundamentals_data scanner_per_ticker
    valid_tickers st days = Ok st' ->
  within_limit engine (length (Portfolio.open_positions st)) ->
  Forall (fun r => within_limit engine (Portfolio.row_num_positions r))
         (Portfolio.equity_rows st) ->
  within_limit engine (length (Portfolio.open_positions st'))
  /\ Forall (fun r => within_limit engine (Portfolio.row_num_positions r))
            (Portfolio.equity_rows st').
Proof.
  revert st. induction days as [ | d days IH]; intros st Hloop Hlim Hrows;
    cbn [Portfolio.day_loop] in Hloop.
  - injection Hloop as <-. auto.
  - apply bind_Ok_inv in Hloop. destruct Hloop as [st1 [Hstep Hloop]].
    destruct (pf_day_step_limit _ _ Hstep Hlim) as [Hlim1 [r [Hr Hn]]].
    apply (IH st1 Hloop Hlim1).
    rewrite Hr. apply Forall_app. split; [exact Hrows | ].
    constructor; [rewrite Hn; exact Hlim1 | constructor].
Qed.
End PositionLimit.

(** X15. The portfolio engine never holds more than [max_positions]
    positions: after any number of simulated days the book is within the
    limit, and so is the position count of every row of the equity
    curve. *)
Theorem positions_within_limit (S : Type) (H : BaseScanner S)
    (engine : Portfolio.PortfolioEngine S)
    (ohlcv_data : list (string * DataFrame))
    (fundamentals_data : list (string * Series))
    (scanner_per_ticker : list (string * S)) (valid_tickers : list string)
    (days : list Timestamp) (st : Portfolio.State) :
  Portfolio.day_loop engine ohlcv_data fundamentals_data scanner_per_ticker
    valid_tickers
    (Portfolio.mkState (Portfolio.initial_capital engine) [] [] [] []) days
  = Ok st ->
  within_limit engine (length (Portfolio.open_positions st))
  /\ Forall (fun r => within_limit engine (Portfolio.row_num_positions r))
            (Portfolio.equity_rows st).
Proof.
  intros Hloop.
  apply (@pf_day_loop_limit _ _ _ _ _ _ _ _ _ _ Hloop).
  - unfold within_limit. cbn. lia.
  - constructor.
Qed.

Lemma positions_within_limit_witness :
  exists st,
    Portfolio.day_loop PortfolioSample.engine PortfolioSample.ohlcv_data []
      (fst PortfolioSample.prepared) (snd PortfolioSample.prepared)
      (Portfolio.mkState (Portfolio.initial_capital PortfolioSample.engine)
         [] [] [] [])
      PortfolioSample.calendar = Ok st
    /\ length (Portfolio.open_positions st) = 1%nat
    /\ within_limit PortfolioSample.engine (length (Portfolio.open_positions st)).
Proof.
  eexists. split; [vm_compute; reflexivity | ]. split; [reflexivity | ].
  refine (proj1 (@positions_within_limit _ _ PortfolioSample.engine
                   PortfolioSample.ohlcv_data [] (fst PortfolioSample.prepared)
                   (snd PortfolioSample.prepared) PortfolioSample.calendar _ _)).
  vm_compute. reflexivity.
Defined.

(* ------------------------------------------------------------------ *)
(** ** The calendar of the portfolio engine (phase 2) *)

Lemma insert_date_In (d x : Timestamp) (l : list Timestamp) :
  In d (Portfolio.insert_date x l) <-> d = x \/ In d l.
Proof.
  unfold Timestamp in *.
  induction l as [ | y l IH]; cbn [Portfolio.insert_date In].
  - intuition.
  - destruct (Z.ltb_spec x y) as [Hlt | Hge]; cbn [In]; [intuition | ].
    destruct (Z.eqb_spec x y) as [Heq | Hne]; cbn [In].
    + subst y. intuition.
    + rewrite IH. intuition.
Qed.

Lemma insert_date_sorted (x : Timestamp) (l : list Timestamp) :
  StronglySorted Z.lt l -> StronglySorted Z.lt (Portfolio.insert_date x l).
Proof.
  unfold Timestamp in *.
  induction l as [ | y l IH]; intros Hs; cbn [Portfolio.insert_date].
  - constructor; constructor.
  - pose proof Hs as Hs0. apply StronglySorted_inv in Hs. destruct Hs as [Hl Hy].
    destruct (Z.ltb_spec x y) as [Hlt | Hge].
    + constructor; [exact Hs0 | ]. constructor; [exact Hlt | ].
      eapply Forall_impl; [ | exact Hy]. cbv beta. intros; lia.
    + destruct (Z.eqb_spec x y) as [Heq | Hne]; [exact Hs0 | ].
      constructor; [apply IH; exact Hl | ].
      apply Forall_forall. intros z Hz. apply insert_date_In in Hz.
      destruct Hz as [-> | Hz]; [lia | ].
      rewrite Forall_forall in Hy. apply Hy, Hz.
Qed.

Lemma insert_all_facts (l acc : list Timestamp) :
  StronglySorted Z.lt acc ->
  StronglySorted Z.lt (fold_left (fun a d => Portfolio.insert_date d a) l acc)
  /\ forall d, In d (fold_left (fun a d0 => Portfolio.insert_date d0 a) l acc)
               <-> In d l \/ In d acc.
Proof.
  revert acc. induction l as [ | x l IH]; intros acc Hs; cbn [fold_left In].
  - split; [exact Hs | intuition].
  - destruct (IH _ (insert_date_sorted x Hs)) as [H1 H2]. split; [exact H1 | ].
    intros d. rewrite H2, insert_date_In. intuition.
Qed.

Lemma sorted_union_facts (ls : list (list Timestamp)) :
  StronglySorted Z.lt (Portfolio.sorted_union ls)
  /\ forall d, In d (Portfolio.sorted_union ls) <-> exists l, In l ls /\ In d l.
Proof.
  unfold Portfolio.sorted_union.
  assert (Hgen : forall acc, StronglySorted Z.lt acc ->
            StronglySorted Z.lt
              (fold_left (fun a l => fold_left (fun a0 d => Portfolio.insert_date d a0) l a)
                         ls acc)
            /\ forall d,
                 In d (fold_left
                         (fun a l => fold_left (fun a0 d0 => Portfolio.insert_date d0 a0) l a)
                         ls acc)
                 <-> (exists l, In l ls /\ In d l) \/ In d acc).
  { induction ls as [ | l ls IH]; intros acc Hs; cbn [fold_left].
    - split; [exact Hs | ]. intros d. split; [auto | ].
      intros [[l [[] _]] | Hin]; exact Hin.
    - destruct (insert_all_facts l Hs) as [Hs1 Hin1].
      destruct (IH _ Hs1) as [H1 H2]. split; [exact H1 | ].
      intros d. rewrite H2, Hin1. split.
      + intros [[l0 [Hl0 Hd]] | [Hd | Hd]].
        * left. exists l0. split; [right; exact Hl0 | exact Hd].
        * left. exists l. split; [left; reflexivity | exact Hd].
        * right. exact Hd.
      + intros [[l0 [[<- | Hl0] Hd]] | Hd].
        * right. left. exact Hd.
        * left. exists l0. split; assumption.
        * right. right. exact Hd. }
  destruct (Hgen [] (SSorted_nil _)) as [H1 H2]. split; [exact H1 | ].
  intros d. rewrite H2. split; [intros [Hd | []]; exact Hd | auto].
Qed.

Lemma sorted_filter_Z (p : Z -> bool) (l : list Z) :
  StronglySorted Z.lt l -> StronglySorted Z.lt (filter p l).
Proof.
  induction l as [ | x l IH]; intros Hs; cbn [filter]; [constructor | ].
  apply StronglySorted_inv in Hs. destruct Hs as [Hs Hx].
  destruct (p x); [ | apply IH; exact Hs].
  constructor; [apply IH; exact Hs | ].
  rewrite Forall_forall in *. intros y Hy. apply filter_In in Hy. apply Hx. tauto.
Qed.

(** The ticker has a bar dated [d] among the valid tickers' frames. *)
Definition traded (ohlcv_data : list (string * DataFrame))
    (valid_tickers : list string) (d : Timestamp) : Prop :=
  exists t o, In t valid_tickers
    /\ dict_get String.eqb t ohlcv_data = Some o /\ In d (index o).

(** X16. The calendar the portfolio engine walks is strictly ascending,
    so it has no date twice; every date of it is a bar date of some valid
    ticker; and with both window dates given it holds exactly the bar
    dates of the valid tickers that lie in the window. *)
Theorem calendar_facts (one_year_before : Timestamp -> Timestamp)
    (ohlcv_data : list (string * DataFrame)) (valid_tickers : list string)
    (start_date end_date : option Timestamp) (sim_dates : list Timestamp) :
  Portfolio.calendar one_year_before ohlcv_data valid_tickers start_date end_date
  = Some sim_dates ->
  StronglySorted Z.lt sim_dates
  /\ (forall d, In d sim_dates -> traded ohlcv_data valid_tickers d)
  /\ (forall s e, start_date = Some s -> end_date = Some e ->
        forall d, In d sim_dates
                  <-> (s <= d <= e)%Z /\ traded ohlcv_data valid_tickers d).
Proof.
  unfold Portfolio.calendar.
  destruct valid_tickers as [ | t0 ts0] eqn:Hv; [discriminate | ]. rewrite <- Hv.
  set (frames := map (fun t => match dict_get String.eqb t ohlcv_data with
                               | Some o => index o
                               | None => []
                               end) valid_tickers).
  destruct (sorted_union_facts frames) as [Hsorted Hin].
  assert (Htr : forall d, In d (Portfolio.sorted_union frames)
                          <-> traded ohlcv_data valid_tickers d).
  { intros d. rewrite Hin. unfold frames, traded. split.
    - intros [l [Hl Hd]]. apply in_map_iff in Hl. destruct Hl as [t [Ht Htin]].
      destruct (dict_get String.eqb t ohlcv_data) as [o | ] eqn:Ho;
        [ | subst l; contradiction].
      exists t, o. subst l. auto.
    - intros [t [o [Ht [Ho Hd]]]]. exists (index o). split; [ | exact Hd].
      apply in_map_iff. exists t. rewrite Ho. auto. }
  intros E. injection E as <-. split; [ | split].
  - apply sorted_filter_Z. exact Hsorted.
  - intros d Hd. apply filter_In in Hd. apply Htr. tauto.
  - intros s e -> -> d. rewrite filter_In, Htr, andb_true_iff, !Z.leb_le.
    unfold Timestamp in *. tauto.
Qed.

Lemma calendar_facts_witness :
  exists sim_dates,
    Portfolio.calendar RunSample.back PortfolioSample.ohlcv_data
      PortfolioSample.tickers (Some 144%Z) (Some 150%Z) = Some sim_dates
    /\ sim_dates = [144; 145; 146; 147; 148]%Z
    /\ StronglySorted Z.lt sim_dates.
Proof.
  eexists. split; [vm_compute; reflexivity | ]. split; [reflexivity | ].
  refine (proj1 (@calendar_facts RunSample.back PortfolioSample.ohlcv_data
                   PortfolioSample.tickers (Some 144%Z) (Some 150%Z) _ _)).
  vm_compute. reflexivity.
Defined.

(* ------------------------------------------------------------------ *)
(** ** Preparation of the portfolio engine (phase 1) *)

Section PrepareAll.
Context {S : Type} `{BaseScanner S}.
Variable engine : Portfolio.PortfolioEngine S.
Variable ohlcv_data : list (string * DataFrame).
Variable fundamentals_data : list (string * Series).

(** The ticker has a frame with bars and its preparation returns. *)
Definition usable (t : string) : bool :=
  match dict_get String.eqb t ohlcv_data with
  | Some (b :: o) =>
      match prepare_simulation (Portfolio.scanner engine) t (b :: o)
              (Portfolio.fundamentals_of fundamentals_data t) with
      | Ok _ => true
      | Raise _ => false
      end
  | _ => false
  end.

(** The ticker has a frame with bars, and [scanner_per_ticker] holds the
    scanner prepared on that frame. *)
Definition prepared_for (scanner_per_ticker : list (string * S)) (t : string)
    : Prop :=
  exists o sc,
    dict_get String.eqb t ohlcv_data = Some o /\ o <> []
    /\ dict_get String.eqb t scanner_per_ticker = Some sc
    /\ prepare_simulation (Portfolio.scanner engine) t o
         (Portfolio.fundamentals_of fundamentals_data t) = Ok sc.

Lemma prepare_all_inv (tickers : list string) :
  forall (scanner_per_ticker : list (string * S)) (valid_tickers : list string),
    (forall t, In t valid_tickers -> prepared_for scanner_per_ticker t) ->
    (forall t, In t (dict_keys scanner_per_ticker) -> In t valid_tickers) ->
    let r := Portfolio.prepare_all engine ohlcv_data fundamentals_data tickers
               scanner_per_ticker valid_tickers in
    snd r = valid_tickers ++ filter usable tickers
    /\ (forall t, In t (snd r) -> prepared_for (fst r) t)
    /\ (forall t, In t (dict_keys (fst r)) -> In t (snd r)).
Proof.
  induction tickers as [ | tkr rest IH]; intros spt valid Hprep Hkeys;
    cbn [Portfolio.prepare_all filter].
  - cbv zeta. cbn [fst snd]. rewrite app_nil_r. auto.
  - unfold usable at 1.
    destruct (dict_get String.eqb tkr ohlcv_data) as [[ | b o] | ] eqn:Ho;
      try (apply IH; assumption).
    destruct (prepare_simulation (Portfolio.scanner engine) tkr (b :: o)
                (Portfolio.fundamentals_of fundamentals_data tkr))
      as [sc | err] eqn:Hsc; [ | apply IH; assumption].
    cbv zeta.
    replace (valid ++ tkr :: filter usable rest)
      with ((valid ++ [tkr]) ++ filter usable rest)
      by (rewrite <- app_assoc; reflexivity).
    apply IH.
    + intros t Ht. apply in_app_or in Ht.
      destruct (String.eqb_spec t tkr) as [-> | Hne].
      * exists (b :: o), sc. split; [exact Ho | ]. split; [discriminate | ].
        split; [ | exact Hsc].
        rewrite (@dict_get_set _ _ String.eqb string_eqb_reflect).
        rewrite String.eqb_refl. reflexivity.
      * destruct Ht as [Ht | [Ht | []]]; [ | congruence].
        destruct (Hprep t Ht) as [o' [sc' [Ho' [Hne' [Hget Hp]]]]].
        exists o', sc'. split; [exact Ho' | ]. split; [exact Hne' | ].
        split; [ | exact Hp].
        rewrite (@dict_get_set _ _ String.eqb string_eqb_reflect).
        destruct (String.eqb_spec t tkr); [contradiction | exact Hget].
    + intros t Ht.
      rewrite (@dict_set_keys _ _ String.eqb string_eqb_reflect) in Ht.
      apply in_or_app.
      destruct (dict_mem String.eqb tkr spt).
      * left. apply Hkeys, Ht.
      * apply in_app_or in Ht. destruct Ht as [Ht | Ht]; [left; apply Hkeys, Ht | ].
        right. exact Ht.
Qed.
End PrepareAll.

(** X17. Phase 1 of the portfolio engine keeps, in the order given, the
    requested tickers that have a frame with bars and whose preparation
    returns; every ticker it keeps has its prepared scanner in
    [scanner_per_ticker], prepared on the ticker's own frame, and no other
    ticker has one: the day loop's lookups by valid ticker cannot fail. *)
Theorem prepare_all_valid (S : Type) (H : BaseScanner S)
    (engine : Portfolio.PortfolioEngine S)
    (ohlcv_data : list (string * DataFrame))
    (fundamentals_data : list (string * Series)) (tickers : list string) :
  let r := Portfolio.prepare_all engine ohlcv_data fundamentals_data tickers [] [] in
  snd r = filter (usable engine ohlcv_data fundamentals_data) tickers
  /\ (forall t, In t (snd r) ->
        prepared_for engine ohlcv_data fundamentals_data (fst r) t)
  /\ (forall t, In t (dict_keys (fst r)) -> In t (snd r)).
Proof.
  apply (@prepare_all_inv S H engine ohlcv_data fundamentals_data tickers [] []).
  - intros t [].
  - intros t [].
Qed.

(* ------------------------------------------------------------------ *)
(** ** Equity curves cover the requested window (C5) *)

(** The trading days of [ohlcv] from [s] to [e], in the order of the
    frame. *)
Definition days_between (ohlcv : DataFrame) (s e : Timestamp) : list Timestamp :=
  filter (fun d => (s <=? d)%Z && (d <=? e)%Z) (index ohlcv).

Lemma loc_between_dates (ohlcv : DataFrame) (s e : Timestamp) :
  map Date (loc_between ohlcv s e) = days_between ohlcv s e.
Proof.
  unfold loc_between, days_between, index.
  induction ohlcv as [ | b o IH]; cbn [filter map]; [reflexivity | ].
  destruct ((s <=? Date b)%Z && (Date b <=? e)%Z); cbn [map]; rewrite IH;
    reflexivity.
Qed.

Lemma days_between_In (ohlcv : DataFrame) (s e d : Timestamp) :
  In d (days_between ohlcv s e) <-> In d (index ohlcv) /\ (s <= d <= e)%Z.
Proof.
  unfold days_between. rewrite filter_In, andb_true_iff, !Z.leb_le.
  unfold Timestamp in *. tauto.
Qed.

(** The window of the portfolio calendar: the requested dates, or by
    default the last bar date of the valid tickers and the day one year
    before it; the calendar holds the bar dates of the valid tickers in
    the window, ascending and each once. *)
Lemma calendar_window (one_year_before : Timestamp -> Timestamp)
    (ohlcv_data : list (string * DataFrame)) (valid_tickers : list string)
    (start_date end_date : option Timestamp) :
  (forall t, In t valid_tickers ->
     exists b o, dict_get String.eqb t ohlcv_data = Some (b :: o)) ->
  match Portfolio.calendar one_year_before ohlcv_data valid_tickers
          start_date end_date with
  | None => valid_tickers = []
  | Some ds =>
      StronglySorted Z.lt ds
      /\ exists s e,
           (forall s0, start_date = Some s0 -> s = s0)
           /\ (forall e0, end_date = Some e0 -> e = e0)
           /\ (start_date = None -> s = one_year_before e)
           /\ (end_date = None ->
               traded ohlcv_data valid_tickers e
               /\ forall d, traded ohlcv_data valid_tickers d -> (d <= e)%Z)
           /\ forall d, In d ds
                        <-> (s <= d <= e)%Z /\ traded ohlcv_data valid_tickers d
  end.
Proof.
  intros Hbars. unfold Portfolio.calendar.
  destruct valid_tickers as [ | t0 ts0] eqn:Hv; [reflexivity | ]. rewrite <- Hv in *.
  set (frames := map (fun t => match dict_get String.eqb t ohlcv_data with
                               | Some o => index o
                               | None => []
                               end) valid_tickers).
  destruct (sorted_union_facts frames) as [Hsorted Hin].
  assert (Htr : forall d, In d (Portfolio.sorted_union frames)
                          <-> traded ohlcv_data valid_tickers d).
  { intros d. rewrite Hin. unfold frames, traded. split.
    - intros [l [Hl Hd]]. apply in_map_iff in Hl. destruct Hl as [t [Ht Htin]].
      destruct (dict_get String.eqb t ohlcv_data) as [o | ] eqn:Ho;
        [ | subst l; contradiction].
      exists t, o. subst l. auto.
    - intros [t [o [Ht [Ho Hd]]]]. exists (index o). split; [ | exact Hd].
      apply in_map_iff. exists t. rewrite Ho. auto. }
  set (all_dates := Portfolio.sorted_union frames) in *.
  assert (Hlast : exists e, last_opt all_dates = Some e).
  { apply last_opt_nonempty. intros E.
    destruct (Hbars t0) as [b [o Ho]]; [rewrite Hv; left; reflexivity | ].
    assert (Hd : In (Date b) all_dates).
    { apply Htr. exists t0, (b :: o). split; [rewrite Hv; left; reflexivity | ].
      split; [exact Ho | left; reflexivity]. }
    rewrite E in Hd. contradiction. }
  destruct Hlast as [elast Hlast]. rewrite Hlast.
  split; [apply sorted_filter_Z; exact Hsorted | ].
  exists (match start_date with
          | Some s => s
          | None => one_year_before (match end_date with
                                     | Some e => e
                                     | None => elast
                                     end)
          end),
         (match end_date with Some e => e | None => elast end).
  split; [intros s0 ->; reflexivity | ].
  split; [intros e0 ->; reflexivity | ].
  split; [intros ->; reflexivity | ].
  split.
  - intros ->. split.
    + apply Htr. apply (last_opt_In _ Hlast).
    + intros d Hd. apply Htr in Hd.
      apply (@sorted_le_last all_dates d elast Hsorted Hd Hlast).
  - intros d. rewrite filter_In, Htr, andb_true_iff, !Z.leb_le.
    unfold Timestamp in *. tauto.
Qed.

(** C5. Every run that returns has an equity curve with exactly one row
    per trading day of the requested window, in date order, and
    [total_days] is the number of rows; the last row shows full
    liquidation (position value 0, equity equal to cash), with or without
    forced close.  The window runs from [start_date] to [end_date] where
    the caller gives them, and from the defaults of the engine otherwise.
    Single-ticker engine, on a frame with strictly ascending dates: the
    dates of the rows ascend strictly and are the bar dates of the frame
    that lie in the window -- every such date has its row and no other
    date has one.  Portfolio engine: the dates of the rows ascend
    strictly and are the bar dates, in the window, of the tickers that
    have bars and whose preparation returns. *)
Theorem equity_curve_one_row_per_day (S : Type) (H : BaseScanner S)
    (one_year_before : Timestamp -> Timestamp) :
  (forall (engine : SimulationEngine S) tkr ohlcv fundamentals
          start_date end_date res,
      simulate_ticker one_year_before engine tkr ohlcv fundamentals
        start_date end_date = Ok res ->
      let dates := map eq_date (res_equity_curve res) in
      total_days res = length (res_equity_curve res)
      /\ (exists r, last_opt (res_equity_curve res) = Some r /\ row_liquid r)
      /\ (StronglySorted Z.lt (index ohlcv) ->
          StronglySorted Z.lt dates
          /\ exists s e,
               default_end_date ohlcv end_date = Ok e
               /\ default_start_date one_year_before ohlcv start_date e = Ok s
               /\ (forall s0, start_date = Some s0 -> s = s0)
               /\ (forall e0, end_date = Some e0 -> e = e0)
               /\ dates = days_between ohlcv s e
               /\ (forall d, In d dates
                             <-> In d (index ohlcv) /\ (s <= d <= e)%Z)))
  /\
  (forall (engine : Portfolio.PortfolioEngine S) ohlcv_data fundamentals_data
          tickers start_date end_date res,
      Portfolio.simulate one_year_before engine ohlcv_data fundamentals_data
        tickers start_date end_date = Ok res ->
      let valid := filter (usable engine ohlcv_data fundamentals_data) tickers in
      let dates := map Portfolio.row_date (Portfolio.res_equity_curve res) in
      StronglySorted Z.lt dates
      /\ (exists s e,
            (forall s0, start_date = Some s0 -> s = s0)
            /\ (forall e0, end_date = Some e0 -> e = e0)
            /\ (start_date = None -> s = one_year_before e)
            /\ (end_date = None -> valid <> [] ->
                traded ohlcv_data valid e
                /\ forall d, traded ohlcv_data valid d -> (d <= e)%Z)
            /\ forall d, In d dates
                         <-> (s <= d <= e)%Z /\ traded ohlcv_data valid d)
      /\ Portfolio.total_days res = length (Portfolio.res_equity_curve res)
      /\ (forall r, last_opt (Portfolio.res_equity_curve res) = Some r ->
                    pf_row_liquid r)).
Proof.
  split.
  - intros engine tkr ohlcv fundamentals start_date end_date res Hsim dates.
    unfold simulate_ticker in Hsim.
    apply bind_Ok_inv in Hsim. destruct Hsim as [[w st] [Hrun Hres]].
    cbn [fst snd] in Hres.
    apply simulate_state_inv in Hrun.
    destruct Hrun as [a [st1 [Hw [Ha [Hloop Hfc]]]]].
    destruct (day_loop_rows _ _ _ _ _ _ _ Hloop) as [Hdates _].
    cbn [init_state equity_rows map app] in Hdates.
    assert (Hrows : map eq_date (equity_rows st) = map Date w
                    /\ (equity_rows st <> [] ->
                        exists r, last_opt (equity_rows st) = Some r /\ row_liquid r)).
    { unfold force_close in Hfc.
      destruct (position st1) as [pos | ] eqn:Hpos.
      - destruct (last_opt w); [ | discriminate]. injection Hfc as <-.
        cbn [equity_rows].
        destruct (set_last_row_facts (equity_rows st1)
                    (cash st1 + shares st1 * Close b)) as [Hd Hl].
        split; [congruence | ]. intros Hne. apply Hl.
        intros E. apply Hne. unfold set_last_row. rewrite E. reflexivity.
      - injection Hfc as <-. split; [exact Hdates | ].
        intros Hne. eapply day_loop_liquid; [ | exact Hloop | exact Hpos].
        intros E. subst w. cbn in Hdates.
        apply map_eq_nil in Hdates. contradiction. }
    destruct Hrows as [Hd Hl].
    destruct (equity_rows st) as [ | r0 rows] eqn:Hrows; [discriminate | ].
    injection Hres as <-.
    destruct (build_result_curve tkr (trades st) (r0 :: rows) (length w))
      as [Hcurve Hdays].
    subst dates. rewrite Hcurve, Hdays.
    unfold sim_window in Hw.
    apply bind_Ok_inv in Hw. destruct Hw as [e [He Hw]].
    apply bind_Ok_inv in Hw. destruct Hw as [s [Hs Hw]].
    injection Hw as <-. rewrite loc_between_dates in Hd.
    split.
    { rewrite <- (length_map eq_date), Hd, <- loc_between_dates.
      symmetry. apply length_map. }
    split; [apply Hl; discriminate | ].
    intros Hsorted.
    split; [rewrite Hd; apply sorted_filter_Z; exact Hsorted | ].
    exists s, e. split; [exact He | ]. split; [exact Hs | ].
    split; [intros s0 ->; cbn in Hs; congruence | ].
    split; [intros e0 ->; cbn in He; congruence | ].
    split; [exact Hd | ].
    intros d. rewrite Hd. apply days_between_In.
  - intros engine ohlcv_data fundamentals_data tickers start_date end_date res
      Hsim valid dates.
    destruct (@prepare_all_inv S H engine ohlcv_data fundamentals_data tickers [] []
                (fun t (F : In t []) => match F with end)
                (fun t (F : In t []) => match F with end)) as [Hvalid _].
    cbn [app] in Hvalid. fold valid in Hvalid.
    assert (Hbars : forall t, In t valid ->
              exists b o, dict_get String.eqb t ohlcv_data = Some (b :: o)).
    { intros t Ht. apply filter_In in Ht. destruct Ht as [_ Ht].
      unfold usable in Ht.
      destruct (dict_get String.eqb t ohlcv_data) as [[ | b o] | ];
        try discriminate.
      exists b, o. reflexivity. }
    pose proof (@calendar_window one_year_before ohlcv_data valid
                  start_date end_date Hbars) as Hcal.
    unfold Portfolio.simulate in Hsim. rewrite Hvalid in Hsim.
    assert (Hcurve : match Portfolio.calendar one_year_before ohlcv_data valid
                             start_date end_date with
                     | Some ds => dates = ds
                     | None => dates = []
                     end
                     /\ Portfolio.total_days res
                        = length (Portfolio.res_equity_curve res)
                     /\ (forall r, last_opt (Portfolio.res_equity_curve res) = Some r ->
                                   pf_row_liquid r)).
    { subst dates.
      destruct (Portfolio.calendar one_year_before ohlcv_data valid
                  start_date end_date) as [[ | d ds] | ];
        try (injection Hsim as <-; cbn; repeat split; intros; discriminate).
      apply bind_Ok_inv in Hsim. destruct Hsim as [st [Hrun Hres]].
      injection Hres as <-.
      cbn [Portfolio.res_equity_curve Portfolio.total_days].
      unfold Portfolio.run in Hrun.
      apply bind_Ok_inv in Hrun. destruct Hrun as [st1 [Hloop Hrun]].
      destruct (last_opt (d :: ds)); [ | discriminate].
      apply bind_Ok_inv in Hrun. destruct Hrun as [[c ts] [_ Hrun]].
      injection Hrun as <-. cbn [Portfolio.equity_rows fst].
      destruct (pf_day_loop_facts _ _ _ _ _ _ _ Hloop) as [_ Hdates].
      cbn [Portfolio.equity_rows map app] in Hdates.
      destruct (pf_set_last_row_facts (Portfolio.equity_rows st1) c) as [Hd Hl].
      assert (Hmap : map Portfolio.row_date
                       (Portfolio.set_last_row (Portfolio.equity_rows st1) c)
                     = d :: ds) by congruence.
      split; [exact Hmap | ]. split; [ | exact Hl].
      rewrite <- (length_map Portfolio.row_date), Hmap. reflexivity. }
    destruct Hcurve as [Hdates [Hdays Hliquid]].
    split; [ | split; [ | split; [exact Hdays | exact Hliquid]]].
    + destruct (Portfolio.calendar one_year_before ohlcv_data valid
                  start_date end_date) as [ds | ];
        rewrite Hdates; [apply Hcal | constructor].
    + destruct (Portfolio.calendar one_year_before ohlcv_data valid
                  start_date end_date) as [ds | ].
      * destruct Hcal as [_ [s [e [Hs [He [Hs0 [He0 Hin]]]]]]].
        exists s, e. rewrite Hdates.
        split; [exact Hs | ]. split; [exact He | ]. split; [exact Hs0 | ].
        split; [intros Hn _; apply He0, Hn | exact Hin].
      * exists (match start_date with
                | Some s => s
                | None => one_year_before (match end_date with
                                           | Some e => e
                                           | None => 0%Z
                                           end)
                end),
               (match end_date with Some e => e | None => 0%Z end).
        split; [intros s0 ->; reflexivity | ].
        split; [intros e0 ->; reflexivity | ].
        split; [intros ->; reflexivity | ].
        split; [intros _ Hne; contradiction | ].
        intros d. rewrite Hdates. split; [intros [] | ].
        intros [_ [t [o [Ht _]]]]. rewrite Hcal in Ht. contradiction.
Qed.

Lemma equity_curve_one_row_per_day_witness :
  let s0 := Sample.day 100 in
  let e0 := Sample.day 119 in
  exists res,
    simulate_ticker RunSample.back RunSample.engine "UP" (Sample.rising 130) []
      (Some s0) (Some e0) = Ok res
    /\ map eq_date (res_equity_curve res) = map Sample.day (seq 100 20)
    /\ map eq_date (res_equity_curve res)
       = days_between (Sample.rising 130) s0 e0
    /\ total_days res = 20%nat.
Proof.
  intros s0 e0. eexists. split; [vm_compute; reflexivity | ].
  split; [vm_compute; reflexivity | ].
  destruct (proj1 (@equity_curve_one_row_per_day _ EntryPointScanner_scanner
                     RunSample.back)
              RunSample.engine "UP" (Sample.rising 130) [] (Some s0) (Some e0) _
              ltac:(vm_compute; reflexivity))
    as [Hdays [_ Hwindow]].
  destruct (Hwindow (ascending_sound (index (Sample.rising 130)) eq_refl))
    as [_ [s [e [_ [_ [Hs [He [Hdates _]]]]]]]].
  rewrite (Hs s0 eq_refl), (He e0 eq_refl) in Hdates.
  split; [exact Hdates | ]. rewrite Hdays. vm_compute. reflexivity.
Defined.

(* ------------------------------------------------------------------ *)
(** ** The portfolio run returns *)

Lemma in_index_loc_row (d : Timestamp) (o : DataFrame) :
  in_index d o = true -> exists b, loc_row o d = Some b.
Proof.
  unfold in_index, loc_row. induction o as [ | b0 o IH]; cbn [existsb find];
    [discriminate | ].
  destruct (Date b0 =? d)%Z; [intros _; eexists; reflexivity | exact IH].
Qed.

Lemma Permutation_firstn_In (A : Type) (n : nat) (l l' : list A) (x : A) :
  Permutation l' l -> In x (firstn n l') -> In x l.
Proof.
  intros Hp Hin. eapply Permutation_in; [exact Hp | ].
  rewrite <- (firstn_skipn n l'). apply in_or_app. left. exact Hin.
Qed.

Section PortfolioReturns.
Context {S : Type} `{BaseScanner S}.
Variable engine : Portfolio.PortfolioEngine S.
Variable ohlcv_data : list (string * DataFrame).
Variable fundamentals_data : list (string * Series).
Variable scanner_per_ticker : list (string * S).
Variable valid_tickers : list string.

(** Every valid ticker has a frame and a scanner whose hooks return on
    that frame. *)
Hypothesis Hvalid :
  forall t, In t valid_tickers ->
    exists o sc,
      dict_get String.eqb t ohlcv_data = Some o
      /\ dict_get String.eqb t scanner_per_ticker = Some sc
      /\ (forall d, exists r,
            check_entry_signal sc t o
              (Portfolio.fundamentals_of fundamentals_data t) d = Ok r)
      /\ (forall p d, exists r, check_exit_signal sc t o p d = Ok r).

(** The book only holds valid tickers. *)
Definition book_valid (open_positions : list (string * Portfolio.OpenPosition))
    : Prop :=
  forall t, In t (dict_keys open_positions) -> In t valid_tickers.

Lemma exits_loop_returns (d : Timestamp)
    (items : list (string * Portfolio.OpenPosition)) :
  book_valid items ->
  forall c ts ks, exists r,
    Portfolio.exits_loop ohlcv_data scanner_per_ticker d items c ts ks = Ok r.
Proof.
  unfold book_valid.
  induction items as [ | [t pos] items IH]; intros Hbook c ts ks;
    cbn [Portfolio.exits_loop]; [eexists; reflexivity | ].
  assert (Hrest : forall t0, In t0 (dict_keys items) -> In t0 valid_tickers)
    by (intros t0 Ht0; apply Hbook; right; exact Ht0).
  destruct (Hvalid t (Hbook t (or_introl eq_refl))) as [o [sc [Ho [Hsc [_ Hx]]]]].
  unfold Portfolio.getitem. rewrite Ho. cbn [bind].
  destruct (negb (in_index d o)); [apply IH; exact Hrest | ].
  rewrite Hsc. cbn [bind].
  destruct (Hx (Portfolio.entry_signal pos) d) as [[x | ] Hr]; rewrite Hr;
    cbn [bind]; apply IH; exact Hrest.
Qed.

Lemma collect_candidates_returns (d : Timestamp)
    (open_positions : list (string * Portfolio.OpenPosition))
    (tickers : list string) :
  (forall t, In t tickers -> In t valid_tickers) ->
  forall cands asked,
    (forall c, In c cands -> In (Portfolio.cand_ticker c) valid_tickers) ->
    exists r,
      Portfolio.collect_candidates ohlcv_data fundamentals_data scanner_per_ticker
        d open_positions tickers cands asked = Ok r
      /\ forall c, In c (fst r) -> In (Portfolio.cand_ticker c) valid_tickers.
Proof.
  induction tickers as [ | t tickers IH]; intros Hsub cands asked Hc;
    cbn [Portfolio.collect_candidates].
  - eexists. split; [reflexivity | exact Hc].
  - assert (Hrest : forall t0, In t0 tickers -> In t0 valid_tickers)
      by (intros t0 Ht0; apply Hsub; right; exact Ht0).
    destruct (dict_mem String.eqb t open_positions); [apply IH; assumption | ].
    destruct (Hvalid t (Hsub t (or_introl eq_refl))) as [o [sc [Ho [Hsc [He _]]]]].
    unfold Portfolio.getitem. rewrite Ho. cbn [bind].
    destruct (negb (in_index d o)); [apply IH; assumption | ].
    rewrite Hsc. cbn [bind].
    destruct (He d) as [[e | ] Hr]; rewrite Hr; cbn [bind]; apply IH;
      try assumption.
    intros c Hin. apply in_app_or in Hin.
    destruct Hin as [Hin | [<- | []]]; [apply Hc, Hin | ].
    unfold Portfolio.cand_ticker. cbn [fst snd].
    apply Hsub. left. reflexivity.
Qed.

Lemma open_loop_book_valid (cands : list Portfolio.Candidate) (c : Q)
    (open_positions : list (string * Portfolio.OpenPosition)) :
  (forall x, In x cands -> In (Portfolio.cand_ticker x) valid_tickers) ->
  book_valid open_positions ->
  book_valid (snd (Portfolio.open_loop engine cands c open_positions)).
Proof.
  unfold book_valid. revert c open_positions.
  induction cands as [ | x cands IH]; intros c d Hc Hbook;
    cbn [Portfolio.open_loop]; [exact Hbook | ].
  destruct (Qltb _ _); [exact Hbook | ].
  apply IH; [intros y Hy; apply Hc; right; exact Hy | ].
  intros t Ht.
  rewrite (@dict_set_keys _ _ String.eqb string_eqb_reflect) in Ht.
  destruct (dict_mem String.eqb (Portfolio.cand_ticker x) d);
    [apply Hbook, Ht | ].
  apply in_app_or in Ht. destruct Ht as [Ht | [<- | []]]; [apply Hbook, Ht | ].
  apply Hc. left. reflexivity.
Qed.

Lemma entries_step_returns (d : Timestamp) (c : Q)
    (open_positions : list (string * Portfolio.OpenPosition)) :
  book_valid open_positions ->
  exists r,
    Portfolio.entries_step engine ohlcv_data fundamentals_data scanner_per_ticker
      valid_tickers d c open_positions = Ok r
    /\ book_valid (snd (fst r)).
Proof.
  intros Hbook. unfold Portfolio.entries_step.
  destruct (_ && _); [ | eexists; split; [reflexivity | exact Hbook]].
  destruct (@collect_candidates_returns d open_positions valid_tickers
              (fun t Ht => Ht) [] [] (fun c0 (F : In c0 []) => match F with end))
    as [[cands asked] [Hcol Hc]].
  rewrite Hcol. cbn [bind]. eexists. split; [reflexivity | ].
  cbn [fst snd]. apply open_loop_book_valid; [ | exact Hbook].
  intros x Hx. apply Hc. cbn [fst].
  eapply Permutation_firstn_In; [ | exact Hx]. apply sort_desc_perm.
Qed.

Lemma mark_price_returns (d : Timestamp) (o : DataFrame)
    (pos : Portfolio.OpenPosition) :
  exists p, Portfolio.mark_price d o pos = Ok p.
Proof.
  unfold Portfolio.mark_price.
  destruct (in_index d o) eqn:Hin.
  - destruct (in_index_loc_row _ _ Hin) as [b Hb]. rewrite Hb. eexists. reflexivity.
  - destruct (last_opt (filter (fun d0 => (d0 <? d)%Z) (index o))) as [p | ] eqn:Hp;
      [ | eexists; reflexivity].
    apply last_opt_In, filter_In in Hp. destruct Hp as [Hp _].
    destruct (loc_row_In _ _ Hp) as [b Hb]. rewrite Hb. eexists. reflexivity.
Qed.

Lemma positions_value_returns (d : Timestamp)
    (items : list (string * Portfolio.OpenPosition)) :
  book_valid items ->
  forall acc, exists v, Portfolio.positions_value ohlcv_data d items acc = Ok v.
Proof.
  unfold book_valid.
  induction items as [ | [t pos] items IH]; intros Hbook acc;
    cbn [Portfolio.positions_value]; [eexists; reflexivity | ].
  destruct (Hvalid t (Hbook t (or_introl eq_refl))) as [o [_ [Ho _]]].
  unfold Portfolio.getitem. rewrite Ho. cbn [bind].
  destruct (mark_price_returns d o pos) as [p Hp]. rewrite Hp. cbn [bind].
  apply IH. intros t0 Ht0. apply Hbook. right. exact Ht0.
Qed.

Lemma close_all_book_valid (ks : list string)
    (open_positions : list (string * Portfolio.OpenPosition)) :
  book_valid open_positions -> book_valid (Portfolio.close_all ks open_positions).
Proof.
  unfold Portfolio.close_all, book_valid. revert open_positions.
  induction ks as [ | k ks IH]; intros d Hbook; cbn [fold_left]; [exact Hbook | ].
  apply IH. intros t Ht. apply Hbook. eapply dict_del_keys_incl. exact Ht.
Qed.

Lemma pf_day_step_returns (st : Portfolio.State) (d : Timestamp) :
  book_valid (Portfolio.open_positions st) ->
  exists st',
    Portfolio.day_step engine ohlcv_data fundamentals_data scanner_per_ticker
      valid_tickers st d = Ok st'
    /\ book_valid (Portfolio.open_positions st').
Proof.
  intros Hbook. unfold Portfolio.day_step.
  destruct (exits_loop_returns d Hbook (Portfolio.cash st) (Portfolio.trades st) [])
    as [[[c1 t1] ks] Hex].
  rewrite Hex. cbn [bind fst snd].
  destruct (entries_step_returns d c1 (close_all_book_valid ks Hbook))
    as [[[c2 o2] asked] [Hen Hbook2]].
  rewrite Hen. cbn [bind fst snd] in *.
  destruct (positions_value_returns d Hbook2 0) as [pv Hpv].
  rewrite Hpv. cbn [bind]. eexists. split; [reflexivity | exact Hbook2].
Qed.

Lemma pf_day_loop_returns (days : list Timestamp) (st : Portfolio.State) :
  book_valid (Portfolio.open_positions st) ->
  exists st',
    Portfolio.day_loop engine ohlcv_data fundamentals_data scanner_per_ticker
      valid_tickers st days = Ok st'
    /\ book_valid (Portfolio.open_positions st').
Proof.
  revert st. induction days as [ | d days IH]; intros st Hbook;
    cbn [Portfolio.day_loop]; [eexists; split; [reflexivity | exact Hbook] | ].
  destruct (pf_day_step_returns st d Hbook) as [st1 [Hst1 Hbook1]].
  rewrite Hst1. cbn [bind]. apply IH. exact Hbook1.
Qed.

Lemma force_close_loop_returns (last_date : Timestamp)
    (items : list (string * Portfolio.OpenPosition)) :
  book_valid items ->
  forall c ts, exists r,
    Portfolio.force_close_loop ohlcv_data last_date items c ts = Ok r.
Proof.
  unfold book_valid.
  induction items as [ | [t pos] items IH]; intros Hbook c ts;
    cbn [Portfolio.force_close_loop]; [eexists; reflexivity | ].
  destruct (Hvalid t (Hbook t (or_introl eq_refl))) as [o [_ [Ho _]]].
  unfold Portfolio.getitem. rewrite Ho. cbn [bind].
  assert (Hprice : exists p,
             match last_opt (filter (fun d => (d <=? last_date)%Z) (index o)) with
             | Some p0 =>
                 match loc_row o p0 with
                 | Some b => Ok (Close b)
                 | None => Raise KeyError
                 end
             | None => Ok (es_price (Portfolio.entry_signal pos))
             end = Ok p).
  { destruct (last_opt (filter (fun d => (d <=? last_date)%Z) (index o)))
      as [p0 | ] eqn:Hp; [ | eexists; reflexivity].
    apply last_opt_In, filter_In in Hp. destruct Hp as [Hp _].
    destruct (loc_row_In _ _ Hp) as [b Hb]. rewrite Hb. eexists. reflexivity. }
  destruct Hprice as [p Hp]. rewrite Hp. cbn [bind].
  apply IH. intros t0 Ht0. apply Hbook. right. exact Ht0.
Qed.

Lemma run_returns (sim_dates : list Timestamp) :
  sim_dates <> [] ->
  exists st,
    Portfolio.run engine ohlcv_data fundamentals_data scanner_per_ticker
      valid_tickers sim_dates = Ok st.
Proof.
  intros Hne. unfold Portfolio.run.
  destruct (@pf_day_loop_returns sim_dates
              (Portfolio.mkState (Portfolio.initial_capital engine) [] [] [] [])
              (fun t (F : In t []) => match F with end)) as [st [Hst Hbook]].
  rewrite Hst. cbn [bind].
  destruct (last_opt_nonempty Hne) as [last_date Hlast]. rewrite Hlast.
  destruct (force_close_loop_returns last_date Hbook (Portfolio.cash st)
              (Portfolio.trades st)) as [r Hr].
  rewrite Hr. cbn [bind]. eexists. reflexivity.
Qed.
End PortfolioReturns.

(** X18. [PortfolioEngine.simulate] with the entry-point scanner returns
    a result for any tickers, fundamentals and window dates and any frames
    with strictly ascending dates (so no date twice): no lookup by ticker
    or by date fails and no hook raises. *)
Theorem ep_portfolio_simulate_returns (one_year_before : Timestamp -> Timestamp)
    (engine : Portfolio.PortfolioEngine EntryPointScanner)
    (ohlcv_data : list (string * DataFrame))
    (fundamentals_data : list (string * Series)) (tickers : list string)
    (start_date end_date : option Timestamp) :
  Forall (fun kv => StronglySorted Z.lt (index (snd kv))) ohlcv_data ->
  exists res,
    Portfolio.simulate one_year_before engine ohlcv_data fundamentals_data
      tickers start_date end_date = Ok res.
Proof.
  intros _. unfold Portfolio.simulate.
  destruct (@prepare_all_inv EntryPointScanner EntryPointScanner_scanner engine
              ohlcv_data fundamentals_data tickers [] []
              (fun t (F : In t []) => match F with end)
              (fun t (F : In t []) => match F with end)) as [_ [Hprep _]].
  set (p := Portfolio.prepare_all engine ohlcv_data fundamentals_data tickers [] [])
    in *.
  destruct (Portfolio.calendar one_year_before ohlcv_data (snd p)
              start_date end_date) as [[ | d ds] | ];
    try (eexists; reflexivity).
  assert (Hvalid : forall t, In t (snd p) ->
            exists o sc,
              dict_get String.eqb t ohlcv_data = Some o
              /\ dict_get String.eqb t (fst p) = Some sc
              /\ (forall d0, exists r,
                    check_entry_signal sc t o
                      (Portfolio.fundamentals_of fundamentals_data t) d0 = Ok r)
              /\ (forall pos d0, exists r, check_exit_signal sc t o pos d0 = Ok r)).
  { intros t Ht. destruct (Hprep t Ht) as [o [sc [Ho [_ [Hsc Hp]]]]].
    exists o, sc. split; [exact Ho | ]. split; [exact Hsc | ].
    change (ep_prepare_simulation (Portfolio.scanner engine) t o
              (Portfolio.fundamentals_of fundamentals_data t) = Ok sc) in Hp.
    split.
    - intros d0. apply (@ep_entry_returns _ _ _ _ _ Hp).
    - intros pos d0. apply (@ep_prepared_exit_returns _ _ _ _ _ Hp). }
  destruct (@run_returns EntryPointScanner EntryPointScanner_scanner engine
              ohlcv_data fundamentals_data (fst p) (snd p) Hvalid (d :: ds)
              ltac:(discriminate)) as [st Hst].
  rewrite Hst. cbn [bind]. eexists. reflexivity.
Qed.

Lemma ep_portfolio_simulate_returns_witness :
  exists res,
    Portfolio.simulate RunSample.back PortfolioSample.engine
      PortfolioSample.ohlcv_data [] PortfolioSample.tickers None None = Ok res.
Proof.
  apply (@ep_portfolio_simulate_returns RunSample.back PortfolioSample.engine
           PortfolioSample.ohlcv_data [] PortfolioSample.tickers None None).
  apply Forall_forall. intros kv Hkv. apply ascending_sound.
  revert kv Hkv. apply Forall_forall.
  repeat (apply Forall_cons; [vm_compute; reflexivity | ]). apply Forall_nil.
Defined.

(* ------------------------------------------------------------------ *)
(** ** Entries of the portfolio engine move cash into the book *)

(** Dollars the book was bought for. *)
Definition book_cost (open_positions : list (string * Portfolio.OpenPosition))
    : Q :=
  Qsum (map (fun kv => Portfolio.cost_basis (snd kv)) open_positions).

Lemma book_cost_set_new (t : string) (pos : Portfolio.OpenPosition)
    (d : list (string * Portfolio.OpenPosition)) :
  dict_mem String.eqb t d = false ->
  book_cost (dict_set String.eqb t pos d) == book_cost d + Portfolio.cost_basis pos.
Proof.
  unfold dict_mem, book_cost.
  induction d as [ | [k v] d IH]; cbn [dict_get dict_set map snd].
  - intros _. rewrite Qsum_cons. unfold Qsum. cbn [fold_left]. ring.
  - destruct (String.eqb t k); [discriminate | ].
    intros Hget. cbn [map snd]. rewrite !Qsum_cons, (IH Hget). ring.
Qed.

Lemma NoDup_firstn (A : Type) (n : nat) (l : list A) :
  NoDup l -> NoDup (firstn n l).
Proof.
  intros Hnd. rewrite <- (firstn_skipn n l) in Hnd.
  apply NoDup_app_remove_r in Hnd. exact Hnd.
Qed.

Section EntriesConserve.
Context {S : Type} `{BaseScanner S}.
Variable engine : Portfolio.PortfolioEngine S.
Variable ohlcv_data : list (string * DataFrame).
Variable fundamentals_data : list (string * Series).
Variable scanner_per_ticker : list (string * S).
Variable valid_tickers : list string.

Lemma open_loop_conserves (cands : list Portfolio.Candidate) (c : Q)
    (open_positions : list (string * Portfolio.OpenPosition)) :
  NoDup (map Portfolio.cand_ticker cands) ->
  (forall x, In x cands ->
     dict_mem String.eqb (Portfolio.cand_ticker x) open_positions = false) ->
  fst (Portfolio.open_loop engine cands c open_positions)
  + book_cost (snd (Portfolio.open_loop engine cands c open_positions))
  == c + book_cost open_positions.
Proof.
  revert c open_positions.
  induction cands as [ | x cands IH]; intros c d Hnd Hnew;
    cbn [Portfolio.open_loop]; [reflexivity | ].
  destruct (Qltb _ _); [reflexivity | ].
  cbn [map] in Hnd. inversion Hnd as [ | ? ? Hnotin Hnd']; subst.
  rewrite IH; [ | exact Hnd' | ].
  - rewrite book_cost_set_new by (apply Hnew; left; reflexivity).
    cbn [Portfolio.cost_basis]. ring.
  - intros y Hy. unfold dict_mem.
    rewrite (@dict_get_set _ _ String.eqb string_eqb_reflect).
    destruct (String.eqb_spec (Portfolio.cand_ticker y) (Portfolio.cand_ticker x))
      as [Heq | Hne].
    + exfalso. apply Hnotin. rewrite <- Heq. apply in_map. exact Hy.
    + apply (Hnew y). right. exact Hy.
Qed.

Lemma candidates_tickers (d : Timestamp) (l : list string) :
  map Portfolio.cand_ticker
    (flat_map (fun t =>
                 match entry_signal_of ohlcv_data fundamentals_data
                         scanner_per_ticker d t with
                 | Some e => [(Portfolio.metadata_score e, t, e)]
                 | None => []
                 end) l)
  = filter (fun t =>
              match entry_signal_of ohlcv_data fundamentals_data
                      scanner_per_ticker d t with
              | Some _ => true
              | None => false
              end) l.
Proof.
  induction l as [ | t l IH]; cbn [flat_map filter map]; [reflexivity | ].
  destruct (entry_signal_of ohlcv_data fundamentals_data scanner_per_ticker d t);
    cbn [app map]; [ | exact IH].
  rewrite IH. reflexivity.
Qed.

End EntriesConserve.

(** X19. Entries only move money from cash into the book: with a list of
    valid tickers that names no ticker twice, the cash after the entry
    step of a day plus the cost basis of the book equals the cash plus
    the cost basis before it (exact arithmetic). *)
Theorem entries_conserve_value (S : Type) (H : BaseScanner S)
    (engine : Portfolio.PortfolioEngine S)
    (ohlcv_data : list (string * DataFrame))
    (fundamentals_data : list (string * Series))
    (scanner_per_ticker : list (string * S)) (valid_tickers : list string)
    (d : Timestamp) (cash : Q)
    (open_positions : list (string * Portfolio.OpenPosition))
    (cash' : Q) (open' : list (string * Portfolio.OpenPosition))
    (asked : list string) :
  NoDup valid_tickers ->
  Portfolio.entries_step engine ohlcv_data fundamentals_data scanner_per_ticker
    valid_tickers d cash open_positions = Ok (cash', open', asked) ->
  cash' + book_cost open' == cash + book_cost open_positions.
Proof.
  intros Hnd Hstep. unfold Portfolio.entries_step in Hstep.
  destruct (_ && _); [ | injection Hstep as <- <- _; reflexivity].
  apply bind_Ok_inv in Hstep. destruct Hstep as [[cands asked0] [Hcol Hstep]].
  injection Hstep as <- <- _. cbn [fst snd].
  apply collect_candidates_as_specified in Hcol. destruct Hcol as [_ Hcands].
  cbn [app] in Hcands.
  set (queried := filter (fun t => negb (dict_mem String.eqb t open_positions)
                                   && trades_on ohlcv_data d t) valid_tickers) in *.
  assert (Htick : map Portfolio.cand_ticker cands
                  = filter (fun t =>
                              match entry_signal_of ohlcv_data fundamentals_data
                                      scanner_per_ticker d t with
                              | Some _ => true
                              | None => false
                              end) queried)
    by (rewrite Hcands; apply candidates_tickers).
  assert (Hperm : Permutation (map Portfolio.cand_ticker (Portfolio.sort_desc cands))
                              (map Portfolio.cand_ticker cands))
    by (apply Permutation_map, sort_desc_perm).
  apply open_loop_conserves.
  - rewrite <- firstn_map. apply NoDup_firstn.
    eapply Permutation_NoDup; [apply Permutation_sym; exact Hperm | ].
    rewrite Htick. apply NoDup_filter. unfold queried. apply NoDup_filter. exact Hnd.
  - intros x Hx.
    assert (Hin : In (Portfolio.cand_ticker x) (map Portfolio.cand_ticker cands)).
    { eapply Permutation_in; [exact Hperm | ]. apply in_map.
      rewrite <- (firstn_skipn (Z.to_nat (Portfolio.max_positions engine
                                          - Z.of_nat (length open_positions)))
                               (Portfolio.sort_desc cands)).
      apply in_or_app. left. exact Hx. }
    rewrite Htick in Hin. apply filter_In in Hin. destruct Hin as [Hin _].
    unfold queried in Hin. apply filter_In in Hin. destruct Hin as [_ Hq].
    apply andb_true_iff in Hq. destruct Hq as [Hq _].
    apply negb_true_iff in Hq. exact Hq.
Qed.

Lemma entries_conserve_value_witness :
  exists cash' open' asked,
    Portfolio.entries_step PortfolioSample.engine PortfolioSample.ohlcv_data []
      (fst PortfolioSample.prepared) (snd PortfolioSample.prepared)
      PortfolioSample.day100 100000 [] = Ok (cash', open', asked)
    /\ cash' == 50000 /\ book_cost open' == 50000
    /\ cash' + book_cost open' == 100000 + book_cost [].
Proof.
  eexists. eexists. eexists. split; [vm_compute; reflexivity | ].
  split; [vm_compute; reflexivity | ].
  split; [vm_compute; reflexivity | ].
  refine (@entries_conserve_value _ _ PortfolioSample.engine
            PortfolioSample.ohlcv_data [] (fst PortfolioSample.prepared)
            (snd PortfolioSample.prepared) PortfolioSample.day100 100000 []
            _ _ _ _ _).
  - vm_compute. repeat (constructor; [intros Hin; vm_compute in Hin; intuition discriminate | ]).
    constructor.
  - vm_compute. reflexivity.
Defined.

Module DuplicateSample.
(** Two slots of 50,000 dollars, and the ticker named twice. *)
Definition engine : Portfolio.PortfolioEngine EntryPointScanner :=
  Portfolio.mkPortfolioEngine EntryPointScanner_init 100000 2 (1 # 2).

Definition prepared : list (string * EntryPointScanner) * list string :=
  Portfolio.prepare_all engine PortfolioSample.ohlcv_data [] ["AAA"; "AAA"] [] [].
End DuplicateSample.

(** With a ticker named twice the entry step takes it as two candidates:
    cash is spent twice, the book keeps one position, and 50,000 dollars
    are gone. *)
Example duplicate_ticker_loses_cash :
  exists cash' open' asked,
    snd DuplicateSample.prepared = ["AAA"; "AAA"]
    /\ Portfolio.entries_step DuplicateSample.engine PortfolioSample.ohlcv_data []
         (fst DuplicateSample.prepared) (snd DuplicateSample.prepared)
         PortfolioSample.day100 100000 [] = Ok (cash', open', asked)
    /\ cash' == 0 /\ dict_keys open' = ["AAA"] /\ book_cost open' == 50000.
Proof.
  eexists. eexists. eexists.
  split; [vm_compute; reflexivity | ].
  split; [vm_compute; reflexivity | ].
  split; [vm_compute; reflexivity | ].
  split; vm_compute; reflexivity.
Qed.

(* ------------------------------------------------------------------ *)
(** ** Forced close of the portfolio engine (phase 4) *)

(** The END_OF_DATA trade of an open position. *)
Definition closes_at_end (last_date : Timestamp)
    (kv : string * Portfolio.OpenPosition) (t : Trade) : Prop :=
  ticker t = fst kv
  /\ entry_date t = es_date (Portfolio.entry_signal (snd kv))
  /\ entry_price t = es_price (Portfolio.entry_signal (snd kv))
  /\ exit_date t = last_date
  /\ exit_reason t = "END_OF_DATA"
  /\ hold_days t = (last_date - entry_date t)%Z.

(** Dollars the forced close pays out. *)
Definition proceeds (items : list (string * Portfolio.OpenPosition))
    (closed : list Trade) : Q :=
  Qsum (map (fun p => Portfolio.op_shares (snd (fst p)) * exit_price (snd p))
            (combine items closed)).

Lemma force_close_loop_inv (ohlcv_data : list (string * DataFrame))
    (last_date : Timestamp) (items : list (string * Portfolio.OpenPosition)) :
  forall c ts c' ts',
    Portfolio.force_close_loop ohlcv_data last_date items c ts = Ok (c', ts') ->
    exists closed,
      ts' = ts ++ closed
      /\ Forall2 (closes_at_end last_date) items closed
      /\ c' == c + proceeds items closed.
Proof.
  induction items as [ | [t pos] items IH]; intros c ts c' ts' Hfc;
    cbn [Portfolio.force_close_loop] in Hfc.
  - injection Hfc as <- <-. exists []. rewrite app_nil_r.
    split; [reflexivity | ]. split; [constructor | ].
    unfold proceeds, Qsum. cbn. ring.
  - apply bind_Ok_inv in Hfc. destruct Hfc as [o [_ Hfc]].
    apply bind_Ok_inv in Hfc. destruct Hfc as [lp [_ Hfc]].
    destruct (IH _ _ _ _ Hfc) as [closed [Hts [Hall Hc]]].
    eexists (_ :: closed). split; [rewrite Hts, <- app_assoc; reflexivity | ].
    split.
    + constructor; [ | exact Hall]. unfold closes_at_end. cbn. auto 10.
    + rewrite Hc. unfold proceeds. cbn [combine map fst snd exit_price].
      rewrite Qsum_cons. ring.
Qed.

(** X20. Phase 4 closes every position still open after the last day,
    in book order, each with one END_OF_DATA trade dated the last
    simulated day and carrying the position's ticker, entry date and entry
    price; the trades of the day loop are kept in front of them, and the
    final cash is the cash after the loop plus shares times exit price of
    the closed positions (exact arithmetic). *)
Theorem run_force_closes_open_positions (S : Type) (H : BaseScanner S)
    (engine : Portfolio.PortfolioEngine S)
    (ohlcv_data : list (string * DataFrame))
    (fundamentals_data : list (string * Series))
    (scanner_per_ticker : list (string * S)) (valid_tickers : list string)
    (sim_dates : list Timestamp) (st : Portfolio.State) :
  Portfolio.run engine ohlcv_data fundamentals_data scanner_per_ticker
    valid_tickers sim_dates = Ok st ->
  exists st1 last_date closed,
    Portfolio.day_loop engine ohlcv_data fundamentals_data scanner_per_ticker
      valid_tickers
      (Portfolio.mkState (Portfolio.initial_capital engine) [] [] [] [])
      sim_dates = Ok st1
    /\ last_opt sim_dates = Some last_date
    /\ Portfolio.trades st = Portfolio.trades st1 ++ closed
    /\ Forall2 (closes_at_end last_date) (Portfolio.open_positions st1) closed
    /\ Portfolio.cash st
       == Portfolio.cash st1 + proceeds (Portfolio.open_positions st1) closed.
Proof.
  unfold Portfolio.run. intros Hrun.
  apply bind_Ok_inv in Hrun. destruct Hrun as [st1 [Hloop Hrun]].
  destruct (last_opt sim_dates) as [last_date | ]; [ | discriminate].
  apply bind_Ok_inv in Hrun. destruct Hrun as [[c ts] [Hfc Hrun]].
  injection Hrun as <-. cbn [Portfolio.trades Portfolio.cash fst snd].
  destruct (force_close_loop_inv _ _ _ _ _ Hfc) as [closed [Hts [Hall Hc]]].
  exists st1, last_date, closed. auto.
Qed.

Lemma run_force_closes_open_positions_witness :
  exists st,
    Portfolio.run PortfolioSample.engine PortfolioSample.ohlcv_data []
      (fst PortfolioSample.prepared) (snd PortfolioSample.prepared)
      PortfolioSample.calendar = Ok st
    /\ last (map exit_reason (Portfolio.trades st)) "" = "END_OF_DATA"
    /\ exists st1 last_date closed,
         Portfolio.day_loop PortfolioSample.engine PortfolioSample.ohlcv_data []
           (fst PortfolioSample.prepared) (snd PortfolioSample.prepared)
           (Portfolio.mkState (Portfolio.initial_capital PortfolioSample.engine)
              [] [] [] [])
           PortfolioSample.calendar = Ok st1
         /\ last_opt PortfolioSample.calendar = Some last_date
         /\ Portfolio.trades st = Portfolio.trades st1 ++ closed
         /\ Forall2 (closes_at_end last_date) (Portfolio.open_positions st1) closed
         /\ Portfolio.cash st
            == Portfolio.cash st1 + proceeds (Portfolio.open_positions st1) closed.
Proof.
  eexists. split; [vm_compute; reflexivity | ].
  split; [vm_compute; reflexivity | ].
  refine (@run_force_closes_open_positions _ _ PortfolioSample.engine
            PortfolioSample.ohlcv_data [] (fst PortfolioSample.prepared)
            (snd PortfolioSample.prepared) PortfolioSample.calendar _ _).
  vm_compute. reflexivity.
Defined.

(* ------------------------------------------------------------------ *)
(** ** No usable ticker: the empty result *)

(** X21. When no requested ticker has a frame with bars whose preparation
    returns, [PortfolioEngine.simulate] returns the empty result: no
    trades, no equity curve, zero days, and the initial capital as final
    equity. *)
Theorem simulate_without_usable_ticker (S : Type) (H : BaseScanner S)
    (one_year_before : Timestamp -> Timestamp)
    (engine : Portfolio.PortfolioEngine S)
    (ohlcv_data : list (string * DataFrame))
    (fundamentals_data : list (string * Series)) (tickers : list string)
    (start_date end_date : option Timestamp) :
  (forall t, In t tickers -> usable engine ohlcv_data fundamentals_data t = false) ->
  Portfolio.simulate one_year_before engine ohlcv_data fundamentals_data tickers
    start_date end_date
  = Ok (Portfolio.mkPortfolioResult [] [] (Portfolio.initial_capital engine) 0 0).
Proof.
  intros Hnone. unfold Portfolio.simulate.
  destruct (@prepare_all_inv S H engine ohlcv_data fundamentals_data tickers [] []
              (fun t (F : In t []) => match F with end)
              (fun t (F : In t []) => match F with end)) as [Hvalid _].
  cbn [app] in Hvalid.
  assert (Hempty : filter (usable engine ohlcv_data fundamentals_data) tickers = []).
  { clear Hvalid. induction tickers as [ | t ts IH]; cbn [filter]; [reflexivity | ].
    rewrite (Hnone t (or_introl eq_refl)). apply IH.
    intros t0 Ht0. apply Hnone. right. exact Ht0. }
  rewrite Hvalid, Hempty. reflexivity.
Qed.

Lemma simulate_without_usable_ticker_witness :
  Portfolio.simulate RunSample.back PortfolioSample.engine
    [("AAA", [])] [] ["AAA"; "ZZZ"] None None
  = Ok (Portfolio.mkPortfolioResult [] []
          (Portfolio.initial_capital PortfolioSample.engine) 0 0).
Proof.
  apply (@simulate_without_usable_ticker _ _ RunSample.back PortfolioSample.engine
           [("AAA", [])] [] ["AAA"; "ZZZ"] None None).
  intros t [<- | [<- | []]]; reflexivity.
Defined.

(* ------------------------------------------------------------------ *)
(** ** Trades closed by the default exit rules *)

(** What an exit signal of [BaseScanner.check_exit_signal] says. *)
Lemma base_check_exit_signal_cases (tkr : string) (ohlcv : DataFrame)
    (e : EntrySignal) (d : Timestamp) (x : ExitSignal) :
  base_check_exit_signal tkr ohlcv e d = Ok (Some x) ->
  xs_date x = d
  /\ (xs_reason x = "STOP_LOSS" /\ xs_price x < es_price e * (90 # 100)
      \/ xs_reason x = "TIME_EXIT" /\ es_price e * (90 # 100) <= xs_price x
         /\ (30 <= d - es_date e)%Z).
Proof.
  unfold base_check_exit_signal.
  destruct (last_opt (loc_upto ohlcv d)) as [b | ]; [ | discriminate].
  destruct (Qltb (Close b) (es_price e * (90 # 100))) eqn:Hstop.
  - intros E. injection E as <-. cbn. split; [reflexivity | ].
    left. split; [reflexivity | apply Qltb_lt, Hstop].
  - destruct (Z.leb_spec 30 (d - es_date e)) as [Hheld | Hshort]; [ | discriminate].
    intros E. injection E as <-. cbn. split; [reflexivity | ].
    right. split; [reflexivity | ]. split; [apply Qltb_ge, Hstop | exact Hheld].
Qed.

(** A trade closed by the default rules, for a positive entry price: a
    stop-loss that lost at least 10 percent, or a time exit after at least
    30 days that lost at most 10 percent. *)
Definition default_rule_trade (t : Trade) : Prop :=
  0 < entry_price t ->
  exit_reason t = "STOP_LOSS" /\ return_pct t <= - (10)
  \/ exit_reason t = "TIME_EXIT" /\ - (10) <= return_pct t
     /\ (30 <= hold_days t)%Z.

Lemma default_rule_trade_of (tkr : string) (ohlcv : DataFrame)
    (pos : EntrySignal) (d : Timestamp) (x : ExitSignal) :
  base_check_exit_signal tkr ohlcv pos d = Ok (Some x) ->
  default_rule_trade (trade_of tkr pos (xs_date x) (xs_price x) (xs_reason x)).
Proof.
  intros Hx. apply base_check_exit_signal_cases in Hx.
  destruct Hx as [Hd Hcase]. unfold default_rule_trade, trade_of.
  cbn [entry_price exit_reason return_pct hold_days]. intros Hp.
  destruct Hcase as [[Hr Hlow] | [Hr [Hhigh Hheld]]].
  - left. split; [exact Hr | ].
    assert (Hq : (xs_price x - es_price pos) / es_price pos <= - (1 # 10))
      by (apply Qle_shift_div_r; [exact Hp | lra]).
    change (- (10)) with (inject_Z (-10)). apply (@py_round_le _ 2 (-10)).
    change (inject_Z (-10)) with (- (10)). lra.
  - right. split; [exact Hr | ]. split.
    + assert (Hq : - (1 # 10) <= (xs_price x - es_price pos) / es_price pos)
        by (apply Qle_shift_div_l; [exact Hp | lra]).
      change (- (10)) with (inject_Z (-10)). apply (@py_round_ge _ 2 (-10)).
      change (inject_Z (-10)) with (- (10)). lra.
    + rewrite Hd. exact Hheld.
Qed.

(** X22. With a scanner that inherits the default hooks, every trade the
    day loop of the single-ticker engine closes is a stop-loss or a time
    exit; for a positive entry price a stop-loss trade has a return of at
    most -10 percent and a time-exit trade was held at least 30 days and
    has a return of at least -10 percent: the stop-loss is tested first. *)
Theorem default_exit_rules_trades (a : PlainScanner)
    (engine : SimulationEngine PlainScanner) (tkr : string) (ohlcv : DataFrame)
    (fundamentals : Series) (days : DataFrame) (st : SimState) :
  day_loop engine tkr ohlcv fundamentals a (init_state engine) days = Ok st ->
  Forall default_rule_trade (trades st).
Proof.
  assert (Hgen : forall days0 st0 st1,
             Forall default_rule_trade (trades st0) ->
             day_loop engine tkr ohlcv fundamentals a st0 days0 = Ok st1 ->
             Forall default_rule_trade (trades st1)).
  { induction days0 as [ | b days0 IH]; intros st0 st1 Hall Hloop;
      cbn [day_loop] in Hloop.
    - injection Hloop as <-. exact Hall.
    - apply bind_Ok_inv in Hloop. destruct Hloop as [st2 [Hstep Hloop]].
      apply (IH st2 st1); [ | exact Hloop].
      apply day_step_inv in Hstep. destruct (position st0) as [pos | ].
      + destruct Hstep as [[x | ] [Hx Hst2]].
        * destruct Hst2 as [_ [-> _]]. apply Forall_app. split; [exact Hall | ].
          constructor; [ | constructor].
          apply (@default_rule_trade_of tkr ohlcv pos (Date b) x). exact Hx.
        * destruct Hst2 as [_ [-> _]]. exact Hall.
      + destruct Hstep as [entry [_ [-> _]]]. exact Hall. }
  intros Hloop. apply (Hgen days (init_state engine) st); [constructor | exact Hloop].
Qed.

Module DefaultRulesSample.
(** Sixty flat bars at 100, then a drop to 89: with a scanner that always
    says BUY the position entered on the 50th bar is stopped out. *)
Definition bar (i : nat) : Bar :=
  if (i <? 60)%nat then mkBar (Sample.day i) 100 100 100 100 1000
  else mkBar (Sample.day i) 89 89 89 89 1000.

Definition ohlcv : DataFrame := map bar (seq 0 62).

Definition engine : SimulationEngine PlainScanner :=
  mkSimulationEngine always_buy 100000 1.
End DefaultRulesSample.

Lemma default_exit_rules_trades_witness :
  exists st,
    day_loop DefaultRulesSample.engine "UP" DefaultRulesSample.ohlcv [] always_buy
      (init_state DefaultRulesSample.engine) DefaultRulesSample.ohlcv = Ok st
    /\ map exit_reason (trades st) = ["STOP_LOSS"]
    /\ map return_pct (trades st) = [- (11)]
    /\ Forall default_rule_trade (trades st).
Proof.
  eexists. split; [vm_compute; reflexivity | ].
  split; [vm_compute; reflexivity | ].
  split; [vm_compute; reflexivity | ].
  refine (@default_exit_rules_trades always_buy DefaultRulesSample.engine "UP"
            DefaultRulesSample.ohlcv [] DefaultRulesSample.ohlcv _ _).
  vm_compute. reflexivity.
Defined.
